(** * Basketball training tracker: streak, weekly statistics and activity
      mutation policies

    A shallow embedding of [server/services/training.js] and of the route
    handlers of [server/routes/stats.js] and [server/routes/training.js],
    followed by the account services, middleware and routes.

    Conventions of the embedding.
    - A calendar date is the number of days since 1970-01-01 (a [Z]).  The
      JavaScript code converts between [Date] objects and [YYYY-MM-DD]
      strings; both are in bijection with day numbers when the process runs
      with the UTC time zone, which is what the data model (dates stored at
      UTC midnight) requires.  [setDate(getDate() - 1)] is then [d - 1].
    - The ambient clock is an explicit argument: [today] for the statistics,
      [now] (an [HH:MM] string) for the completion stamps.
    - Record ids are opaque keys generated by the store; they are natural
      numbers here and a new row gets an id larger than every id of its
      table.  A table is the list of its rows in insertion order, and a
      query without [orderBy] returns rows in that order.
    - JavaScript [null]/[undefined] is [None]; truthiness and the operators
      [||] and [??] are written out.
    - Numbers are IEEE 754 doubles.  [Math.round((a / b) * 100)] is
      evaluated as the code writes it: the quotient is rounded to the nearest
      double, the product with 100 is rounded again, and [Math.round] takes
      the nearest integer of that double, halves upwards.  A counter
      incremented with [++] is exact up to 2^53, where it stays.
    - [Number(s)] is modelled on strings of decimal digits.  JavaScript also
      reads white space around the digits, a sign, a fraction, an exponent
      or a radix prefix; statements that depend on the value of a time are
      made for times written [HH:MM].
    - Make counts are integers, as the store's column is.
    - A [:date] path parameter is a day number, so a handler is modelled on
      the dates that parse; the shape test of [GET /api/training/:date] is
      part of that parsing.
    - Requests are served one at a time; the account routes only touch the
      user table, which is not part of the store here and is modelled on
      its own, as a list of users. *)

From Stdlib Require Import ZArith List String Ascii Bool Lia Arith Sorted.
From Stdlib Require Import Floats.SpecFloat.
Import ListNotations.
Local Open Scope string_scope.
Local Open Scope list_scope.
Local Open Scope Z_scope.

(** ** JavaScript values *)

Module JS.

(** [!!s] for a possibly absent string: absent and empty are falsy. *)
Definition truthy (o : option string) : bool :=
  match o with
  | Some s => negb (String.eqb s "")
  | None => false
  end.

(** [a ?? b] *)
Definition nullish {A} (a b : option A) : option A :=
  match a with
  | Some _ => a
  | None => b
  end.

(** [o || d] for a possibly absent string. *)
Definition or_str (o : option string) (d : string) : string :=
  match o with
  | Some s => if String.eqb s "" then d else s
  | None => d
  end.

(** [n || 0] for a possibly absent integer. *)
Definition or_zero (o : option Z) : Z :=
  match o with
  | Some n => if n =? 0 then 0 else n
  | None => 0
  end.

(** [xs.includes(x)] on strings. *)
Definition includes (xs : list string) (x : string) : bool :=
  existsb (String.eqb x) xs.

End JS.

(** ** Entities *)

Definition Id := nat.
Bind Scope nat_scope with Id.

Module PlannedActivity.
Record t := mk
  { id : Id;
    trainingDayId : Id;
    type : string;
    plannedTime : option string;
    location : option string;
    name : option string }.
End PlannedActivity.

Module ActualActivity.
Record t := mk
  { id : Id;
    trainingDayId : Id;
    type : string;
    completedAt : option string;
    shootingMakes : option Z }.
End ActualActivity.

(** A row of the training-day table. *)
Module DayRow.
Record t := mk
  { id : Id;
    userId : Id;
    date : Z;
    isGameDay : bool }.
End DayRow.

(** A training day as the queries return it, with its included relations. *)
Module TrainingDay.
Record t := mk
  { id : Id;
    userId : Id;
    date : Z;
    isGameDay : bool;
    plannedActivities : list PlannedActivity.t;
    actualActivities : list ActualActivity.t }.
End TrainingDay.

(** ** The persistence store *)

Record Store := mkStore
  { trainingDays : list DayRow.t;
    plannedTable : list PlannedActivity.t;
    actualTable : list ActualActivity.t }.

Definition emptyStore : Store := mkStore [] [] [].

Definition freshId (ids : list Id) : Id := S (list_max ids).

Module Prisma.

Definition plannedOf (s : Store) (dayId : Id) : list PlannedActivity.t :=
  filter (fun a => Nat.eqb (PlannedActivity.trainingDayId a) dayId)
         (plannedTable s).

Definition actualOf (s : Store) (dayId : Id) : list ActualActivity.t :=
  filter (fun a => Nat.eqb (ActualActivity.trainingDayId a) dayId)
         (actualTable s).

(** [include: { plannedActivities: true, actualActivities: true }] *)
Definition includeAll (s : Store) (r : DayRow.t) : TrainingDay.t :=
  TrainingDay.mk (DayRow.id r) (DayRow.userId r) (DayRow.date r)
    (DayRow.isGameDay r)
    (plannedOf s (DayRow.id r)) (actualOf s (DayRow.id r)).

Definition isUserDate (userId : Id) (date : Z) (r : DayRow.t) : bool :=
  Nat.eqb (DayRow.userId r) userId && (DayRow.date r =? date).

(** [trainingDay.findUnique({ where: { userId_date }, include })] *)
Definition findDay (s : Store) (userId : Id) (date : Z)
  : option TrainingDay.t :=
  option_map (includeAll s) (find (isUserDate userId date) (trainingDays s)).

(** [trainingDay.findUnique({ where: { id }, include })] *)
Definition findDayById (s : Store) (dayId : Id) : option TrainingDay.t :=
  option_map (includeAll s)
    (find (fun r => Nat.eqb (DayRow.id r) dayId) (trainingDays s)).

(** The parent row alone, for [include: { trainingDay: true }]. *)
Definition findDayRow (s : Store) (dayId : Id) : option DayRow.t :=
  find (fun r => Nat.eqb (DayRow.id r) dayId) (trainingDays s).

(** [trainingDay.findUnique] with
    [include: { actualActivities: { where: { type: 'shooting' } } }] *)
Definition findDayShooting (s : Store) (userId : Id) (date : Z)
  : option (list ActualActivity.t) :=
  option_map
    (fun r => filter (fun a => String.eqb (ActualActivity.type a) "shooting")
                     (actualOf s (DayRow.id r)))
    (find (isUserDate userId date) (trainingDays s)).

(** Stable insertion by date, for [orderBy: { date: 'asc' }]. *)
Fixpoint insertByDate (d : TrainingDay.t) (l : list TrainingDay.t)
  : list TrainingDay.t :=
  match l with
  | [] => [d]
  | x :: r =>
      if TrainingDay.date d <? TrainingDay.date x then d :: l
      else x :: insertByDate d r
  end.

Definition sortByDate (l : list TrainingDay.t) : list TrainingDay.t :=
  fold_left (fun acc d => insertByDate d acc) l [].

(** [trainingDay.findMany({ where: { userId, date: { gte, lte } },
    include, orderBy: { date: 'asc' } })] *)
Definition findDaysInRange (s : Store) (userId : Id) (gte lte : Z)
  : list TrainingDay.t :=
  sortByDate
    (map (includeAll s)
       (filter (fun r => Nat.eqb (DayRow.userId r) userId
                         && (gte <=? DayRow.date r)
                         && (DayRow.date r <=? lte))
               (trainingDays s))).

(** [trainingDay.create({ data, include })] *)
Definition createDay (s : Store) (userId : Id) (date : Z) (game : bool)
  : Store * TrainingDay.t :=
  let r := DayRow.mk (freshId (map DayRow.id (trainingDays s)))
                     userId date game in
  let s' := mkStore (trainingDays s ++ [r]) (plannedTable s) (actualTable s) in
  (s', includeAll s' r).

(** [trainingDay.update({ where: { id }, data: { isGameDay } })] *)
Definition updateDay (s : Store) (dayId : Id) (game : bool) : Store :=
  mkStore
    (map (fun r => if Nat.eqb (DayRow.id r) dayId
                   then DayRow.mk (DayRow.id r) (DayRow.userId r)
                                  (DayRow.date r) game
                   else r)
         (trainingDays s))
    (plannedTable s) (actualTable s).

(** [plannedActivity.deleteMany({ where: { trainingDayId, type } })] *)
Definition deleteManyPlanned (s : Store) (dayId : Id) (ty : string) : Store :=
  mkStore (trainingDays s)
    (filter (fun a => negb (Nat.eqb (PlannedActivity.trainingDayId a) dayId
                            && String.eqb (PlannedActivity.type a) ty))
            (plannedTable s))
    (actualTable s).

(** [plannedActivity.create({ data })] *)
Definition createPlanned (s : Store) (dayId : Id) (ty : string)
    (time location name : option string) : Store :=
  let a := PlannedActivity.mk
             (freshId (map PlannedActivity.id (plannedTable s)))
             dayId ty time location name in
  mkStore (trainingDays s) (plannedTable s ++ [a]) (actualTable s).

(** [plannedActivity.findUnique({ where: { id } })] *)
Definition findPlanned (s : Store) (aid : Id) : option PlannedActivity.t :=
  find (fun a => Nat.eqb (PlannedActivity.id a) aid) (plannedTable s).

(** [plannedActivity.delete({ where: { id } })] *)
Definition deletePlanned (s : Store) (aid : Id) : Store :=
  mkStore (trainingDays s)
    (filter (fun a => negb (Nat.eqb (PlannedActivity.id a) aid))
            (plannedTable s))
    (actualTable s).

(** [actualActivity.findFirst({ where: { trainingDayId, type } })] *)
Definition findFirstActual (s : Store) (dayId : Id) (ty : string)
  : option ActualActivity.t :=
  find (fun a => Nat.eqb (ActualActivity.trainingDayId a) dayId
                 && String.eqb (ActualActivity.type a) ty)
       (actualTable s).

(** [actualActivity.findUnique({ where: { id } })] *)
Definition findActual (s : Store) (aid : Id) : option ActualActivity.t :=
  find (fun a => Nat.eqb (ActualActivity.id a) aid) (actualTable s).

(** [actualActivity.delete({ where: { id } })] *)
Definition deleteActual (s : Store) (aid : Id) : Store :=
  mkStore (trainingDays s) (plannedTable s)
    (filter (fun a => negb (Nat.eqb (ActualActivity.id a) aid))
            (actualTable s)).

(** [actualActivity.create({ data })] *)
Definition createActual (s : Store) (dayId : Id) (ty : string)
    (completed : option string) (makes : option Z) : Store :=
  let a := ActualActivity.mk
             (freshId (map ActualActivity.id (actualTable s)))
             dayId ty completed makes in
  mkStore (trainingDays s) (plannedTable s) (actualTable s ++ [a]).

(** [actualActivity.update({ where: { id }, data: { shootingMakes,
    completedAt } })] *)
Definition updateActual (s : Store) (aid : Id)
    (makes : option Z) (completed : option string) : Store :=
  mkStore (trainingDays s) (plannedTable s)
    (map (fun a => if Nat.eqb (ActualActivity.id a) aid
                   then ActualActivity.mk (ActualActivity.id a)
                          (ActualActivity.trainingDayId a)
                          (ActualActivity.type a) completed makes
                   else a)
         (actualTable s)).

End Prisma.

(** ** [services/training.js] *)

(** [getOrCreateTrainingDay(prisma, userId, date)] *)
Definition getOrCreateTrainingDay (s : Store) (userId : Id) (date : Z)
  : Store * TrainingDay.t :=
  match Prisma.findDay s userId date with
  | Some trainingDay => (s, trainingDay)
  | None => Prisma.createDay s userId date false
  end.

(** The day view sent to clients. *)
Module View.

Record Shooting := mkShooting { s_id : Id; s_time : option string }.

Record Pickup := mkPickup
  { p_id : Id; p_time : option string; p_location : option string }.

Record Custom := mkCustom
  { c_id : Id; c_time : option string; c_name : option string }.

Record Done := mkDone { d_id : Id; d_completedAt : option string }.

Record Planned := mkPlanned
  { shooting : option Shooting;
    pickupRuns : list Pickup;
    custom : list Custom }.

Record Actual := mkActual
  { shootingMakes : Z;
    shootingCompletedAt : option string;
    coachSkills : bool;
    coachWeights : bool;
    varsity : bool;
    actualPickupRuns : list Done;
    actualCustom : list Done }.

Record t := mk
  { id : Id;
    date : Z;
    isGameDay : bool;
    planned : Planned;
    actual : Actual }.

End View.

(** Body of the first [forEach] of [formatTrainingDayResponse]. *)
Definition plannedStep (planned : View.Planned) (activity : PlannedActivity.t)
  : View.Planned :=
  if String.eqb (PlannedActivity.type activity) "shooting" then
    View.mkPlanned
      (Some (View.mkShooting (PlannedActivity.id activity)
                             (PlannedActivity.plannedTime activity)))
      (View.pickupRuns planned) (View.custom planned)
  else if String.eqb (PlannedActivity.type activity) "pickup" then
    View.mkPlanned (View.shooting planned)
      (View.pickupRuns planned
         ++ [View.mkPickup (PlannedActivity.id activity)
                           (PlannedActivity.plannedTime activity)
                           (PlannedActivity.location activity)])
      (View.custom planned)
  else if String.eqb (PlannedActivity.type activity) "custom" then
    View.mkPlanned (View.shooting planned) (View.pickupRuns planned)
      (View.custom planned
         ++ [View.mkCustom (PlannedActivity.id activity)
                           (PlannedActivity.plannedTime activity)
                           (PlannedActivity.name activity)])
  else planned.

(** Body of the second [forEach]: the [switch] on the type tag. *)
Definition actualStep (actual : View.Actual) (activity : ActualActivity.t)
  : View.Actual :=
  let ty := ActualActivity.type activity in
  let done := View.mkDone (ActualActivity.id activity)
                          (ActualActivity.completedAt activity) in
  if String.eqb ty "shooting" then
    View.mkActual (JS.or_zero (ActualActivity.shootingMakes activity))
      (ActualActivity.completedAt activity)
      (View.coachSkills actual) (View.coachWeights actual) (View.varsity actual)
      (View.actualPickupRuns actual) (View.actualCustom actual)
  else if String.eqb ty "coach_skills" then
    View.mkActual (View.shootingMakes actual) (View.shootingCompletedAt actual)
      true (View.coachWeights actual) (View.varsity actual)
      (View.actualPickupRuns actual) (View.actualCustom actual)
  else if String.eqb ty "coach_weights" then
    View.mkActual (View.shootingMakes actual) (View.shootingCompletedAt actual)
      (View.coachSkills actual) true (View.varsity actual)
      (View.actualPickupRuns actual) (View.actualCustom actual)
  else if String.eqb ty "varsity" then
    View.mkActual (View.shootingMakes actual) (View.shootingCompletedAt actual)
      (View.coachSkills actual) (View.coachWeights actual) true
      (View.actualPickupRuns actual) (View.actualCustom actual)
  else if String.eqb ty "pickup" then
    View.mkActual (View.shootingMakes actual) (View.shootingCompletedAt actual)
      (View.coachSkills actual) (View.coachWeights actual) (View.varsity actual)
      (View.actualPickupRuns actual ++ [done]) (View.actualCustom actual)
  else if String.eqb ty "custom" then
    View.mkActual (View.shootingMakes actual) (View.shootingCompletedAt actual)
      (View.coachSkills actual) (View.coachWeights actual) (View.varsity actual)
      (View.actualPickupRuns actual) (View.actualCustom actual ++ [done])
  else actual.

Definition plannedInit : View.Planned := View.mkPlanned None [] [].

Definition actualInit : View.Actual :=
  View.mkActual 0 None false false false [] [].

(** [formatTrainingDayResponse(trainingDay)] *)
Definition formatTrainingDayResponse (trainingDay : TrainingDay.t) : View.t :=
  View.mk (TrainingDay.id trainingDay) (TrainingDay.date trainingDay)
    (TrainingDay.isGameDay trainingDay)
    (fold_left plannedStep (TrainingDay.plannedActivities trainingDay)
               plannedInit)
    (fold_left actualStep (TrainingDay.actualActivities trainingDay)
               actualInit).

(** The [shootingActivity] of one iteration of the streak loop:
    [trainingDay?.actualActivities?.[0]]. *)
Definition shootingOn (s : Store) (userId : Id) (date : Z)
  : option ActualActivity.t :=
  match Prisma.findDayShooting s userId date with
  | Some acts => hd_error acts
  | None => None
  end.

(** [shootingActivity?.shootingMakes || 0] *)
Definition makesOn (s : Store) (userId : Id) (date : Z) : Z :=
  JS.or_zero (match shootingOn s userId date with
              | Some a => ActualActivity.shootingMakes a
              | None => None
              end).

(** The [while (true)] loop of [calculateStreak].  [fuel] bounds the number
    of iterations ([None] when it runs out); [seen] records the dates the
    loop has queried, oldest query first. *)
Fixpoint streakLoop (fuel : nat) (s : Store) (userId : Id) (today : Z)
    (streak : Z) (currentDate : Z) (seen : list Z) : option (Z * list Z) :=
  match fuel with
  | O => None
  | S fuel' =>
      let makes := makesOn s userId currentDate in
      let seen' := seen ++ [currentDate] in
      if 200 <=? makes then
        let streak' := streak + 1 in
        if 365 <? streak' then Some (streak', seen')
        else streakLoop fuel' s userId today streak' (currentDate - 1) seen'
      else if (0 <? streak) || (currentDate <? today) then
        Some (streak, seen')
      else
        if 365 <? streak then Some (streak, seen')
        else streakLoop fuel' s userId today streak (currentDate - 1) seen'
  end.

Definition streakRun (fuel : nat) (s : Store) (userId : Id) (today : Z)
  : option (Z * list Z) :=
  streakLoop fuel s userId today 0 today [].

(** Iterations after which the loop has always exited
    (see [streakLoop_exits]). *)
Definition streakFuel : nat := 367.

(** [calculateStreak(prisma, userId)], with [today] made explicit. *)
Definition calculateStreak (s : Store) (userId : Id) (today : Z) : Z :=
  match streakRun streakFuel s userId today with
  | Some (streak, _) => streak
  | None => 0
  end.

(** ** [routes/stats.js]: weekly statistics *)

Module Time.

Definition digit (c : ascii) : option Z :=
  let n := Z.of_nat (nat_of_ascii c) in
  if (48 <=? n) && (n <=? 57) then Some (n - 48) else None.

Fixpoint digits (acc : Z) (s : string) : option Z :=
  match s with
  | EmptyString => Some acc
  | String c r =>
      match digit c with
      | Some d => digits (10 * acc + d) r
      | None => None
      end
  end.

(** [Number(s)] on strings of decimal digits (and the empty string, which
    is 0); [None] stands for [NaN].  Strings of another shape that
    JavaScript reads as a number (white space around the digits, a sign, a
    fraction, an exponent, a radix prefix) are not covered: on them this
    function answers [None]. *)
Definition Number (s : string) : option Z := digits 0 s.

(** [s.split(':')] *)
Fixpoint split (s : string) : list string :=
  match s with
  | EmptyString => [EmptyString]
  | String c r =>
      if Ascii.eqb c ":" then EmptyString :: split r
      else match split r with
           | h :: t => String c h :: t
           | [] => [String c EmptyString]
           end
  end.

(** [const [h, m] = t.split(':').map(Number); h * 60 + m]: a missing
    component is [undefined] and makes the sum [NaN]. *)
Definition minutes (t : string) : option Z :=
  match map Number (split t) with
  | Some h :: Some m :: _ => Some (h * 60 + m)
  | _ => None
  end.

(** [Math.abs(a - p) <= 30], false when either side is [NaN]. *)
Definition within30 (actual planned : string) : bool :=
  match minutes actual, minutes planned with
  | Some a, Some p => Z.abs (a - p) <=? 30
  | _, _ => false
  end.

End Time.

(** ** Double-precision arithmetic

    JavaScript numbers are binary64 floating-point numbers; [spec_float]
    with 53 bits of precision and exponent bound 1024 is their
    specification, and [SFdiv], [SFmul] are the correctly rounded
    operations (round to nearest, ties to even). *)
Module Double.

Definition prec : Z := 53.
Definition emax : Z := 1024.

(** The double nearest to an integer. *)
Definition ofInt (n : Z) : spec_float := binary_normalize prec emax n 0 false.

(** The value of a counter that was incremented [n] times with [++]:
    doubles count exactly up to 2^53, and [2^53 + 1] is [2^53] again. *)
Definition maxCount : Z := 2 ^ 53.

Definition ofCount (n : Z) : spec_float := ofInt (Z.min n maxCount).

Definition div : spec_float -> spec_float -> spec_float := SFdiv prec emax.
Definition mul : spec_float -> spec_float -> spec_float := SFmul prec emax.

(** [Math.round(x)]: the integer nearest to [x], the larger one of two
    equally near, that is [floor(x + 1/2)], computed here as
    [floor((floor(2 x) + 1) / 2)]; [None] for [NaN] and the infinities,
    which [Math.round] returns unchanged. *)
Definition round (x : spec_float) : option Z :=
  match x with
  | S754_zero _ => Some 0
  | S754_finite s m e =>
      Some ((Z.shiftl (cond_Zopp s (Zpos m)) (e + 1) + 1) / 2)
  | S754_infinity _ | S754_nan => None
  end.

End Double.

(** [(a / b) * 100] for two counters [a] and [b]. *)
Definition pct (a b : Z) : spec_float :=
  Double.mul (Double.div (Double.ofCount a) (Double.ofCount b))
             (Double.ofInt 100).

(** [Math.round((a / b) * 100)].  The result is a number whenever
    [0 <= a <= b] and [0 < b], which is how the code calls it (lemma
    [pct_rounds]); the value 0 given otherwise is never used. *)
Definition roundPct (a b : Z) : Z :=
  match Double.round (pct a b) with
  | Some n => n
  | None => 0
  end.

Module Weekly.

Record DailyStat := mkDaily
  { date : Z; dayOfWeek : Z; makes : Z; completed : bool }.

Record t := mk
  { dailyStats : list DailyStat;
    completionPercentage : Z;
    consistencyScore : Z;
    totalMakes : Z }.

(** One iteration of the [for (let i = 0; i < 7; i++)] loop. *)
Definition dailyStat (trainingDays : list TrainingDay.t) (weekAgo : Z)
    (i : Z) : DailyStat :=
  let date := weekAgo + i in
  let dayData := find (fun d => TrainingDay.date d =? date) trainingDays in
  let shootingActivity :=
    match dayData with
    | Some d =>
        find (fun a => String.eqb (ActualActivity.type a) "shooting")
             (TrainingDay.actualActivities d)
    | None => None
    end in
  let makes :=
    JS.or_zero (match shootingActivity with
                | Some a => ActualActivity.shootingMakes a
                | None => None
                end) in
  mkDaily date ((date + 4) mod 7) makes (200 <=? makes).

Definition buildDailyStats (trainingDays : list TrainingDay.t) (weekAgo : Z)
  : list DailyStat :=
  map (dailyStat trainingDays weekAgo) [0; 1; 2; 3; 4; 5; 6].

(** The [find] that pairs a planned activity with an actual one. *)
Definition matchActual (day : TrainingDay.t) (planned : PlannedActivity.t)
  : option ActualActivity.t :=
  find (fun a =>
          if String.eqb (PlannedActivity.type planned) "shooting"
          then String.eqb (ActualActivity.type a) "shooting"
          else String.eqb (ActualActivity.type a)
                          (PlannedActivity.type planned))
       (TrainingDay.actualActivities day).

(** Whether the inner [forEach] body increments [onTime]. *)
Definition isOnTime (day : TrainingDay.t) (planned : PlannedActivity.t)
  : bool :=
  let completedAt :=
    match matchActual day planned with
    | Some actual => ActualActivity.completedAt actual
    | None => None
    end in
  if JS.truthy completedAt && JS.truthy (PlannedActivity.plannedTime planned)
  then match completedAt, PlannedActivity.plannedTime planned with
       | Some c, Some p => Time.within30 c p
       | _, _ => false
       end
  else false.

(** Inner [forEach]; the accumulator is [(onTime, totalPlanned)]. *)
Definition plannedTick (day : TrainingDay.t) (acc : Z * Z)
    (planned : PlannedActivity.t) : Z * Z :=
  let '(onTime, totalPlanned) := acc in
  let totalPlanned := totalPlanned + 1 in
  if isOnTime day planned then (onTime + 1, totalPlanned)
  else (onTime, totalPlanned).

Definition dayTick (acc : Z * Z) (day : TrainingDay.t) : Z * Z :=
  fold_left (plannedTick day) (TrainingDay.plannedActivities day) acc.

Definition tally (trainingDays : list TrainingDay.t) : Z * Z :=
  fold_left dayTick trainingDays (0, 0).

Definition score (onTime totalPlanned : Z) : Z :=
  if 0 <? totalPlanned then roundPct onTime totalPlanned else 0.

Definition completedDays (ds : list DailyStat) : Z :=
  Z.of_nat (List.length (filter completed ds)).

(** The computation of [GET /api/stats/weekly] from the rows the query
    returned. *)
Definition compute (trainingDays : list TrainingDay.t) (today : Z) : t :=
  let weekAgo := today - 6 in
  let ds := buildDailyStats trainingDays weekAgo in
  let completionPercentage := roundPct (completedDays ds) 7 in
  let '(onTime, totalPlanned) := tally trainingDays in
  mk ds completionPercentage (score onTime totalPlanned)
     (fold_left (fun sum d => sum + makes d) ds 0).

End Weekly.

(** [GET /api/stats/weekly] *)
Definition get_weekly (s : Store) (userId : Id) (today : Z) : Weekly.t :=
  Weekly.compute (Prisma.findDaysInRange s userId (today - 6) today) today.

(** [GET /api/stats/summary] *)
Module Summary.

Record t := mk
  { streak : Z;
    totalMakes : Z;
    totalSessions : Z;
    perfectDays : Z;
    shootingDays : Z }.

(** [where: { trainingDay: { userId } }] *)
Definition ownedBy (s : Store) (userId : Id) (a : ActualActivity.t) : bool :=
  match Prisma.findDayRow s (ActualActivity.trainingDayId a) with
  | Some r => Nat.eqb (DayRow.userId r) userId
  | None => false
  end.

Definition count (p : ActualActivity.t -> bool) (s : Store) (userId : Id)
  : Z :=
  Z.of_nat
    (List.length (filter (fun a => ownedBy s userId a && p a) (actualTable s))).

(** [_sum.shootingMakes || 0] over the caller's shooting activities. *)
Definition sumMakes (s : Store) (userId : Id) : Z :=
  fold_left
    (fun sum a => sum + match ActualActivity.shootingMakes a with
                        | Some n => n
                        | None => 0
                        end)
    (filter (fun a => ownedBy s userId a
                      && String.eqb (ActualActivity.type a) "shooting")
            (actualTable s))
    0.

Definition compute (s : Store) (userId : Id) (today : Z) : t :=
  mk (calculateStreak s userId today)
     (sumMakes s userId)
     (count (fun a => JS.includes
                        ["coach_skills"; "coach_weights"; "varsity"; "pickup";
                         "custom"]
                        (ActualActivity.type a)) s userId)
     (count (fun a => String.eqb (ActualActivity.type a) "shooting"
                      && match ActualActivity.shootingMakes a with
                         | Some n => 200 <=? n
                         | None => false
                         end) s userId)
     (count (fun a => String.eqb (ActualActivity.type a) "shooting") s userId).

End Summary.

(** ** [routes/training.js]: the mutating endpoints *)

Inductive Body :=
| ErrorBody (error : string)
| DayBody (day : View.t)
| DaysBody (days : list View.t)
| StreakBody (streak : Z)
| WeeklyBody (w : Weekly.t)
| SummaryBody (m : Summary.t)
| Thrown.

Record Response := mkResponse { status : nat; body : Body }.

Definition notFound : Response :=
  mkResponse 404 (ErrorBody "Activity not found").

(** The tail shared by the handlers: re-fetch the day by id and send its
    view; formatting a missing day throws and reaches the error
    middleware. *)
Definition sendDay (s : Store) (code : nat) (dayId : Id) : Store * Response :=
  match Prisma.findDayById s dayId with
  | Some updated => (s, mkResponse code (DayBody (formatTrainingDayResponse updated)))
  | None => (s, mkResponse 500 Thrown)
  end.

(** [GET /api/training/:date] *)
Definition get_day (s : Store) (userId : Id) (date : Z) : Store * Response :=
  let '(s1, trainingDay) := getOrCreateTrainingDay s userId date in
  (s1, mkResponse 200 (DayBody (formatTrainingDayResponse trainingDay))).

(** [GET /api/training?start=&end=] *)
Definition get_range (s : Store) (userId : Id) (range : option (Z * Z))
  : Store * Response :=
  match range with
  | None =>
      (s, mkResponse 400 (ErrorBody "start and end query params required"))
  | Some (startDate, endDate) =>
      (s, mkResponse 200
            (DaysBody (map formatTrainingDayResponse
                         (Prisma.findDaysInRange s userId startDate endDate))))
  end.

(** [PUT /api/training/:date] *)
Definition put_day (s : Store) (userId : Id) (date : Z)
    (isGameDay : option bool) : Store * Response :=
  let '(s1, trainingDay) := getOrCreateTrainingDay s userId date in
  let game := match isGameDay with
              | Some b => b
              | None => TrainingDay.isGameDay trainingDay
              end in
  let s2 := Prisma.updateDay s1 (TrainingDay.id trainingDay) game in
  sendDay s2 200 (TrainingDay.id trainingDay).

(** [POST /api/training/:date/planned] *)
Definition post_planned (s : Store) (userId : Id) (date : Z)
    (type time location name : option string) : Store * Response :=
  if negb (JS.truthy type) || negb (JS.truthy time) then
    (s, mkResponse 400 (ErrorBody "type and time are required"))
  else
    let ty := JS.or_str type "" in
    if negb (JS.includes ["shooting"; "pickup"; "custom"] ty) then
      (s, mkResponse 400 (ErrorBody "Invalid activity type"))
    else
      let '(s1, trainingDay) := getOrCreateTrainingDay s userId date in
      let dayId := TrainingDay.id trainingDay in
      let s2 := if String.eqb ty "shooting"
                then Prisma.deleteManyPlanned s1 dayId "shooting"
                else s1 in
      let s3 := Prisma.createPlanned s2 dayId ty time
                  (if String.eqb ty "pickup" then location else None)
                  (if String.eqb ty "custom" then name else None) in
      sendDay s3 201 dayId.

(** [DELETE /api/training/:date/planned/:activityId] *)
Definition delete_planned (s : Store) (userId : Id) (activityId : Id)
  : Store * Response :=
  match Prisma.findPlanned s activityId with
  | None => (s, notFound)
  | Some activity =>
      match Prisma.findDayRow s (PlannedActivity.trainingDayId activity) with
      | None => (s, mkResponse 500 Thrown)
      | Some trainingDay =>
          if negb (Nat.eqb (DayRow.userId trainingDay) userId) then
            (s, notFound)
          else
            let s1 := Prisma.deletePlanned s activityId in
            sendDay s1 200 (PlannedActivity.trainingDayId activity)
      end
  end.

Definition fixedTypes : list string :=
  ["coach_skills"; "coach_weights"; "varsity"].

Definition validTypes : list string :=
  ["shooting"; "pickup"; "custom"; "coach_skills"; "coach_weights"; "varsity"].

(** [POST /api/training/:date/actual] *)
Definition post_actual (now : string) (s : Store) (userId : Id) (date : Z)
    (type completedAt : option string) (shootingMakes : option Z)
  : Store * Response :=
  if negb (JS.truthy type) then
    (s, mkResponse 400 (ErrorBody "type is required"))
  else
    let ty := JS.or_str type "" in
    if negb (JS.includes validTypes ty) then
      (s, mkResponse 400 (ErrorBody "Invalid activity type"))
    else
      let '(s1, trainingDay) := getOrCreateTrainingDay s userId date in
      let dayId := TrainingDay.id trainingDay in
      let s2 :=
        if JS.includes fixedTypes ty then
          match Prisma.findFirstActual s1 dayId ty with
          | Some existing =>
              Prisma.deleteActual s1 (ActualActivity.id existing)
          | None =>
              Prisma.createActual s1 dayId ty
                (Some (JS.or_str completedAt now)) None
          end
        else if String.eqb ty "shooting" then
          match Prisma.findFirstActual s1 dayId "shooting" with
          | Some existing =>
              Prisma.updateActual s1 (ActualActivity.id existing)
                (JS.nullish shootingMakes (ActualActivity.shootingMakes existing))
                (JS.nullish completedAt (ActualActivity.completedAt existing))
          | None =>
              Prisma.createActual s1 dayId "shooting" completedAt
                (Some (JS.or_zero shootingMakes))
          end
        else Prisma.createActual s1 dayId ty completedAt None in
      sendDay s2 200 dayId.

(** [PUT /api/training/:date/actual/:activityId] *)
Definition put_actual (s : Store) (userId : Id) (activityId : Id)
    (completedAt : option string) (shootingMakes : option Z)
  : Store * Response :=
  match Prisma.findActual s activityId with
  | None => (s, notFound)
  | Some activity =>
      match Prisma.findDayRow s (ActualActivity.trainingDayId activity) with
      | None => (s, mkResponse 500 Thrown)
      | Some trainingDay =>
          if negb (Nat.eqb (DayRow.userId trainingDay) userId) then
            (s, notFound)
          else
            let s1 := Prisma.updateActual s activityId
                        (JS.nullish shootingMakes
                                    (ActualActivity.shootingMakes activity))
                        (JS.nullish completedAt
                                    (ActualActivity.completedAt activity)) in
            sendDay s1 200 (ActualActivity.trainingDayId activity)
      end
  end.

(** The [newCompletedAt] of the quick shooting update. *)
Definition autoStamp (now : string) (makes : Z)
    (shootingActivity : option ActualActivity.t) (completedAt : option string)
  : option string :=
  let stored := match shootingActivity with
                | Some a => ActualActivity.completedAt a
                | None => None
                end in
  if (200 <=? makes) && negb (JS.truthy stored) && negb (JS.truthy completedAt)
  then Some now
  else completedAt.

(** [PUT /api/training/:date/shooting]; [makes = None] is a body whose
    [makes] is not a number. *)
Definition put_shooting (now : string) (s : Store) (userId : Id) (date : Z)
    (makes : option Z) (completedAt : option string) : Store * Response :=
  match makes with
  | None => (s, mkResponse 400 (ErrorBody "makes must be a number"))
  | Some makes =>
      let '(s1, trainingDay) := getOrCreateTrainingDay s userId date in
      let dayId := TrainingDay.id trainingDay in
      let shootingActivity := Prisma.findFirstActual s1 dayId "shooting" in
      let newCompletedAt := autoStamp now makes shootingActivity completedAt in
      let s2 :=
        match shootingActivity with
        | Some a =>
            Prisma.updateActual s1 (ActualActivity.id a) (Some makes)
              (JS.nullish newCompletedAt (ActualActivity.completedAt a))
        | None =>
            Prisma.createActual s1 dayId "shooting" newCompletedAt (Some makes)
        end in
      sendDay s2 200 dayId
  end.

(** The requests of an authenticated caller. *)
Inductive Request :=
| GetDay (date : Z)
| GetRange (range : option (Z * Z))
| PutDay (date : Z) (isGameDay : option bool)
| PostPlanned (date : Z) (type time location name : option string)
| DeletePlanned (activityId : Id)
| PostActual (date : Z) (type completedAt : option string)
    (shootingMakes : option Z)
| PutActual (activityId : Id) (completedAt : option string)
    (shootingMakes : option Z)
| PutShooting (date : Z) (makes : option Z) (completedAt : option string)
| GetStreak
| GetSummary
| GetWeekly.

(** One request against the store: [now] and [today] are the clock at the
    time of the call, [userId] the identity the authentication gate
    attached. *)
Definition handle (now : string) (today : Z) (userId : Id) (s : Store)
    (r : Request) : Store * Response :=
  match r with
  | GetDay date => get_day s userId date
  | GetRange range => get_range s userId range
  | PutDay date g => put_day s userId date g
  | PostPlanned date type time location name =>
      post_planned s userId date type time location name
  | DeletePlanned activityId => delete_planned s userId activityId
  | PostActual date type completedAt makes =>
      post_actual now s userId date type completedAt makes
  | PutActual activityId completedAt makes =>
      put_actual s userId activityId completedAt makes
  | PutShooting date makes completedAt =>
      put_shooting now s userId date makes completedAt
  | GetStreak =>
      (s, mkResponse 200 (StreakBody (calculateStreak s userId today)))
  | GetSummary =>
      (s, mkResponse 200 (SummaryBody (Summary.compute s userId today)))
  | GetWeekly => (s, mkResponse 200 (WeeklyBody (get_weekly s userId today)))
  end.

(** ** [services/auth.js], [middleware/auth.js], [routes/auth.js]: accounts

    The account routes work on the user table alone.  Password hashing
    (bcrypt), token signing and verification (jsonwebtoken) and the string
    built-ins [toLowerCase] and [trim] are collaborators: they are the
    fields of [AuthLib], and the handlers are written over an arbitrary
    one.  The salt bcrypt draws and the clock are explicit arguments.
    A string is the sequence of its characters, each a code unit below
    256. *)

(** Regular expressions over character classes, matched by derivatives
    against the whole string (the pattern of [isValidEmail] is anchored at
    both ends). *)
Module Regex.

Inductive t :=
| Void
| Eps
| Cls (p : ascii -> bool)
| Cat (r1 r2 : t)
| Alt (r1 r2 : t)
| Star (r : t).

(** [r+] *)
Definition Plus (r : t) : t := Cat r (Star r).

Fixpoint nullable (r : t) : bool :=
  match r with
  | Void => false
  | Eps => true
  | Cls _ => false
  | Cat r1 r2 => nullable r1 && nullable r2
  | Alt r1 r2 => nullable r1 || nullable r2
  | Star _ => true
  end.

Fixpoint deriv (c : ascii) (r : t) : t :=
  match r with
  | Void => Void
  | Eps => Void
  | Cls p => if p c then Eps else Void
  | Cat r1 r2 =>
      if nullable r1 then Alt (Cat (deriv c r1) r2) (deriv c r2)
      else Cat (deriv c r1) r2
  | Alt r1 r2 => Alt (deriv c r1) (deriv c r2)
  | Star r1 => Cat (deriv c r1) (Star r1)
  end.

Fixpoint matches (r : t) (s : string) : bool :=
  match s with
  | EmptyString => nullable r
  | String c s' => matches (deriv c r) s'
  end.

End Regex.

(** [\s] on code units below 256: tab, line feed, vertical tab, form feed,
    carriage return, space and no-break space. *)
Definition isWhitespace (c : ascii) : bool :=
  let n := nat_of_ascii c in
  Nat.eqb n 9 || Nat.eqb n 10 || Nat.eqb n 11 || Nat.eqb n 12
  || Nat.eqb n 13 || Nat.eqb n 32 || Nat.eqb n 160.

(** [[^\s@]] *)
Definition addressChar (c : ascii) : bool :=
  negb (isWhitespace c) && negb (Ascii.eqb c "@").

(** [/^[^\s@]+@[^\s@]+\.[^\s@]+$/] *)
Definition emailRegex : Regex.t :=
  Regex.Cat (Regex.Plus (Regex.Cls addressChar))
    (Regex.Cat (Regex.Cls (Ascii.eqb "@"))
       (Regex.Cat (Regex.Plus (Regex.Cls addressChar))
          (Regex.Cat (Regex.Cls (Ascii.eqb "."))
             (Regex.Plus (Regex.Cls addressChar))))).

(** [isValidEmail(email)] *)
Definition isValidEmail (email : string) : bool :=
  Regex.matches emailRegex email.

Module User.
Record t := mk
  { id : Id;
    email : string;
    passwordHash : string;
    name : string;
    createdAt : Z }.
End User.

(** The payload [generateToken] signs and [jwt.verify] gives back. *)
Record Payload := mkPayload
  { p_userId : Id; p_email : string; p_name : string }.

Inductive Verified :=
| TokenValid (decoded : Payload)
| TokenExpired
| TokenInvalid.

Record AuthLib := mkAuthLib
  { toLowerCase : string -> string;
    trim : string -> string;
    bcryptHash : string -> string -> string;
    bcryptCompare : string -> string -> bool;
    jwtSign : Z -> Payload -> string;
    jwtVerify : Z -> string -> Verified }.

(** [isValidPassword(password)]: [password && password.length >= 6], the
    length counted in characters of the string. *)
Definition isValidPassword (password : string) : bool :=
  negb (String.eqb password "") && Nat.leb 6 (String.length password).

(** [generateToken(user)] *)
Definition generateToken (L : AuthLib) (clock : Z) (user : User.t) : string :=
  jwtSign L clock (mkPayload (User.id user) (User.email user) (User.name user)).

(** [s.split(sep)] for a one-character separator. *)
Fixpoint splitOn (sep : ascii) (s : string) : list string :=
  match s with
  | EmptyString => [EmptyString]
  | String c r =>
      if Ascii.eqb c sep then EmptyString :: splitOn sep r
      else match splitOn sep r with
           | h :: t => String c h :: t
           | [] => [String c EmptyString]
           end
  end.

(** What the middleware does with a request: answer it, or pass it on with
    the decoded user attached. *)
Inductive Gate :=
| Rejected (code : nat) (error : string)
| Passed (user : Payload).

(** [authenticateToken(req, res, next)]; [authHeader] is
    [req.headers['authorization']]. *)
Definition authenticateToken (L : AuthLib) (clock : Z)
    (authHeader : option string) : Gate :=
  let token :=
    match authHeader with
    | Some h => if String.eqb h "" then None
                else nth_error (splitOn " " h) 1
    | None => None
    end in
  if negb (JS.truthy token) then Rejected 401 "Access token required"
  else
    match jwtVerify L clock (JS.or_str token "") with
    | TokenValid decoded => Passed decoded
    | TokenExpired => Rejected 401 "Token expired"
    | TokenInvalid => Rejected 403 "Invalid token"
    end.

(** [user.findUnique({ where: { email } })] and [{ where: { id } }] *)
Definition findUserByEmail (users : list User.t) (email : string)
  : option User.t :=
  find (fun u => String.eqb (User.email u) email) users.

Definition findUserById (users : list User.t) (uid : Id) : option User.t :=
  find (fun u => Nat.eqb (User.id u) uid) users.

Inductive AuthBody :=
| AuthError (error : string)
| AuthOk (message : string) (token : string) (uid : Id) (email name : string)
| AuthMe (uid : Id) (email name : string) (createdAt : Z).

Record AuthResponse := mkAuthResponse { a_status : nat; a_body : AuthBody }.

(** [POST /api/auth/register] *)
Definition register (L : AuthLib) (clock : Z) (salt : string)
    (users : list User.t) (email password name : option string)
  : list User.t * AuthResponse :=
  if negb (JS.truthy email) || negb (JS.truthy password)
     || negb (JS.truthy name) then
    (users, mkAuthResponse 400
              (AuthError "Email, password, and name are required"))
  else
    let email := JS.or_str email "" in
    let password := JS.or_str password "" in
    let name := JS.or_str name "" in
    if negb (isValidEmail email) then
      (users, mkAuthResponse 400 (AuthError "Invalid email format"))
    else if negb (isValidPassword password) then
      (users, mkAuthResponse 400
                (AuthError "Password must be at least 6 characters"))
    else
      match findUserByEmail users (toLowerCase L email) with
      | Some _ =>
          (users, mkAuthResponse 409 (AuthError "Email already registered"))
      | None =>
          let user := User.mk (freshId (map User.id users))
                              (toLowerCase L email)
                              (bcryptHash L salt password)
                              (trim L name) clock in
          (users ++ [user],
           mkAuthResponse 201
             (AuthOk "Account created successfully"
                     (generateToken L clock user)
                     (User.id user) (User.email user) (User.name user)))
      end.

(** [POST /api/auth/login] *)
Definition login (L : AuthLib) (clock : Z) (users : list User.t)
    (email password : option string) : AuthResponse :=
  if negb (JS.truthy email) || negb (JS.truthy password) then
    mkAuthResponse 400 (AuthError "Email and password are required")
  else
    match findUserByEmail users (toLowerCase L (JS.or_str email "")) with
    | None => mkAuthResponse 401 (AuthError "Invalid email or password")
    | Some user =>
        if negb (bcryptCompare L (JS.or_str password "")
                               (User.passwordHash user)) then
          mkAuthResponse 401 (AuthError "Invalid email or password")
        else
          mkAuthResponse 200
            (AuthOk "Login successful" (generateToken L clock user)
                    (User.id user) (User.email user) (User.name user))
    end.

(** [GET /api/auth/me], behind [authenticateToken]. *)
Definition me (L : AuthLib) (clock : Z) (users : list User.t)
    (authHeader : option string) : AuthResponse :=
  match authenticateToken L clock authHeader with
  | Rejected code error => mkAuthResponse code (AuthError error)
  | Passed decoded =>
      match findUserById users (p_userId decoded) with
      | None => mkAuthResponse 404 (AuthError "User not found")
      | Some user =>
          mkAuthResponse 200
            (AuthMe (User.id user) (User.email user) (User.name user)
                    (User.createdAt user))
      end
  end.

(** A training or statistics request as the server receives it: the
    routers run [authenticateToken] first and the handlers take
    [req.user.userId] from the decoded token. *)
Definition serve (L : AuthLib) (clock : Z) (now : string) (today : Z)
    (authHeader : option string) (s : Store) (r : Request)
  : Store * Response :=
  match authenticateToken L clock authHeader with
  | Rejected code error => (s, mkResponse code (ErrorBody error))
  | Passed decoded => handle now today (p_userId decoded) s r
  end.

(** The clock reading [h]:[m] as [new Date().toTimeString().slice(0, 5)]
    prints it: two decimal digits each. *)
Definition twoDigits (n : Z) : string :=
  String (ascii_of_nat (48 + Z.to_nat (n / 10)))
    (String (ascii_of_nat (48 + Z.to_nat (n mod 10))) EmptyString).

Definition clockString (h m : Z) : string :=
  (twoDigits h ++ String ":" (twoDigits m))%string.

(** * Vocabulary of the statements *)

(** The [n] dates [from], [from - 1], ..., [from - (n - 1)]. *)
Definition datesDown (from : Z) (n : nat) : list Z :=
  map (fun i => from - Z.of_nat i) (seq 0 n).

(** The queried dates that lie strictly before today. *)
Definition datesBefore (today : Z) (seen : list Z) : list Z :=
  filter (fun d => d <? today) seen.

(** The shooting-type records of a day's collections. *)
Definition isShootingPlanned (a : PlannedActivity.t) : bool :=
  String.eqb (PlannedActivity.type a) "shooting".

Definition isShootingActual (a : ActualActivity.t) : bool :=
  String.eqb (ActualActivity.type a) "shooting".

(** First and last element of a collection that satisfies a test, in the
    order of the pass. *)
Definition firstOf {A} (p : A -> bool) (l : list A) : option A := find p l.

Definition lastOf {A} (p : A -> bool) (l : list A) : option A :=
  find p (rev l).

(** The shooting slot a planned record fills. *)
Definition shootingSlot (a : PlannedActivity.t) : View.Shooting :=
  View.mkShooting (PlannedActivity.id a) (PlannedActivity.plannedTime a).

(** The shooting completion state an actual record (or none) yields. *)
Definition shootingState (o : option ActualActivity.t) : Z * option string :=
  match o with
  | Some a => (JS.or_zero (ActualActivity.shootingMakes a),
               ActualActivity.completedAt a)
  | None => (0, None)
  end.

(** The timing-consistency score in the words of the specification.
    [onTime day planned] says when a planned activity counts as on time;
    two readings are given: some same-type actual activity of the day is
    within 30 minutes, or the first same-type actual activity is.  Times
    are read as HH:MM, two digits each, and the percentage is given both
    as the specification writes it, round(100 * a / b), and as the code
    evaluates it. *)
Module Spec.

(** The place of a character in a string, counted from [i]. *)
Fixpoint position (c : ascii) (s : string) (i : Z) : option Z :=
  match s with
  | EmptyString => None
  | String d rest => if Ascii.eqb c d then Some i else position c rest (i + 1)
  end.

(** The value of a decimal digit is its place among the ten digits. *)
Definition digitValue (c : ascii) : option Z := position c "0123456789" 0.

(** A time written HH:MM, in minutes since midnight. *)
Definition minutesOfDay (t : string) : option Z :=
  match t with
  | String h1 (String h0 (String c (String m1 (String m0 EmptyString)))) =>
      match digitValue h1, digitValue h0, digitValue m1, digitValue m0 with
      | Some a, Some b, Some d, Some e =>
          if Ascii.eqb c ":" then Some (60 * (10 * a + b) + (10 * d + e))
          else None
      | _, _, _, _ => None
      end
  | _ => None
  end.

(** Two times of day differ by at most 30 minutes. *)
Definition within (c p : string) : bool :=
  match minutesOfDay c, minutesOfDay p with
  | Some x, Some y => Z.abs (x - y) <=? 30
  | _, _ => false
  end.

(** round(100 * a / b), halves rounded up. *)
Definition percent (a b : Z) : Z := (200 * a + b) / (2 * b).

Definition sameType (planned : PlannedActivity.t) (a : ActualActivity.t)
  : bool :=
  String.eqb (ActualActivity.type a) (PlannedActivity.type planned).

(** Both times exist, parse as HH:MM, and differ by at most 30 minutes. *)
Definition closeTo (planned : PlannedActivity.t) (a : ActualActivity.t)
  : bool :=
  match ActualActivity.completedAt a, PlannedActivity.plannedTime planned with
  | Some c, Some p => within c p
  | _, _ => false
  end.

Definition onTimeSome (day : TrainingDay.t) (planned : PlannedActivity.t)
  : bool :=
  existsb (fun a => sameType planned a && closeTo planned a)
          (TrainingDay.actualActivities day).

Definition onTimeFirst (day : TrainingDay.t) (planned : PlannedActivity.t)
  : bool :=
  match find (sameType planned) (TrainingDay.actualActivities day) with
  | Some a => closeTo planned a
  | None => false
  end.

Definition totalPlanned (days : list TrainingDay.t) : Z :=
  Z.of_nat (List.length (flat_map TrainingDay.plannedActivities days)).

Definition onTimeCount
    (onTime : TrainingDay.t -> PlannedActivity.t -> bool)
    (days : list TrainingDay.t) : Z :=
  Z.of_nat
    (List.length
       (flat_map (fun day => filter (onTime day)
                                    (TrainingDay.plannedActivities day))
                 days)).

(** The score as the code evaluates the percentage. *)
Definition consistency
    (onTime : TrainingDay.t -> PlannedActivity.t -> bool)
    (days : list TrainingDay.t) : Z :=
  if totalPlanned days =? 0 then 0
  else roundPct (onTimeCount onTime days) (totalPlanned days).

(** The score with the percentage as the specification writes it. *)
Definition exact
    (onTime : TrainingDay.t -> PlannedActivity.t -> bool)
    (days : list TrainingDay.t) : Z :=
  if totalPlanned days =? 0 then 0
  else percent (onTimeCount onTime days) (totalPlanned days).

(** The score as the specification states it. *)
Definition stated (days : list TrainingDay.t) : Z := exact onTimeSome days.

End Spec.

(** A time that is absent, empty or written HH:MM. *)
Definition clockTime (o : option string) : bool :=
  match o with
  | Some t =>
      String.eqb t ""
      || match Spec.minutesOfDay t with Some _ => true | None => false end
  | None => true
  end.

(** Every planned time and every completion time of the days is a
    [clockTime]. *)
Definition clockTimes (days : list TrainingDay.t) : bool :=
  forallb (fun day =>
             forallb (fun p => clockTime (PlannedActivity.plannedTime p))
                     (TrainingDay.plannedActivities day)
             && forallb (fun a => clockTime (ActualActivity.completedAt a))
                        (TrainingDay.actualActivities day))
          days.

(** Bounds on doubles.  A shift record at exponent [e] stands for a real
    between [m * 2^e] and [(m + 1) * 2^e], equal to the former when no bit
    was lost; [below N r e] says that this real is at most [N], and
    [atMost N x] that the double [x] is between 0 and [N]. *)
Definition upper (r : shr_record) : Z :=
  if shr_r r || shr_s r then shr_m r + 1 else shr_m r.

Definition below (N : Z) (r : shr_record) (e : Z) : Prop :=
  e <= 0 /\ 0 <= shr_m r /\ upper r <= N * 2 ^ (- e).

Definition atMost (N : Z) (x : spec_float) : Prop :=
  match x with
  | S754_zero _ => True
  | S754_finite false m e => e <= 0 /\ Zpos m <= N * 2 ^ (- e)
  | _ => False
  end.

(** Requests served one after the other. *)
Definition run (now : string) (today : Z) (userId : Id) (s : Store)
    (rs : list Request) : Store :=
  fold_left (fun s r => fst (handle now today userId s r)) rs s.

(** The two not-found situations of the ownership check: no activity has
    the id, or the activity belongs to a day of another user. *)
Definition plannedMissing (s : Store) (activityId : Id) : bool :=
  match Prisma.findPlanned s activityId with
  | None => true
  | Some _ => false
  end.

Definition plannedForeign (s : Store) (userId activityId : Id) : bool :=
  match Prisma.findPlanned s activityId with
  | Some a =>
      match Prisma.findDayRow s (PlannedActivity.trainingDayId a) with
      | Some r => negb (Nat.eqb (DayRow.userId r) userId)
      | None => false
      end
  | None => false
  end.

Definition actualMissing (s : Store) (activityId : Id) : bool :=
  match Prisma.findActual s activityId with
  | None => true
  | Some _ => false
  end.

Definition actualForeign (s : Store) (userId activityId : Id) : bool :=
  match Prisma.findActual s activityId with
  | Some a =>
      match Prisma.findDayRow s (ActualActivity.trainingDayId a) with
      | Some r => negb (Nat.eqb (DayRow.userId r) userId)
      | None => false
      end
  | None => false
  end.

(** The shooting activity the quick update finds for the day, after the
    day has been fetched or created. *)
Definition dayShooting (s : Store) (userId : Id) (date : Z)
  : option ActualActivity.t :=
  let '(s1, trainingDay) := getOrCreateTrainingDay s userId date in
  Prisma.findFirstActual s1 (TrainingDay.id trainingDay) "shooting".

Definition storedCompletedAt (o : option ActualActivity.t) : option string :=
  match o with
  | Some a => ActualActivity.completedAt a
  | None => None
  end.

(** Number of planned shooting activities attached to a day id. *)
Definition slots (s : Store) (dayId : Id) : nat :=
  List.length (filter isShootingPlanned (Prisma.plannedOf s dayId)).

(** The single-slot invariant: no day holds more than one planned shooting
    activity. *)
Definition singleSlot (s : Store) : bool :=
  forallb (fun a => Nat.leb (slots s (PlannedActivity.trainingDayId a)) 1)
          (plannedTable s).

(** The planned shooting activities of a user's day. *)
Definition plannedShootingOn (s : Store) (userId : Id) (date : Z)
  : list PlannedActivity.t :=
  match Prisma.findDay s userId date with
  | Some d => filter isShootingPlanned (TrainingDay.plannedActivities d)
  | None => []
  end.

(** The actual activities of a given type on a user's day. *)
Definition dayActuals (s : Store) (userId : Id) (date : Z) (ty : string)
  : list ActualActivity.t :=
  match Prisma.findDay s userId date with
  | Some d => filter (fun a => String.eqb (ActualActivity.type a) ty)
                     (TrainingDay.actualActivities d)
  | None => []
  end.

(** Referential integrity of the actual-activity table: every row belongs
    to a day of the store. *)
Definition actualsAttached (s : Store) : bool :=
  forallb (fun a =>
             existsb (fun r => Nat.eqb (DayRow.id r)
                                       (ActualActivity.trainingDayId a))
                     (trainingDays s))
          (actualTable s).

(** The ids of the day rows. *)
Definition idsOf (s : Store) : list Id := map DayRow.id (trainingDays s).

(** [keeps s s']: a step from [s] to [s'] drops no day row id, and every
    actual activity of [s'] is attached to a day of [s'] or carries the day
    id of an activity of [s]. *)
Definition keeps (s s' : Store) : Prop :=
  incl (idsOf s) (idsOf s')
  /\ forall a', In a' (actualTable s') ->
                In (ActualActivity.trainingDayId a') (idsOf s')
                \/ exists a, In a (actualTable s)
                             /\ ActualActivity.trainingDayId a
                                = ActualActivity.trainingDayId a'.

(** Records of a given type, and the view entries they produce. *)
Definition plannedOfType (ty : string) (a : PlannedActivity.t) : bool :=
  String.eqb (PlannedActivity.type a) ty.

Definition actualOfType (ty : string) (a : ActualActivity.t) : bool :=
  String.eqb (ActualActivity.type a) ty.

Definition pickupSlot (a : PlannedActivity.t) : View.Pickup :=
  View.mkPickup (PlannedActivity.id a) (PlannedActivity.plannedTime a)
                (PlannedActivity.location a).

Definition customSlot (a : PlannedActivity.t) : View.Custom :=
  View.mkCustom (PlannedActivity.id a) (PlannedActivity.plannedTime a)
                (PlannedActivity.name a).

Definition doneOf (a : ActualActivity.t) : View.Done :=
  View.mkDone (ActualActivity.id a) (ActualActivity.completedAt a).

(** A day is complete for the streak when its makes reach 200. *)
Definition completeOn (s : Store) (userId : Id) (date : Z) : bool :=
  200 <=? makesOn s userId date.

(** The [n] days [date], [date - 1], ... are complete and the day before
    them is not: a run of exactly [n] complete days ending at [date]. *)
Definition runEnds (s : Store) (userId : Id) (date : Z) (n : nat) : bool :=
  forallb (fun i => completeOn s userId (date - Z.of_nat i)) (seq 0 n)
  && negb (completeOn s userId (date - Z.of_nat n)).

(** The [n] days [date], [date - 1], ... are all complete. *)
Definition allComplete (s : Store) (userId : Id) (date : Z) (n : nat) : bool :=
  forallb (fun i => completeOn s userId (date - Z.of_nat i)) (seq 0 n).

(** Well-formed stores: the constraints the schema puts on the tables.
    Ids are unique within a table, a user has one day row per date, and
    every activity belongs to a day row. *)
Fixpoint nodupb (l : list nat) : bool :=
  match l with
  | [] => true
  | x :: r => negb (existsb (Nat.eqb x) r) && nodupb r
  end.

Definition dayKey (r : DayRow.t) : Id * Z := (DayRow.userId r, DayRow.date r).

Definition sameKey (k k' : Id * Z) : bool :=
  Nat.eqb (fst k) (fst k') && (snd k =? snd k').

Fixpoint uniqueKeys (l : list (Id * Z)) : bool :=
  match l with
  | [] => true
  | k :: r => negb (existsb (sameKey k) r) && uniqueKeys r
  end.

Definition plannedAttached (s : Store) : bool :=
  forallb (fun a =>
             existsb (fun r => Nat.eqb (DayRow.id r)
                                       (PlannedActivity.trainingDayId a))
                     (trainingDays s))
          (plannedTable s).

Definition wellFormed (s : Store) : bool :=
  nodupb (idsOf s)
  && nodupb (map PlannedActivity.id (plannedTable s))
  && nodupb (map ActualActivity.id (actualTable s))
  && uniqueKeys (map dayKey (trainingDays s))
  && plannedAttached s
  && actualsAttached s.

Record WF (s : Store) : Prop := mkWF
  { wf_days : NoDup (idsOf s);
    wf_planned : NoDup (map PlannedActivity.id (plannedTable s));
    wf_actual : NoDup (map ActualActivity.id (actualTable s));
    wf_keys : NoDup (map dayKey (trainingDays s));
    wf_planned_fk : forall a, In a (plannedTable s) ->
                              In (PlannedActivity.trainingDayId a) (idsOf s);
    wf_actual_fk : forall a, In a (actualTable s) ->
                             In (ActualActivity.trainingDayId a) (idsOf s) }.

(** Number of actual activities of a type attached to a day id, and the
    types the handlers keep to one record per day. *)
Definition actualCount (s : Store) (dayId : Id) (ty : string) : nat :=
  List.length (filter (actualOfType ty) (Prisma.actualOf s dayId)).

Definition singletonTypes : list string :=
  ["shooting"; "coach_skills"; "coach_weights"; "varsity"].

Definition singleActual (s : Store) : bool :=
  forallb (fun a =>
             negb (JS.includes singletonTypes (ActualActivity.type a))
             || Nat.leb (actualCount s (ActualActivity.trainingDayId a)
                                     (ActualActivity.type a)) 1)
          (actualTable s).

(** What a user can read: the day rows of the user and, for each of them,
    the day with its activities.  [sameView u s s'] says that user [u]
    reads the same from [s'] as from [s]. *)
Definition rowsOf (userId : Id) (s : Store) : list DayRow.t :=
  filter (fun r => Nat.eqb (DayRow.userId r) userId) (trainingDays s).

Definition sameView (userId : Id) (s s' : Store) : Prop :=
  rowsOf userId s' = rowsOf userId s
  /\ forall r, In r (rowsOf userId s) ->
               Prisma.includeAll s' r = Prisma.includeAll s r.

(** [onlyDay d0 s s']: a step that leaves the day rows alone and changes
    activities of day [d0] only. *)
Definition onlyDay (d0 : Id) (s s' : Store) : Prop :=
  trainingDays s' = trainingDays s
  /\ forall d, d <> d0 ->
               Prisma.plannedOf s' d = Prisma.plannedOf s d
               /\ Prisma.actualOf s' d = Prisma.actualOf s d.

(** The activity exists and its day belongs to the caller: the ownership
    check of the update passes. *)
Definition actualOwned (s : Store) (userId activityId : Id) : bool :=
  match Prisma.findActual s activityId with
  | Some a =>
      match Prisma.findDayRow s (ActualActivity.trainingDayId a) with
      | Some r => Nat.eqb (DayRow.userId r) userId
      | None => false
      end
  | None => false
  end.

(** The fields of an actual activity after an update with the given body:
    a field the body omits keeps its stored value. *)
Definition mergeActual (a : ActualActivity.t) (completedAt : option string)
    (shootingMakes : option Z) : ActualActivity.t :=
  ActualActivity.mk (ActualActivity.id a) (ActualActivity.trainingDayId a)
    (ActualActivity.type a)
    (JS.nullish completedAt (ActualActivity.completedAt a))
    (JS.nullish shootingMakes (ActualActivity.shootingMakes a)).

(** A string without the space character. *)
Fixpoint noSpace (s : string) : bool :=
  match s with
  | EmptyString => true
  | String c r => negb (Ascii.eqb c " ") && noSpace r
  end.

(** The contract of jsonwebtoken the routes rely on, for one user: the
    token signed for the user is a non-empty word, and verifying it at the
    time of signing gives back the user's payload. *)
Definition tokenAccepted (L : AuthLib) (clock : Z) (user : User.t) : Prop :=
  noSpace (generateToken L clock user) = true
  /\ generateToken L clock user <> ""
  /\ jwtVerify L clock (generateToken L clock user)
     = TokenValid (mkPayload (User.id user) (User.email user)
                             (User.name user)).

(** A toy library for the examples: hashing prefixes the salt, comparing
    strips the first character, a token is the user's e-mail address. *)
Definition toyLib : AuthLib :=
  mkAuthLib (fun s => s) (fun s => s)
    (fun salt p => (String "#" p))
    (fun p h => match h with
                | String _ r => String.eqb p r
                | EmptyString => false
                end)
    (fun _ payload => "tok")
    (fun _ t => if String.eqb t "tok" then TokenValid (mkPayload 1 "ada@hoops.io" "Ada")
                else TokenInvalid).

(** The strings a regular expression denotes. *)
Inductive lang : Regex.t -> string -> Prop :=
| lang_eps : lang Regex.Eps ""
| lang_cls p c : p c = true -> lang (Regex.Cls p) (String c "")
| lang_cat r1 r2 s1 s2 :
    lang r1 s1 -> lang r2 s2 -> lang (Regex.Cat r1 r2) (s1 ++ s2)%string
| lang_alt_l r1 r2 s : lang r1 s -> lang (Regex.Alt r1 r2) s
| lang_alt_r r1 r2 s : lang r2 s -> lang (Regex.Alt r1 r2) s
| lang_star_nil r : lang (Regex.Star r) ""
| lang_star_cons r s1 s2 :
    lang r s1 -> lang (Regex.Star r) s2 ->
    lang (Regex.Star r) (s1 ++ s2)%string.

(** A non-empty string of characters that are neither whitespace nor
    [@]. *)
Fixpoint allChars (p : ascii -> bool) (s : string) : bool :=
  match s with
  | EmptyString => true
  | String c r => p c && allChars p r
  end.

Definition addressWord (w : string) : bool :=
  negb (String.eqb w "") && allChars addressChar w.

(** * Example stores *)

(** A year of completed days before day 1000, nothing logged on day 1000
    itself: days 634 to 999 of user 1 each hold one shooting activity with
    200 makes. *)
Definition yearStore : Store :=
  mkStore
    (map (fun i => DayRow.mk i 1 (1000 - Z.of_nat i) false) (seq 1 366))
    []
    (map (fun i => ActualActivity.mk i i "shooting" None (Some 200))
         (seq 1 366)).

(** Yesterday (day 99) has 200 makes, the day before (day 98) has 150,
    today (day 100) has no record. *)
Definition breakStore : Store :=
  mkStore
    [DayRow.mk 1 7 98 false; DayRow.mk 2 7 99 false]
    []
    [ActualActivity.mk 1 1 "shooting" (Some "18:05") (Some 150);
     ActualActivity.mk 2 2 "shooting" (Some "17:40") (Some 200)].

(** A day holding two planned and two actual shooting records. *)
Definition dupDay : TrainingDay.t :=
  TrainingDay.mk 1 7 100 false
    [PlannedActivity.mk 1 1 "shooting" (Some "17:00") None None;
     PlannedActivity.mk 2 1 "shooting" (Some "18:00") None None]
    [ActualActivity.mk 3 1 "shooting" (Some "17:30") (Some 120);
     ActualActivity.mk 4 1 "shooting" (Some "18:30") (Some 210)].

(** User 7 plans a pickup run at 17:00 on day 100, then logs two pickup
    runs, completed at 10:00 and at 17:10. *)
Definition twoPickups : Store :=
  run "12:00" 100 7 emptyStore
    [PostPlanned 100 (Some "pickup") (Some "17:00") (Some "Gym") None;
     PostActual 100 (Some "pickup") (Some "10:00") None;
     PostActual 100 (Some "pickup") (Some "17:10") None].

(** User 7 plans 23 custom activities and 17 pickup runs for day 100, all
    at 17:00, and logs one custom activity at 17:10 and one pickup run at
    10:00: 23 of the 40 planned activities are on time. *)
Definition fortyPlanned : Store :=
  run "12:00" 100 7 emptyStore
    (repeat (PostPlanned 100 (Some "custom") (Some "17:00") None
               (Some "Drill")) 23
     ++ repeat (PostPlanned 100 (Some "pickup") (Some "17:00") (Some "Gym")
                  None) 17
     ++ [PostActual 100 (Some "custom") (Some "17:10") None;
         PostActual 100 (Some "pickup") (Some "10:00") None]).

(** A store whose day 100 of user 7 holds two planned shooting records. *)
Definition dupStore : Store :=
  mkStore [DayRow.mk 1 7 100 false]
          (TrainingDay.plannedActivities dupDay)
          (TrainingDay.actualActivities dupDay).

(** * Properties *)

(** ** The streak walk *)

Lemma datesDown_cons from n :
  datesDown from (S n) = from :: datesDown (from - 1) n.
Proof.
  unfold datesDown. simpl seq. rewrite <- seq_shift. simpl map.
  rewrite map_map. f_equal; [lia |]. apply map_ext. intros i. lia.
Qed.

Lemma datesDown_one from : datesDown from 1 = [from].
Proof. unfold datesDown. simpl. now rewrite Z.sub_0_r. Qed.

Lemma datesDown_length from n : List.length (datesDown from n) = n.
Proof. unfold datesDown. now rewrite length_map, length_seq. Qed.

Lemma datesDown_In from n d :
  In d (datesDown from n) <-> from - Z.of_nat n < d <= from.
Proof.
  unfold datesDown. rewrite in_map_iff. split.
  - intros (i & <- & Hi). apply in_seq in Hi. lia.
  - intros H. exists (Z.to_nat (from - d)). split; [lia |].
    apply in_seq. lia.
Qed.

Lemma datesDown_NoDup n : forall from, NoDup (datesDown from n).
Proof.
  induction n as [| n IH]; intros from.
  - constructor.
  - rewrite datesDown_cons. constructor; [| apply IH].
    rewrite datesDown_In. lia.
Qed.

Lemma datesDown_before n : forall from today,
  from < today ->
  filter (fun d => d <? today) (datesDown from n) = datesDown from n.
Proof.
  induction n as [| n IH]; intros from today H; [reflexivity |].
  rewrite datesDown_cons. simpl.
  destruct (Z.ltb_spec from today); [| lia].
  f_equal. apply IH. lia.
Qed.

Lemma datesDown_before_today today n :
  filter (fun d => d <? today) (datesDown today (S n))
  = datesDown (today - 1) n.
Proof.
  rewrite datesDown_cons. simpl. rewrite Z.ltb_irrefl.
  apply datesDown_before. lia.
Qed.

(** One iteration, as an equation. *)
Lemma streakLoop_step fuel s userId today streak currentDate seen :
  streakLoop (S fuel) s userId today streak currentDate seen =
  if 200 <=? makesOn s userId currentDate then
    if 365 <? streak + 1 then Some (streak + 1, seen ++ [currentDate])
    else streakLoop fuel s userId today (streak + 1) (currentDate - 1)
           (seen ++ [currentDate])
  else if (0 <? streak) || (currentDate <? today) then
    Some (streak, seen ++ [currentDate])
  else if 365 <? streak then Some (streak, seen ++ [currentDate])
  else streakLoop fuel s userId today streak (currentDate - 1)
         (seen ++ [currentDate]).
Proof. reflexivity. Qed.

(** Once the walk is on a past day (or has started counting), every
    iteration either stops or increments the streak, so it stops within
    [366 - streak] iterations. *)
Lemma streakLoop_past s userId today :
  forall (m fuel : nat) streak cur seen,
    0 < streak \/ cur < today ->
    0 <= streak ->
    streak + Z.of_nat m = 366 ->
    (1 <= m <= fuel)%nat ->
    exists k n,
      streakLoop fuel s userId today streak cur seen
      = Some (k, seen ++ datesDown cur n)
      /\ streak <= k <= 366 /\ (1 <= n <= m)%nat.
Proof.
  induction m as [| m IH]; intros fuel streak cur seen Hpast H0 Hm Hf; [lia |].
  destruct fuel as [| fuel]; [lia |].
  rewrite streakLoop_step.
  destruct (200 <=? makesOn s userId cur).
  - destruct (Z.ltb_spec 365 (streak + 1)).
    + exists (streak + 1), 1%nat. rewrite datesDown_one.
      repeat split; try lia.
    + destruct (IH fuel (streak + 1) (cur - 1) (seen ++ [cur]))
        as (k & n & Hrun & Hk & Hn); try lia.
      exists k, (S n). rewrite Hrun, datesDown_cons, <- app_assoc.
      repeat split; try lia.
  - assert (Hc : (0 <? streak) || (cur <? today) = true).
    { apply orb_true_iff. destruct Hpast; [left | right];
        apply Z.ltb_lt; assumption. }
    rewrite Hc. exists streak, 1%nat. rewrite datesDown_one.
    repeat split; try lia.
Qed.

(** The whole walk: it exits within 367 iterations, on consecutive dates
    going back from today. *)
Lemma streakLoop_exits s userId today fuel :
  (367 <= fuel)%nat ->
  exists k n,
    streakRun fuel s userId today = Some (k, datesDown today (S n))
    /\ 0 <= k <= 366 /\ (n <= 366)%nat.
Proof.
  intros Hf. unfold streakRun.
  destruct fuel as [| fuel]; [lia |].
  rewrite streakLoop_step.
  change (365 <? 0 + 1) with false. change (365 <? 0) with false.
  destruct (200 <=? makesOn s userId today).
  - destruct (@streakLoop_past s userId today 365 fuel (0 + 1) (today - 1)
                ([] ++ [today])) as (k & n & Hrun & Hk & Hn); try lia.
    exists k, n. rewrite Hrun, datesDown_cons. simpl.
    repeat split; try lia.
  - destruct (@streakLoop_past s userId today 366 fuel 0 (today - 1)
                ([] ++ [today])) as (k & n & Hrun & Hk & Hn); try lia.
    exists k, n. rewrite Hrun, datesDown_cons. simpl.
    rewrite Z.ltb_irrefl. repeat split; try lia.
Qed.

(** More fuel never changes a result. *)
Lemma streakLoop_mono s userId today :
  forall fuel fuel' streak cur seen r,
    (fuel <= fuel')%nat ->
    streakLoop fuel s userId today streak cur seen = Some r ->
    streakLoop fuel' s userId today streak cur seen = Some r.
Proof.
  induction fuel as [| fuel IH]; intros fuel' streak cur seen r Hle Hrun;
    [discriminate |].
  destruct fuel' as [| fuel']; [lia |].
  rewrite streakLoop_step in *.
  destruct (200 <=? makesOn s userId cur).
  - destruct (365 <? streak + 1); [assumption |].
    apply IH; [lia | assumption].
  - destruct ((0 <? streak) || (cur <? today)); [assumption |].
    destruct (365 <? streak); [assumption |].
    apply IH; [lia | assumption].
Qed.

Lemma streakRun_mono s userId today fuel fuel' r :
  (fuel <= fuel')%nat ->
  streakRun fuel s userId today = Some r ->
  streakRun fuel' s userId today = Some r.
Proof. unfold streakRun. apply streakLoop_mono. Qed.

Lemma calculateStreak_run s userId today k seen :
  streakRun streakFuel s userId today = Some (k, seen) ->
  calculateStreak s userId today = k.
Proof. intros H. unfold calculateStreak. rewrite H. reflexivity. Qed.

(** C1 (amended): the backward walk of calculateStreak always exits; it
    returns a streak of at most 366 after querying pairwise distinct dates,
    at most 366 of them before today.  The safety test [streak > 365] stops
    the walk when the streak reaches 366. *)
Theorem calculateStreak_walk_bound s userId today fuel :
  (367 <= fuel)%nat ->
  exists k seen,
    streakRun fuel s userId today = Some (k, seen)
    /\ calculateStreak s userId today = k
    /\ 0 <= k <= 366
    /\ NoDup seen
    /\ (List.length (datesBefore today seen) <= 366)%nat.
Proof.
  intros Hf.
  destruct (streakLoop_exits s userId today streakFuel (Nat.le_refl _))
    as (k & n & Hrun & Hk & Hn).
  exists k, (datesDown today (S n)). split; [| split; [| split; [| split]]].
  - exact (streakRun_mono _ _ _ streakFuel fuel _ Hf Hrun).
  - exact (calculateStreak_run _ _ _ _ _ Hrun).
  - assumption.
  - apply datesDown_NoDup.
  - unfold datesBefore. rewrite datesDown_before_today, datesDown_length.
    assumption.
Qed.

Lemma calculateStreak_walk_bound_witness :
  (367 <= 400)%nat /\
  exists k seen,
    streakRun 400 yearStore 1 1000 = Some (k, seen)
    /\ calculateStreak yearStore 1 1000 = k
    /\ 0 <= k <= 366
    /\ NoDup seen
    /\ (List.length (datesBefore 1000 seen) <= 366)%nat.
Proof.
  split; [lia |]. apply (@calculateStreak_walk_bound yearStore 1 1000 400).
  lia.
Defined.

(** C1 as stated fails: with 366 completed days before an unlogged today the
    walk queries 366 dates before today and returns 366. *)
Lemma calculateStreak_exceeds_365 :
  exists k seen,
    streakRun streakFuel yearStore 1 1000 = Some (k, seen)
    /\ calculateStreak yearStore 1 1000 = k
    /\ 365 < k
    /\ (365 < List.length (datesBefore 1000 seen))%nat.
Proof.
  exists 366, (datesDown 1000 367).
  split; [vm_compute; reflexivity |].
  split; [vm_compute; reflexivity |].
  split; [lia |]. vm_compute. lia.
Qed.

Lemma makesOn_recorded s userId date m :
  option_map ActualActivity.shootingMakes (shootingOn s userId date)
  = Some (Some m) ->
  makesOn s userId date = m.
Proof.
  unfold makesOn. destruct (shootingOn s userId date) as [a |]; simpl;
    [| discriminate].
  intros H. injection H as ->. simpl.
  destruct (Z.eqb_spec m 0); congruence.
Qed.

Lemma makesOn_unrecorded s userId date :
  shootingOn s userId date = None -> makesOn s userId date = 0.
Proof. unfold makesOn. now intros ->. Qed.

Lemma streakFuel_ge n : (n <= 367)%nat -> (n <= streakFuel)%nat.
Proof. intros H. exact H. Qed.

(** C5: with 200 makes recorded for yesterday, 150 for two days ago and no
    shooting record for today, calculateStreak returns exactly 1. *)
Theorem calculateStreak_break s userId today :
  option_map ActualActivity.shootingMakes (shootingOn s userId (today - 1))
  = Some (Some 200) ->
  option_map ActualActivity.shootingMakes (shootingOn s userId (today - 2))
  = Some (Some 150) ->
  shootingOn s userId today = None ->
  calculateStreak s userId today = 1.
Proof.
  intros Hy Hb Ht.
  apply makesOn_recorded in Hy, Hb. apply makesOn_unrecorded in Ht.
  apply calculateStreak_run with (seen := [today; today - 1; today - 1 - 1]).
  apply streakRun_mono with (fuel := 3%nat); [apply streakFuel_ge; lia |].
  unfold streakRun.
  rewrite streakLoop_step, Ht, (Z.ltb_irrefl today).
  change (200 <=? 0) with false. change (0 <? 0) with false.
  change (365 <? 0) with false. cbv iota. simpl orb. cbv iota.
  rewrite streakLoop_step, Hy.
  change (200 <=? 200) with true. change (365 <? 0 + 1) with false.
  cbv iota.
  replace (today - 1 - 1) with (today - 2) by lia.
  rewrite streakLoop_step, Hb.
  change (200 <=? 150) with false. change (0 <? 0 + 1) with true.
  replace (today - 2) with (today - 1 - 1) by lia.
  reflexivity.
Qed.

Lemma calculateStreak_break_witness :
  calculateStreak breakStore 7 100 = 1.
Proof.
  apply (calculateStreak_break breakStore 7 100); reflexivity.
Defined.

(** ** Reconciliation *)

Lemma lastOf_snoc {A} (p : A -> bool) l a :
  lastOf p (l ++ [a]) = if p a then Some a else lastOf p l.
Proof. unfold lastOf. rewrite rev_unit. reflexivity. Qed.

Lemma fold_planned_shooting l :
  View.shooting (fold_left plannedStep l plannedInit)
  = option_map shootingSlot (lastOf isShootingPlanned l).
Proof.
  induction l as [| a l IH] using rev_ind; [reflexivity |].
  rewrite fold_left_app, lastOf_snoc. simpl fold_left.
  unfold plannedStep at 1, isShootingPlanned at 1.
  destruct (String.eqb (PlannedActivity.type a) "shooting"); [reflexivity |].
  destruct (String.eqb (PlannedActivity.type a) "pickup"); [exact IH |].
  destruct (String.eqb (PlannedActivity.type a) "custom"); exact IH.
Qed.

Lemma fold_actual_shooting l :
  (let actual := fold_left actualStep l actualInit in
   (View.shootingMakes actual, View.shootingCompletedAt actual))
  = shootingState (lastOf isShootingActual l).
Proof.
  induction l as [| a l IH] using rev_ind; [reflexivity |].
  rewrite fold_left_app, lastOf_snoc. simpl fold_left.
  unfold actualStep at 1 2, isShootingActual at 1. cbv zeta in *.
  destruct (String.eqb (ActualActivity.type a) "shooting"); [reflexivity |].
  repeat match goal with
         | |- context [String.eqb (ActualActivity.type a) ?t] =>
             destruct (String.eqb (ActualActivity.type a) t)
         end; exact IH.
Qed.

(** C2 (amended): formatTrainingDayResponse is total, and when a collection
    holds several shooting-type records the single shooting slot of the
    output is filled from the last one of the pass (each shooting record
    overwrites the slot). *)
Theorem format_shooting_last_wins (trainingDay : TrainingDay.t) :
  let view := formatTrainingDayResponse trainingDay in
  View.shooting (View.planned view)
  = option_map shootingSlot
      (lastOf isShootingPlanned (TrainingDay.plannedActivities trainingDay))
  /\ (View.shootingMakes (View.actual view),
      View.shootingCompletedAt (View.actual view))
     = shootingState
         (lastOf isShootingActual (TrainingDay.actualActivities trainingDay)).
Proof.
  split; [apply fold_planned_shooting | apply fold_actual_shooting].
Qed.

(** C2 as stated fails: on a day with two shooting records the slot does
    not come from the first one. *)
Lemma format_shooting_not_first :
  let view := formatTrainingDayResponse dupDay in
  View.shooting (View.planned view)
  <> option_map shootingSlot
       (firstOf isShootingPlanned (TrainingDay.plannedActivities dupDay))
  /\ (View.shootingMakes (View.actual view),
      View.shootingCompletedAt (View.actual view))
     <> shootingState
          (firstOf isShootingActual (TrainingDay.actualActivities dupDay)).
Proof. split; vm_compute; discriminate. Qed.

(** ** Weekly statistics *)

(** *** Rounding of doubles

    [binary_round_aux] never rounds a real that is at most [N] to a double
    above [N], for an integer [N] that is itself a double: shifting the
    mantissa right keeps the bound, and so does rounding to nearest. *)

Lemma pow2_step e : e < 0 -> 2 ^ (- e) = 2 * 2 ^ (- (e + 1)).
Proof.
  intros H. replace (- e) with (Z.succ (- (e + 1))) by lia.
  apply Z.pow_succ_r. lia.
Qed.

Lemma shr_1_below N r e :
  below N r e -> e < 0 -> below N (shr_1 r) (e + 1).
Proof.
  intros (He & Hm & Hu) Hlt. rewrite (pow2_step e Hlt) in Hu.
  assert (Hu' : upper r <= 2 * (N * 2 ^ (- (e + 1)))) by lia.
  clear Hu. unfold below. revert Hu'.
  generalize (N * 2 ^ (- (e + 1))). intros X Hu.
  destruct r as [m r s]. unfold upper in *. cbn [shr_m shr_r shr_s] in *.
  assert (Hcases : m = 0 \/ m = 1 \/ (exists p, m = Zpos p~0)
                   \/ exists p, m = Zpos p~1).
  { destruct m as [| [p | p |] | p]; eauto; lia. }
  destruct Hcases as [-> | [-> | [[p ->] | [p ->]]]];
    cbn [shr_1 shr_m shr_r shr_s orb];
    [| | rewrite (Pos2Z.inj_xO p) in Hu | rewrite (Pos2Z.inj_xI p) in Hu];
    destruct r, s; cbn [orb] in *; repeat split; lia.
Qed.

Lemma iter_pos_below N p : forall r e,
  below N r e -> e + Zpos p <= 0 ->
  below N (iter_pos shr_1 p r) (e + Zpos p).
Proof.
  induction p as [p IH | p IH |]; intros r e Hb Hle; simpl.
  - replace (e + Zpos p~1) with (e + 1 + Zpos p + Zpos p) by lia.
    apply IH; [apply IH; [apply shr_1_below |] |]; try assumption; lia.
  - replace (e + Zpos p~0) with (e + Zpos p + Zpos p) by lia.
    apply IH; [apply IH |]; try assumption; lia.
  - apply shr_1_below; [assumption | lia].
Qed.

Lemma shr_below N r e n :
  below N r e -> e + n <= 0 ->
  below N (fst (shr r e n)) (snd (shr r e n)).
Proof.
  intros Hb Hle. destruct n as [| p | p]; simpl; try assumption.
  now apply iter_pos_below.
Qed.

Lemma digits2_size p : digits2_pos p = Pos.size p.
Proof. induction p; simpl; congruence. Qed.

Lemma digits2_bounds p :
  2 ^ (Zpos (digits2_pos p) - 1) <= Zpos p < 2 ^ Zpos (digits2_pos p).
Proof.
  rewrite digits2_size. split.
  - pose proof (Pos.size_le p) as H.
    assert (H' : 2 ^ Zpos (Pos.size p) <= 2 * Zpos p).
    { rewrite <- Pos2Z.inj_pow. change (2 * Zpos p) with (Zpos p~0).
      now apply Pos2Z.pos_le_pos. }
    replace (Zpos (Pos.size p)) with (Z.succ (Zpos (Pos.size p) - 1)) in H'
      by lia.
    rewrite Z.pow_succ_r in H' by lia. lia.
  - pose proof (Pos.size_gt p) as H.
    rewrite <- Pos2Z.inj_pow. now apply Pos2Z.pos_lt_pos.
Qed.

Lemma Zdigits2_le m k :
  0 <= k -> 0 <= m < 2 ^ k -> Zdigits2 m <= k.
Proof.
  intros Hk [Hm Hlt]. destruct m as [| p | p]; simpl; [lia | | lia].
  pose proof (digits2_bounds p) as [Hlo _].
  destruct (Z.le_gt_cases (Zpos (digits2_pos p)) k) as [| Hgt]; [assumption |].
  assert (2 ^ k <= 2 ^ (Zpos (digits2_pos p) - 1))
    by (apply Z.pow_le_mono_r; lia).
  lia.
Qed.

Lemma fexp_le e : e <= 53 -> fexp Double.prec Double.emax e <= 0.
Proof. unfold fexp, emin, Double.prec, Double.emax. lia. Qed.

Section Bound.
Variable N : Z.
Hypothesis HN : 0 < N < 2 ^ 53.

Lemma below_small r e : below N r e -> 0 <= shr_m r < 2 ^ (53 - e).
Proof.
  intros (He & Hm & Hu). split; [assumption |].
  assert (shr_m r <= upper r) by (unfold upper; destruct (_ || _); lia).
  replace (53 - e) with (53 + - e) by lia.
  rewrite Z.pow_add_r by lia.
  assert (0 < 2 ^ (- e)) by (apply Z.pow_pos_nonneg; lia).
  nia.
Qed.

Lemma shr_fexp_below m e l :
  below N (shr_record_of_loc m l) e ->
  below N (fst (shr_fexp Double.prec Double.emax m e l))
          (snd (shr_fexp Double.prec Double.emax m e l)).
Proof.
  intros Hb. unfold shr_fexp. apply shr_below; [assumption |].
  pose proof (below_small _ _ Hb) as Hs.
  assert (Hm : shr_m (shr_record_of_loc m l) = m)
    by (destruct l as [| []]; reflexivity).
  rewrite Hm in Hs. destruct Hb as (He & _ & _).
  pose proof (Zdigits2_le m (53 - e)) as Hd.
  assert (fexp Double.prec Double.emax (Zdigits2 m + e) <= 0)
    by (apply fexp_le; lia).
  lia.
Qed.

Lemma round_nearest_even_upper r :
  0 <= shr_m r ->
  0 <= round_nearest_even (shr_m r) (loc_of_shr_record r) <= upper r.
Proof.
  intros Hm. destruct r as [m [|] [|]]; unfold upper; simpl in *;
    try destruct (Z.even m); lia.
Qed.

Lemma binary_round_aux_atMost m e l :
  e <= 0 -> 0 <= m ->
  match l with loc_Exact => m | loc_Inexact _ => m + 1 end <= N * 2 ^ (- e) ->
  atMost N (binary_round_aux Double.prec Double.emax false m e l).
Proof.
  intros He Hm Hu. unfold binary_round_aux.
  assert (H1 : below N (shr_record_of_loc m l) e).
  { repeat split; try assumption.
    - destruct l as [| []]; assumption.
    - destruct l as [| []]; exact Hu. }
  apply shr_fexp_below in H1.
  destruct (shr_fexp Double.prec Double.emax m e l) as [r1 e1].
  cbn [fst snd] in H1.
  pose proof (round_nearest_even_upper r1 (proj1 (proj2 H1))) as Hr.
  set (m2 := round_nearest_even (shr_m r1) (loc_of_shr_record r1)) in *.
  assert (H2 : below N (shr_record_of_loc m2 loc_Exact) e1).
  { destruct H1 as (He1 & _ & Hu1). repeat split; try assumption.
    - apply Hr.
    - unfold upper. simpl. lia. }
  apply shr_fexp_below in H2.
  destruct (shr_fexp Double.prec Double.emax m2 e1 loc_Exact) as [r2 e2].
  cbn [fst snd] in H2. destruct H2 as (He2 & Hm2 & Hu2).
  assert (Hle : shr_m r2 <= upper r2)
    by (unfold upper; destruct (_ || _); lia).
  destruct (shr_m r2) as [| p | p]; [exact I | | lia].
  assert (E : (e2 <=? Double.emax - Double.prec) = true)
    by (apply Z.leb_le; unfold Double.emax, Double.prec; lia).
  rewrite E. cbn [atMost]. split; [assumption | lia].
Qed.

End Bound.

Lemma iter_xO_value p k : Zpos (Pos.iter xO p k) = Zpos p * 2 ^ Zpos k.
Proof.
  induction k as [| k IH] using Pos.peano_ind.
  - simpl. lia.
  - rewrite Pos.iter_succ, Pos2Z.inj_xO, IH, Pos2Z.inj_succ.
    rewrite Z.pow_succ_r by lia. lia.
Qed.

Lemma iter_xO_digits p k :
  digits2_pos (Pos.iter xO p k) = (digits2_pos p + k)%positive.
Proof.
  induction k as [| k IH] using Pos.peano_ind.
  - simpl. lia.
  - rewrite Pos.iter_succ. simpl. rewrite IH. lia.
Qed.

Lemma binary_round_aux_canonical s m e :
  Zpos (digits2_pos m) = 53 -> -1074 <= e <= 971 ->
  binary_round_aux Double.prec Double.emax s (Zpos m) e loc_Exact
  = S754_finite s m e.
Proof.
  intros Hd He.
  assert (Hs : forall l,
             shr_fexp Double.prec Double.emax (Zpos m) e l
             = (shr_record_of_loc (Zpos m) l, e)).
  { intros l. unfold shr_fexp. cbn [Zdigits2]. rewrite Hd.
    replace (fexp Double.prec Double.emax (53 + e) - e) with 0
      by (unfold fexp, emin, Double.prec, Double.emax; lia).
    reflexivity. }
  unfold binary_round_aux. rewrite Hs. cbn [shr_record_of_loc shr_m
    loc_of_shr_record round_nearest_even]. rewrite Hs.
  cbn [shr_record_of_loc shr_m].
  assert (E : (e <=? Double.emax - Double.prec) = true)
    by (apply Z.leb_le; unfold Double.emax, Double.prec; lia).
  now rewrite E.
Qed.

Lemma ofInt_small p :
  Zpos p < 2 ^ 53 ->
  exists m e,
    Double.ofInt (Zpos p) = S754_finite false m e
    /\ -52 <= e /\ Zpos m * 2 ^ (e + 52) = Zpos p * 2 ^ 52.
Proof.
  intros Hp. pose proof (digits2_bounds p) as [Hlo Hhi].
  assert (Hd : 1 <= Zpos (digits2_pos p) <= 53).
  { split; [lia |].
    destruct (Z.le_gt_cases (Zpos (digits2_pos p)) 53) as [| Hgt];
      [assumption |].
    assert (2 ^ 53 <= 2 ^ (Zpos (digits2_pos p) - 1))
      by (apply Z.pow_le_mono_r; lia).
    lia. }
  unfold Double.ofInt, binary_normalize, binary_round.
  replace (fexp Double.prec Double.emax (Zpos (digits2_pos p) + 0))
    with (Zpos (digits2_pos p) - 53)
    by (unfold fexp, emin, Double.prec, Double.emax; lia).
  unfold shl_align.
  destruct (Zpos (digits2_pos p) - 53 - 0) as [| k | k] eqn:Ek; [| lia |].
  - exists p, 0. rewrite binary_round_aux_canonical by lia.
    repeat split; lia.
  - exists (Pos.iter xO p k), (Zpos (digits2_pos p) - 53).
    rewrite binary_round_aux_canonical.
    + repeat split; [lia |]. rewrite iter_xO_value.
      rewrite <- Z.mul_assoc, <- Z.pow_add_r by lia.
      do 2 f_equal. lia.
    + rewrite iter_xO_digits, Pos2Z.inj_add. lia.
    + lia.
Qed.

Lemma ofCount_shape n :
  1 <= n ->
  exists m e,
    Double.ofCount n = S754_finite false m e
    /\ -52 <= e
    /\ Zpos m * 2 ^ (e + 52) = Z.min n Double.maxCount * 2 ^ 52.
Proof.
  intros Hn. unfold Double.ofCount.
  destruct (Z.lt_ge_cases n Double.maxCount) as [Hlt | Hge].
  - rewrite Z.min_l by lia. destruct n as [| p | p]; try lia.
    apply ofInt_small. exact Hlt.
  - rewrite Z.min_r by lia.
    exists 4503599627370496%positive, 1.
    split; [reflexivity | split; [lia | reflexivity]].
Qed.

Lemma ofCount_zero : Double.ofCount 0 = S754_zero false.
Proof. reflexivity. Qed.

Lemma new_location_cases n r :
  new_location n 0 = loc_Exact
  /\ (r <> 0 -> exists c, new_location n r = loc_Inexact c).
Proof.
  unfold new_location, new_location_even, new_location_odd. split.
  - now destruct (Z.even n).
  - intros Hr. apply Z.eqb_neq in Hr.
    destruct (Z.even n); rewrite Hr; eauto.
Qed.

Lemma one_small : 0 < 1 < 2 ^ 53.
Proof. split; reflexivity. Qed.

Lemma hundred_small : 0 < 100 < 2 ^ 53.
Proof. split; reflexivity. Qed.

Lemma div_atMost_one ma ea mb eb K :
  K <= ea -> K <= eb ->
  Zpos ma * 2 ^ (ea - K) <= Zpos mb * 2 ^ (eb - K) ->
  atMost 1
    (Double.div (S754_finite false ma ea) (S754_finite false mb eb)).
Proof.
  intros Ha Hb Hle. unfold Double.div, SFdiv, SFdiv_core_binary.
  cbn [Zdigits2 xorb].
  set (d1 := Zpos (digits2_pos ma)). set (d2 := Zpos (digits2_pos mb)).
  assert (Hd : d1 + ea <= d2 + eb).
  { pose proof (digits2_bounds ma) as [Hlo _].
    pose proof (digits2_bounds mb) as [_ Hhi]. fold d1 in Hlo. fold d2 in Hhi.
    assert (H1 : 2 ^ (d1 - 1 + (ea - K)) <= Zpos ma * 2 ^ (ea - K)).
    { rewrite Z.pow_add_r by (unfold d1; lia).
      apply Z.mul_le_mono_nonneg_r; [apply Z.pow_nonneg; lia | exact Hlo]. }
    assert (H2 : Zpos mb * 2 ^ (eb - K) < 2 ^ (d2 + (eb - K))).
    { rewrite Z.pow_add_r by (unfold d2; lia).
      apply Z.mul_lt_mono_pos_r; [apply Z.pow_pos_nonneg; lia | exact Hhi]. }
    assert (H3 : 2 ^ (d1 - 1 + (ea - K)) < 2 ^ (d2 + (eb - K))) by lia.
    apply Z.pow_lt_mono_r_iff in H3; [lia | lia | unfold d2; lia]. }
  set (e' := Z.min (fexp Double.prec Double.emax (d1 + ea - (d2 + eb)))
                   (ea - eb)).
  assert (He' : e' <= 0 /\ e' <= ea - eb).
  { unfold e', fexp, emin, Double.prec, Double.emax. lia. }
  set (s := ea - eb - e').
  assert (Hs : 0 <= s) by (unfold s; lia).
  set (m' := match s with
             | 0 => Zpos ma
             | Zpos _ => Z.shiftl (Zpos ma) s
             | Zneg _ => 0
             end).
  assert (Hm' : m' = Zpos ma * 2 ^ s).
  { unfold m'. destruct s as [| p | p]; [simpl; lia | | lia].
    apply Z.shiftl_mul_pow2. lia. }
  pose proof (Z_div_mod m' (Zpos mb) eq_refl) as Hdiv.
  destruct (Z.div_eucl m' (Zpos mb)) as [q r]. destruct Hdiv as [Hq Hr].
  assert (Hval : Zpos ma * 2 ^ s <= Zpos mb * 2 ^ (- e')).
  { assert (HB : 0 < 2 ^ (eb - K)) by (apply Z.pow_pos_nonneg; lia).
    apply (Z.mul_le_mono_pos_r _ _ (2 ^ (eb - K)) HB).
    rewrite <- !Z.mul_assoc, <- !Z.pow_add_r by lia.
    replace (s + (eb - K)) with (ea - K + - e') by (unfold s; lia).
    replace (- e' + (eb - K)) with (eb - K + - e') by lia.
    rewrite !Z.pow_add_r, !Z.mul_assoc by lia.
    apply Z.mul_le_mono_nonneg_r; [apply Z.pow_nonneg; lia | exact Hle]. }
  assert (Hq0 : 0 <= q).
  { assert (0 <= m') by (rewrite Hm'; apply Z.mul_nonneg_nonneg;
                         [lia | apply Z.pow_nonneg; lia]).
    nia. }
  apply (binary_round_aux_atMost 1 one_small); [apply He' | exact Hq0 |].
  rewrite Z.mul_1_l. rewrite Hm' in Hq.
  destruct (new_location_cases (Zpos mb) r) as [Hex Hin].
  destruct (Z.eq_dec r 0) as [-> | Hne].
  - rewrite Hex. nia.
  - destruct (Hin Hne) as [c ->]. nia.
Qed.

Lemma ofInt_100 :
  Double.ofInt 100 = S754_finite false 7036874417766400 (-46).
Proof. reflexivity. Qed.

Lemma mul_atMost_100 x :
  atMost 1 x -> atMost 100 (Double.mul x (Double.ofInt 100)).
Proof.
  rewrite ofInt_100. destruct x as [s | s | | [|] m e]; cbn [atMost];
    try contradiction; intros H.
  - exact I.
  - destruct H as [He Hm]. unfold Double.mul, SFmul. cbn [xorb].
    apply (binary_round_aux_atMost 100 hundred_small); [lia | lia |].
    rewrite Pos2Z.inj_mul.
    replace (- (e + -46)) with (46 + - e) by lia.
    rewrite Z.pow_add_r by lia.
    change (Zpos 7036874417766400) with (100 * 2 ^ 46).
    assert (0 < 2 ^ 46) by reflexivity.
    assert (0 < 2 ^ (- e)) by (apply Z.pow_pos_nonneg; lia).
    nia.
Qed.

Lemma round_atMost N x :
  0 <= N -> atMost N x ->
  exists n, Double.round x = Some n /\ 0 <= n <= N.
Proof.
  intros HN H. destruct x as [s | s | | [|] m e]; cbn [atMost] in H;
    try contradiction.
  - exists 0. split; [reflexivity | lia].
  - destruct H as [He Hm]. cbn [Double.round cond_Zopp].
    eexists. split; [reflexivity |].
    assert (Hsh : 0 <= Z.shiftl (Zpos m) (e + 1) <= 2 * N).
    { destruct (Z.eq_dec e 0) as [-> | Hne].
      - simpl in Hm. rewrite Z.shiftl_mul_pow2 by lia.
        change (2 ^ (0 + 1)) with 2. lia.
      - rewrite Z.shiftl_div_pow2 by lia.
        assert (Hp : 0 < 2 ^ (- (e + 1))) by (apply Z.pow_pos_nonneg; lia).
        split; [apply Z.div_pos; lia |].
        apply Z.div_le_upper_bound; [exact Hp |].
        rewrite (pow2_step e) in Hm by lia. lia. }
    split.
    + apply Z.div_pos; lia.
    + assert ((Z.shiftl (Zpos m) (e + 1) + 1) / 2 < N + 1)
        by (apply Z.div_lt_upper_bound; lia).
      lia.
Qed.

Lemma pct_rounds a b :
  0 <= a <= b -> 0 < b ->
  exists n, Double.round (pct a b) = Some n /\ 0 <= n <= 100.
Proof.
  intros Ha Hb. apply round_atMost; [lia |]. unfold pct.
  apply mul_atMost_100.
  destruct (ofCount_shape b) as (mb & eb & Eb & Hb1 & Hb2); [lia |].
  rewrite Eb. destruct (Z.eq_dec a 0) as [-> | Hne].
  - rewrite ofCount_zero. exact I.
  - destruct (ofCount_shape a) as (ma & ea & Ea & Ha1 & Ha2); [lia |].
    rewrite Ea. apply (div_atMost_one ma ea mb eb (-52)); [lia | lia |].
    replace (ea - -52) with (ea + 52) by lia.
    replace (eb - -52) with (eb + 52) by lia.
    rewrite Ha2, Hb2.
    apply Z.mul_le_mono_nonneg_r; [apply Z.pow_nonneg; lia |].
    apply Z.min_le_compat_r. lia.
Qed.

Lemma roundPct_bounds a b :
  0 <= a <= b -> 0 < b -> 0 <= roundPct a b <= 100.
Proof.
  intros Ha Hb. unfold roundPct.
  destruct (pct_rounds a b Ha Hb) as (n & -> & Hn). exact Hn.
Qed.

Lemma find_all_false {A} (p : A -> bool) l :
  (forall x, In x l -> p x = false) -> find p l = None.
Proof.
  induction l as [| a l IH]; intros H; [reflexivity |].
  simpl. rewrite (H a (or_introl eq_refl)). apply IH.
  intros x Hx. apply H. now right.
Qed.

Lemma find_pred_ext {A} (p q : A -> bool) l :
  (forall x, p x = q x) -> find p l = find q l.
Proof.
  intros H. induction l as [| a l IH]; [reflexivity |].
  simpl. now rewrite H, IH.
Qed.

Lemma insertByDate_In d x l :
  In x (Prisma.insertByDate d l) <-> x = d \/ In x l.
Proof.
  induction l as [| y l IH]; simpl; [intuition congruence |].
  destruct (TrainingDay.date d <? TrainingDay.date y); simpl;
    [intuition congruence |].
  rewrite IH. intuition congruence.
Qed.

Lemma sortByDate_In x l : In x (Prisma.sortByDate l) <-> In x l.
Proof.
  unfold Prisma.sortByDate.
  assert (G : forall acc,
             In x (fold_left (fun acc d => Prisma.insertByDate d acc) l acc)
             <-> In x l \/ In x acc).
  { induction l as [| d l IH]; intros acc; simpl; [intuition |].
    rewrite IH, insertByDate_In. intuition congruence. }
  rewrite G. simpl. intuition.
Qed.

(** The rows the weekly query returns all belong to the caller and to a
    day row of the store. *)
Lemma findDaysInRange_In s userId gte lte d :
  In d (Prisma.findDaysInRange s userId gte lte) ->
  exists r, In r (trainingDays s) /\ d = Prisma.includeAll s r
            /\ DayRow.userId r = userId.
Proof.
  unfold Prisma.findDaysInRange. rewrite sortByDate_In, in_map_iff.
  intros (r & <- & Hr). apply filter_In in Hr. destruct Hr as [Hin Hc].
  exists r. repeat split; [assumption |].
  apply andb_true_iff in Hc. destruct Hc as [Hc _].
  apply andb_true_iff in Hc. destruct Hc as [Hc _].
  now apply Nat.eqb_eq.
Qed.

Lemma findDay_None_row s userId date r :
  Prisma.findDay s userId date = None ->
  In r (trainingDays s) ->
  DayRow.userId r = userId -> DayRow.date r <> date.
Proof.
  unfold Prisma.findDay. intros H Hin Hu Hd.
  destruct (find (Prisma.isUserDate userId date) (trainingDays s)) eqn:E;
    [discriminate |].
  pose proof (find_none _ _ E r Hin) as Hf.
  unfold Prisma.isUserDate in Hf.
  rewrite Hu, Hd, Nat.eqb_refl, Z.eqb_refl in Hf. discriminate.
Qed.

Lemma dailyStat_missing days weekAgo i :
  find (fun d => TrainingDay.date d =? weekAgo + i) days = None ->
  Weekly.dailyStat days weekAgo i
  = Weekly.mkDaily (weekAgo + i) ((weekAgo + i + 4) mod 7) 0 false.
Proof. unfold Weekly.dailyStat. now intros ->. Qed.

(** C4: the weekly response lists exactly 7 daily entries, for the
    consecutive dates today-6, ..., today in ascending order, and the entry
    of a date without a TrainingDay record has makes = 0 and
    completed = false. *)
Theorem weekly_dailyStats_window s userId today :
  let w := get_weekly s userId today in
  List.length (Weekly.dailyStats w) = 7%nat
  /\ map Weekly.date (Weekly.dailyStats w)
     = [today - 6; today - 5; today - 4; today - 3; today - 2; today - 1;
        today]
  /\ forall e, In e (Weekly.dailyStats w) ->
               Prisma.findDay s userId (Weekly.date e) = None ->
               Weekly.makes e = 0 /\ Weekly.completed e = false.
Proof.
  cbv zeta. unfold get_weekly, Weekly.compute.
  destruct (Weekly.tally _) as [onTime totalPlanned]. cbn [Weekly.dailyStats].
  split; [reflexivity |]. split.
  - unfold Weekly.buildDailyStats. cbn [map Weekly.dailyStat Weekly.date].
    repeat (f_equal; try lia).
  - intros e He Hnone. unfold Weekly.buildDailyStats in He.
    apply in_map_iff in He. destruct He as (i & <- & _).
    assert (Hd : Weekly.date
                   (Weekly.dailyStat
                      (Prisma.findDaysInRange s userId (today - 6) today)
                      (today - 6) i) = today - 6 + i) by reflexivity.
    rewrite Hd in Hnone. rewrite dailyStat_missing; [split; reflexivity |].
    apply find_all_false. intros d Hin.
    apply findDaysInRange_In in Hin. destruct Hin as (r & Hr & -> & Hu).
    simpl. apply Z.eqb_neq.
    exact (findDay_None_row s userId _ r Hnone Hr Hu).
Qed.

Lemma weekly_dailyStats_window_witness :
  let e := nth 4 (Weekly.dailyStats (get_weekly twoPickups 7 103))
               (Weekly.mkDaily 0 0 0 false) in
  Weekly.makes e = 0 /\ Weekly.completed e = false.
Proof.
  apply (proj2 (proj2 (weekly_dailyStats_window twoPickups 7 103))).
  - vm_compute. do 4 right. left. reflexivity.
  - vm_compute. reflexivity.
Defined.

Lemma plannedTick_fold day l : forall a b,
  fold_left (Weekly.plannedTick day) l (a, b)
  = (a + Z.of_nat (List.length (filter (Weekly.isOnTime day) l)),
     b + Z.of_nat (List.length l)).
Proof.
  induction l as [| p l IH]; intros a b; simpl.
  - f_equal; lia.
  - destruct (Weekly.isOnTime day p); rewrite IH; simpl List.length;
      f_equal; lia.
Qed.

Lemma tally_fold days : forall a b,
  fold_left Weekly.dayTick days (a, b)
  = (a + Spec.onTimeCount Weekly.isOnTime days, b + Spec.totalPlanned days).
Proof.
  unfold Spec.onTimeCount, Spec.totalPlanned.
  induction days as [| d days IH]; intros a b; simpl.
  - f_equal; lia.
  - unfold Weekly.dayTick at 2. rewrite plannedTick_fold, IH.
    rewrite !length_app. f_equal; lia.
Qed.

Lemma tally_counts days :
  Weekly.tally days
  = (Spec.onTimeCount Weekly.isOnTime days, Spec.totalPlanned days).
Proof. unfold Weekly.tally. rewrite tally_fold. reflexivity. Qed.

Lemma onTimeCount_le onTime days :
  0 <= Spec.onTimeCount onTime days <= Spec.totalPlanned days.
Proof.
  unfold Spec.onTimeCount, Spec.totalPlanned. split; [lia |].
  apply inj_le. induction days as [| d days IH]; simpl; [lia |].
  rewrite !length_app.
  pose proof (filter_length_le (onTime d) (TrainingDay.plannedActivities d)).
  lia.
Qed.

Lemma completedDays_le days weekAgo :
  0 <= Weekly.completedDays (Weekly.buildDailyStats days weekAgo) <= 7.
Proof.
  unfold Weekly.completedDays. split; [lia |].
  pose proof (filter_length_le Weekly.completed
                (Weekly.buildDailyStats days weekAgo)) as H.
  assert (H7 : List.length (Weekly.buildDailyStats days weekAgo) = 7%nat)
    by reflexivity.
  lia.
Qed.

Lemma score_bounds onTime totalPlanned :
  0 <= onTime <= totalPlanned -> 0 <= Weekly.score onTime totalPlanned <= 100.
Proof.
  intros H. unfold Weekly.score.
  destruct (Z.ltb_spec 0 totalPlanned); [| lia].
  apply roundPct_bounds; assumption.
Qed.

(** C10: in the weekly response completionPercentage and consistencyScore
    are integers between 0 and 100; the number of completed days is at most
    7 and the on-time count is at most the number of planned activities. *)
Theorem weekly_percentages_bounded s userId today :
  let days := Prisma.findDaysInRange s userId (today - 6) today in
  let w := get_weekly s userId today in
  let completedDays := Weekly.completedDays (Weekly.dailyStats w) in
  let onTime := fst (Weekly.tally days) in
  let totalPlanned := snd (Weekly.tally days) in
  Weekly.completionPercentage w = roundPct completedDays 7
  /\ Weekly.consistencyScore w = Weekly.score onTime totalPlanned
  /\ 0 <= completedDays <= 7
  /\ 0 <= onTime <= totalPlanned
  /\ 0 <= Weekly.completionPercentage w <= 100
  /\ 0 <= Weekly.consistencyScore w <= 100.
Proof.
  cbv zeta. unfold get_weekly, Weekly.compute.
  rewrite tally_counts. cbn [Weekly.dailyStats Weekly.completionPercentage
                             Weekly.consistencyScore fst snd].
  pose proof (completedDays_le
                (Prisma.findDaysInRange s userId (today - 6) today)
                (today - 6)) as Hc.
  pose proof (onTimeCount_le Weekly.isOnTime
                (Prisma.findDaysInRange s userId (today - 6) today)) as Ho.
  repeat split; try apply Hc; try apply Ho;
    try (apply roundPct_bounds; lia); try (apply score_bounds; exact Ho).
Qed.

Lemma digitValue_digit c v :
  Spec.digitValue c = Some v ->
  Time.digit c = Some v /\ Ascii.eqb c ":" = false.
Proof.
  destruct c as [[] [] [] [] [] [] [] []]; intros H; vm_compute in H;
    try discriminate H; injection H as <-; split; reflexivity.
Qed.

Lemma minutesOfDay_minutes t v :
  Spec.minutesOfDay t = Some v -> Time.minutes t = Some v.
Proof.
  intros H.
  destruct t as [| h1 [| h0 [| c [| m1 [| m0 [| x t]]]]]];
    try discriminate H; unfold Spec.minutesOfDay in H.
  destruct (Spec.digitValue h1) as [a |] eqn:Ea; [| discriminate H].
  destruct (Spec.digitValue h0) as [b |] eqn:Eb; [| discriminate H].
  destruct (Spec.digitValue m1) as [d |] eqn:Ed; [| discriminate H].
  destruct (Spec.digitValue m0) as [e |] eqn:Ee; [| discriminate H].
  destruct (Ascii.eqb_spec c ":") as [-> | _]; [| discriminate H].
  assert (Hv : v = 60 * (10 * a + b) + (10 * d + e)) by congruence.
  clear H. subst v.
  apply digitValue_digit in Ea, Eb, Ed, Ee.
  destruct Ea as [Da Ca], Eb as [Db Cb], Ed as [Dd Cd], Ee as [De Ce].
  unfold Time.minutes. cbn [Time.split]. rewrite Ca, Cb, Cd, Ce.
  change (Ascii.eqb ":" ":") with true. cbn [map Time.Number Time.digits].
  rewrite Da, Db, Dd, De. cbn [Time.digits]. f_equal. lia.
Qed.

Lemma within_within30 c p :
  clockTime (Some c) = true -> clockTime (Some p) = true ->
  c <> "" -> p <> "" ->
  Time.within30 c p = Spec.within c p.
Proof.
  unfold clockTime. intros Hc Hp Nc Np.
  apply String.eqb_neq in Nc, Np. rewrite Nc in Hc. rewrite Np in Hp.
  cbn [orb] in Hc, Hp. unfold Time.within30, Spec.within.
  destruct (Spec.minutesOfDay c) as [x |] eqn:Ex; [| discriminate].
  destruct (Spec.minutesOfDay p) as [y |] eqn:Ey; [| discriminate].
  now rewrite (minutesOfDay_minutes _ _ Ex), (minutesOfDay_minutes _ _ Ey).
Qed.

Lemma isOnTime_first day planned :
  forallb (fun a => clockTime (ActualActivity.completedAt a))
          (TrainingDay.actualActivities day) = true ->
  clockTime (PlannedActivity.plannedTime planned) = true ->
  Weekly.isOnTime day planned = Spec.onTimeFirst day planned.
Proof.
  intros Hacts Hp.
  unfold Weekly.isOnTime, Spec.onTimeFirst, Weekly.matchActual.
  rewrite (find_pred_ext _ (Spec.sameType planned)).
  2:{ intros a. unfold Spec.sameType.
      destruct (String.eqb_spec (PlannedActivity.type planned) "shooting")
        as [-> | _]; reflexivity. }
  destruct (find (Spec.sameType planned) (TrainingDay.actualActivities day))
    as [a |] eqn:Ef; [| reflexivity].
  apply find_some in Ef. destruct Ef as [Hin _].
  rewrite forallb_forall in Hacts. specialize (Hacts a Hin).
  unfold Spec.closeTo.
  destruct (ActualActivity.completedAt a) as [c |]; [| reflexivity].
  destruct (PlannedActivity.plannedTime planned) as [p |];
    [| now rewrite andb_false_r].
  cbn [JS.truthy].
  destruct (String.eqb_spec c "") as [-> | Nc]; [reflexivity |].
  destruct (String.eqb_spec p "") as [-> | Np].
  - cbn [negb andb]. unfold Spec.within.
    now destruct (Spec.minutesOfDay c).
  - cbn [negb andb]. now apply within_within30.
Qed.

Lemma onTimeCount_ext_in f g days :
  (forall d p, In d days -> In p (TrainingDay.plannedActivities d) ->
               f d p = g d p) ->
  Spec.onTimeCount f days = Spec.onTimeCount g days.
Proof.
  intros H. unfold Spec.onTimeCount. do 2 f_equal.
  induction days as [| d days IH]; [reflexivity |]. simpl.
  rewrite IH by (intros d' p Hd Hp; apply H; [now right | exact Hp]).
  f_equal. apply filter_ext_in. intros p Hp. apply H; [now left | exact Hp].
Qed.

Lemma weekly_consistency_score s userId today :
  let days := Prisma.findDaysInRange s userId (today - 6) today in
  Weekly.consistencyScore (get_weekly s userId today)
  = Spec.consistency Weekly.isOnTime days.
Proof.
  cbv zeta. unfold get_weekly, Weekly.compute. rewrite tally_counts.
  cbn [Weekly.consistencyScore]. unfold Weekly.score, Spec.consistency.
  set (total := Spec.totalPlanned _).
  assert (0 <= total) by (unfold total, Spec.totalPlanned; lia).
  destruct (Z.ltb_spec 0 total), (Z.eqb_spec total 0); try lia; reflexivity.
Qed.

Lemma isOnTime_first_count days :
  clockTimes days = true ->
  Spec.onTimeCount Weekly.isOnTime days
  = Spec.onTimeCount Spec.onTimeFirst days.
Proof.
  intros Hclock. apply onTimeCount_ext_in.
  intros d p Hd Hp. unfold clockTimes in Hclock.
  rewrite forallb_forall in Hclock. specialize (Hclock d Hd).
  apply andb_true_iff in Hclock. destruct Hclock as [Hpl Hac].
  rewrite forallb_forall in Hpl.
  apply isOnTime_first; [exact Hac | exact (Hpl p Hp)].
Qed.

(** Below 40 the two percentages agree for every count. *)
Lemma roundPct_small a b :
  0 <= a <= b -> 0 < b < 40 -> roundPct a b = Spec.percent a b.
Proof.
  intros Ha Hb.
  assert (H : forallb
                (fun n =>
                   forallb (fun k => roundPct (Z.of_nat k) (Z.of_nat n)
                                     =? Spec.percent (Z.of_nat k) (Z.of_nat n))
                           (seq 0 (S n)))
                (seq 1 39) = true) by (vm_compute; reflexivity).
  rewrite forallb_forall in H.
  assert (Hb' : In (Z.to_nat b) (seq 1 39)) by (apply in_seq; lia).
  specialize (H (Z.to_nat b) Hb'). rewrite forallb_forall in H.
  assert (Ha' : In (Z.to_nat a) (seq 0 (S (Z.to_nat b))))
    by (apply in_seq; lia).
  specialize (H (Z.to_nat a) Ha'). rewrite !Z2Nat.id in H by lia.
  now apply Z.eqb_eq.
Qed.

(** C3 (amended): the weekly consistencyScore is
    Math.round((onTime / totalPlanned) * 100) as the code evaluates it on
    doubles, where a planned activity counts as on time iff the first
    same-type actual activity of the same day has a completion time that
    differs from the planned time by at most 30 minutes, for planned and
    completion times written HH:MM; the score is 0 when the window holds no
    planned activity, and it is round(100 * onTime / totalPlanned) when the
    window holds fewer than 40 planned activities. *)
Theorem weekly_consistency_first_match s userId today :
  let days := Prisma.findDaysInRange s userId (today - 6) today in
  let w := get_weekly s userId today in
  (clockTimes days = true ->
   Weekly.consistencyScore w = Spec.consistency Spec.onTimeFirst days)
  /\ (Spec.totalPlanned days = 0 -> Weekly.consistencyScore w = 0)
  /\ (clockTimes days = true -> Spec.totalPlanned days < 40 ->
      Weekly.consistencyScore w = Spec.exact Spec.onTimeFirst days).
Proof.
  cbv zeta. rewrite weekly_consistency_score. split; [| split].
  - intros Hclock. unfold Spec.consistency.
    now rewrite (isOnTime_first_count _ Hclock).
  - intros H0. unfold Spec.consistency. now rewrite H0.
  - intros Hclock Hsmall. unfold Spec.consistency, Spec.exact.
    rewrite (isOnTime_first_count _ Hclock).
    set (days := Prisma.findDaysInRange s userId (today - 6) today) in *.
    pose proof (onTimeCount_le Spec.onTimeFirst days) as Hle.
    destruct (Z.eqb_spec (Spec.totalPlanned days) 0); [reflexivity |].
    apply roundPct_small; lia.
Qed.

Lemma weekly_consistency_first_match_witness :
  clockTimes (Prisma.findDaysInRange fortyPlanned 7 (100 - 6) 100) = true
  /\ Weekly.consistencyScore (get_weekly fortyPlanned 7 100)
     = Spec.consistency Spec.onTimeFirst
         (Prisma.findDaysInRange fortyPlanned 7 (100 - 6) 100)
  /\ Weekly.consistencyScore (get_weekly emptyStore 7 103) = 0
  /\ Spec.totalPlanned (Prisma.findDaysInRange twoPickups 7 (100 - 6) 100)
     < 40
  /\ Weekly.consistencyScore (get_weekly twoPickups 7 100)
     = Spec.exact Spec.onTimeFirst
         (Prisma.findDaysInRange twoPickups 7 (100 - 6) 100).
Proof.
  split; [vm_compute; reflexivity |]. split; [| split; [| split]].
  - apply (proj1 (weekly_consistency_first_match fortyPlanned 7 100)).
    vm_compute. reflexivity.
  - apply (proj1 (proj2 (weekly_consistency_first_match emptyStore 7 103))).
    reflexivity.
  - vm_compute. reflexivity.
  - apply (proj2 (proj2 (weekly_consistency_first_match twoPickups 7 100)));
      vm_compute; reflexivity.
Defined.

(** C3 as stated fails twice.  A planned pickup at 17:00 with actual
    pickups at 10:00 and 17:10 has some same-type completion within 30
    minutes, which would give 100, but the score is 0.  And with 23 of 40
    planned activities on time, under either reading, round(100 * 23 / 40)
    is 58, but the score is 57: the double nearest to 23 / 40 times 100 is
    the double just below 57.5. *)
Lemma weekly_consistency_not_as_stated :
  (let days := Prisma.findDaysInRange twoPickups 7 94 100 in
   Weekly.consistencyScore (get_weekly twoPickups 7 100) = 0
   /\ Spec.stated days = 100
   /\ Weekly.consistencyScore (get_weekly twoPickups 7 100)
      <> Spec.stated days)
  /\ (let days := Prisma.findDaysInRange fortyPlanned 7 94 100 in
      Spec.onTimeCount Spec.onTimeSome days = 23
      /\ Spec.onTimeCount Spec.onTimeFirst days = 23
      /\ Spec.totalPlanned days = 40
      /\ Weekly.consistencyScore (get_weekly fortyPlanned 7 100) = 57
      /\ Spec.stated days = 58
      /\ Weekly.consistencyScore (get_weekly fortyPlanned 7 100)
         <> Spec.stated days).
Proof. vm_compute. repeat split; discriminate. Qed.

(** ** Ownership checks *)

Lemma delete_planned_missing s userId activityId :
  plannedMissing s activityId = true ->
  delete_planned s userId activityId = (s, notFound).
Proof.
  unfold plannedMissing, delete_planned.
  destruct (Prisma.findPlanned s activityId); [discriminate | reflexivity].
Qed.

Lemma delete_planned_foreign s userId activityId :
  plannedForeign s userId activityId = true ->
  delete_planned s userId activityId = (s, notFound).
Proof.
  unfold plannedForeign, delete_planned.
  destruct (Prisma.findPlanned s activityId) as [a |]; [| discriminate].
  destruct (Prisma.findDayRow s (PlannedActivity.trainingDayId a)) as [r |];
    [| discriminate].
  now intros ->.
Qed.

Lemma put_actual_missing s userId activityId c m :
  actualMissing s activityId = true ->
  put_actual s userId activityId c m = (s, notFound).
Proof.
  unfold actualMissing, put_actual.
  destruct (Prisma.findActual s activityId); [discriminate | reflexivity].
Qed.

Lemma put_actual_foreign s userId activityId c m :
  actualForeign s userId activityId = true ->
  put_actual s userId activityId c m = (s, notFound).
Proof.
  unfold actualForeign, put_actual.
  destruct (Prisma.findActual s activityId) as [a |]; [| discriminate].
  destruct (Prisma.findDayRow s (ActualActivity.trainingDayId a)) as [r |];
    [| discriminate].
  now intros ->.
Qed.

(** C9: for the planned-activity deletion and the actual-activity update, an
    id that does not exist and an id that belongs to another user's day give
    the same 404 response with the same error body, and both leave the
    store unchanged. *)
Theorem not_found_indistinguishable
    s userId activityId s' userId' activityId' c m c' m' :
  (plannedMissing s activityId = true ->
   plannedForeign s' userId' activityId' = true ->
   delete_planned s userId activityId = (s, notFound)
   /\ delete_planned s' userId' activityId' = (s', notFound)
   /\ snd (delete_planned s userId activityId)
      = snd (delete_planned s' userId' activityId'))
  /\ (actualMissing s activityId = true ->
      actualForeign s' userId' activityId' = true ->
      put_actual s userId activityId c m = (s, notFound)
      /\ put_actual s' userId' activityId' c' m' = (s', notFound)
      /\ snd (put_actual s userId activityId c m)
         = snd (put_actual s' userId' activityId' c' m')).
Proof.
  split; intros Hm Hf.
  - rewrite (delete_planned_missing _ _ _ Hm), (delete_planned_foreign _ _ _ Hf).
    repeat split.
  - rewrite (put_actual_missing _ _ _ c m Hm),
      (put_actual_foreign _ _ _ c' m' Hf).
    repeat split.
Qed.

Lemma not_found_indistinguishable_witness :
  (delete_planned twoPickups 7 99 = (twoPickups, notFound)
   /\ delete_planned twoPickups 8 1 = (twoPickups, notFound)
   /\ snd (delete_planned twoPickups 7 99)
      = snd (delete_planned twoPickups 8 1))
  /\ (put_actual twoPickups 7 99 (Some "09:00") None
      = (twoPickups, notFound)
      /\ put_actual twoPickups 8 2 None (Some 5) = (twoPickups, notFound)
      /\ snd (put_actual twoPickups 7 99 (Some "09:00") None)
         = snd (put_actual twoPickups 8 2 None (Some 5))).
Proof.
  pose proof (not_found_indistinguishable twoPickups 7 99 twoPickups 8 1
                (Some "09:00") None None None) as [Hp _].
  pose proof (not_found_indistinguishable twoPickups 7 99 twoPickups 8 2
                (Some "09:00") None None (Some 5)) as [_ Ha].
  split; [apply Hp | apply Ha]; reflexivity.
Defined.

(** ** The quick shooting update *)

Lemma sendDay_fst s code dayId : fst (sendDay s code dayId) = s.
Proof. unfold sendDay. now destruct (Prisma.findDayById s dayId). Qed.

Lemma find_map_stable {A} (p : A -> bool) (f : A -> A) l :
  (forall x, p (f x) = p x) ->
  find p (map f l) = option_map f (find p l).
Proof.
  intros H. induction l as [| a l IH]; [reflexivity |].
  simpl. rewrite H. destruct (p a); [reflexivity | exact IH].
Qed.

Lemma find_snoc_new {A} (p : A -> bool) l x :
  find p l = None -> p x = true -> find p (l ++ [x]) = Some x.
Proof.
  intros Hl Hx. induction l as [| a l IH]; simpl in *.
  - now rewrite Hx.
  - destruct (p a); [discriminate | auto].
Qed.

Lemma findFirstActual_update s dayId ty a makes completed :
  Prisma.findFirstActual s dayId ty = Some a ->
  Prisma.findFirstActual
    (Prisma.updateActual s (ActualActivity.id a) makes completed) dayId ty
  = Some (ActualActivity.mk (ActualActivity.id a)
            (ActualActivity.trainingDayId a) (ActualActivity.type a)
            completed makes).
Proof.
  unfold Prisma.findFirstActual, Prisma.updateActual. simpl. intros H.
  rewrite find_map_stable.
  - rewrite H. simpl. now rewrite Nat.eqb_refl.
  - intros x. now destruct (Nat.eqb (ActualActivity.id x) (ActualActivity.id a)).
Qed.

Lemma findFirstActual_create s dayId ty completed makes :
  Prisma.findFirstActual s dayId ty = None ->
  Prisma.findFirstActual (Prisma.createActual s dayId ty completed makes)
    dayId ty
  = Some (ActualActivity.mk
            (freshId (map ActualActivity.id (actualTable s)))
            dayId ty completed makes).
Proof.
  unfold Prisma.findFirstActual, Prisma.createActual. simpl. intros H.
  apply find_snoc_new; [exact H |].
  simpl. now rewrite Nat.eqb_refl, String.eqb_refl.
Qed.

Lemma nullish_None {A} (o : option A) : JS.nullish o None = o.
Proof. now destruct o. Qed.

(** C6: after a quick shooting update with a numeric make count the day's
    shooting activity holds that count, and its completion time is the
    current time-of-day exactly when makes >= 200, no completion time was
    stored and none was provided; in every other case it is the provided
    time, or else the stored one. *)
Theorem put_shooting_auto_stamp now s userId date makes completedAt :
  let dayId := TrainingDay.id (snd (getOrCreateTrainingDay s userId date)) in
  let stored := storedCompletedAt (dayShooting s userId date) in
  let s2 := fst (put_shooting now s userId date (Some makes) completedAt) in
  exists a,
    Prisma.findFirstActual s2 dayId "shooting" = Some a
    /\ ActualActivity.shootingMakes a = Some makes
    /\ ActualActivity.completedAt a
       = if (200 <=? makes) && negb (JS.truthy stored)
            && negb (JS.truthy completedAt)
         then Some now
         else JS.nullish completedAt stored.
Proof.
  cbv zeta. unfold dayShooting, put_shooting.
  destruct (getOrCreateTrainingDay s userId date) as [s1 day].
  cbn [snd]. rewrite sendDay_fst. unfold autoStamp.
  destruct (Prisma.findFirstActual s1 (TrainingDay.id day) "shooting")
    as [a0 |] eqn:E.
  - eexists. split; [apply findFirstActual_update; exact E |].
    cbn [ActualActivity.shootingMakes ActualActivity.completedAt
         storedCompletedAt].
    split; [reflexivity |].
    destruct ((200 <=? makes) && negb (JS.truthy (ActualActivity.completedAt a0))
              && negb (JS.truthy completedAt)); reflexivity.
  - eexists. split; [apply findFirstActual_create; exact E |].
    cbn [ActualActivity.shootingMakes ActualActivity.completedAt
         storedCompletedAt].
    split; [reflexivity |].
    destruct ((200 <=? makes) && negb (JS.truthy None)
              && negb (JS.truthy completedAt));
      [reflexivity | now rewrite nullish_None].
Qed.

(** ** Fetching or creating the day *)

Lemma find_hit {A} (p : A -> bool) l x :
  In x l -> p x = true -> exists y, find p l = Some y.
Proof.
  intros Hin Hp. induction l as [| a l IH]; [contradiction |].
  simpl. destruct (p a) eqn:E; [eauto |].
  destruct Hin as [-> | Hin]; [congruence | auto].
Qed.

(** The handler gets the row that the unique index [(userId, date)] finds in
    the resulting store; the activity tables are untouched, and the day
    table either is unchanged or gains that row, with a fresh id. *)
Lemma getOrCreate_row s userId date :
  let r := getOrCreateTrainingDay s userId date in
  plannedTable (fst r) = plannedTable s
  /\ actualTable (fst r) = actualTable s
  /\ exists row,
       find (Prisma.isUserDate userId date) (trainingDays (fst r)) = Some row
       /\ TrainingDay.id (snd r) = DayRow.id row
       /\ (fst r = s
           \/ (Prisma.findDay s userId date = None
               /\ trainingDays (fst r) = trainingDays s ++ [row]
               /\ DayRow.id row = freshId (map DayRow.id (trainingDays s)))).
Proof.
  cbv zeta. unfold getOrCreateTrainingDay, Prisma.findDay.
  destruct (find (Prisma.isUserDate userId date) (trainingDays s))
    as [row |] eqn:E; simpl.
  - repeat split. exists row. rewrite E. repeat split. now left.
  - repeat split.
    exists (DayRow.mk (freshId (map DayRow.id (trainingDays s)))
                      userId date false).
    split; [| split; [reflexivity |]].
    + apply find_snoc_new; [exact E |].
      unfold Prisma.isUserDate. simpl. now rewrite Nat.eqb_refl, Z.eqb_refl.
    + right. repeat split.
Qed.

Lemma findDayById_hit s row (p : DayRow.t -> bool) :
  find p (trainingDays s) = Some row ->
  exists d, Prisma.findDayById s (DayRow.id row) = Some d.
Proof.
  intros H. apply find_some in H. destruct H as [Hin _].
  unfold Prisma.findDayById.
  destruct (find_hit (fun r => Nat.eqb (DayRow.id r) (DayRow.id row))
              (trainingDays s) row Hin (Nat.eqb_refl _)) as [y ->].
  simpl. eauto.
Qed.

(** ** The single planned shooting slot *)

Lemma replace_shooting_slot s dayId time location name :
  filter isShootingPlanned
    (Prisma.plannedOf
       (Prisma.createPlanned (Prisma.deleteManyPlanned s dayId "shooting")
          dayId "shooting" time location name)
       dayId)
  = [PlannedActivity.mk
       (freshId (map PlannedActivity.id
                   (plannedTable (Prisma.deleteManyPlanned s dayId "shooting"))))
       dayId "shooting" time location name].
Proof.
  unfold Prisma.plannedOf, Prisma.createPlanned. simpl plannedTable.
  rewrite !filter_app. simpl. rewrite Nat.eqb_refl. simpl.
  match goal with |- ?l ++ _ = _ => assert (Hl : l = []) end.
  { induction (plannedTable s) as [| a l IH]; [reflexivity |]. simpl.
    destruct (Nat.eqb (PlannedActivity.trainingDayId a) dayId) eqn:Ed;
      destruct (String.eqb (PlannedActivity.type a) "shooting") eqn:Et;
      simpl; rewrite ?Ed; simpl; unfold isShootingPlanned at 1;
      rewrite ?Et; exact IH. }
  rewrite Hl. reflexivity.
Qed.

Lemma includes_planned_types ty :
  JS.includes ["shooting"; "pickup"; "custom"] ty = true ->
  ty = "shooting" \/ ty = "pickup" \/ ty = "custom".
Proof.
  unfold JS.includes. simpl. rewrite !orb_true_iff, !String.eqb_eq.
  intuition discriminate.
Qed.

Lemma singleSlot_spec s :
  singleSlot s = true <-> forall dayId, (slots s dayId <= 1)%nat.
Proof.
  unfold singleSlot. rewrite forallb_forall. split.
  - intros H dayId. unfold slots.
    destruct (filter isShootingPlanned (Prisma.plannedOf s dayId))
      as [| a l] eqn:E; [simpl; lia |].
    assert (Ha : In a (filter isShootingPlanned (Prisma.plannedOf s dayId)))
      by (rewrite E; now left).
    apply filter_In in Ha. destruct Ha as [Ha _].
    unfold Prisma.plannedOf in Ha. apply filter_In in Ha.
    destruct Ha as [Hin Hd]. apply Nat.eqb_eq in Hd.
    specialize (H a Hin). apply Nat.leb_le in H.
    rewrite Hd in H. unfold slots in H. now rewrite E in H.
  - intros H a _. apply Nat.leb_le, H.
Qed.

Lemma slots_same_table s s' dayId :
  plannedTable s' = plannedTable s -> slots s' dayId = slots s dayId.
Proof. unfold slots, Prisma.plannedOf. now intros ->. Qed.

Lemma filter_filter_length {A} (p q : A -> bool) l :
  (List.length (filter p (filter q l)) <= List.length (filter p l))%nat.
Proof.
  induction l as [| a l IH]; [simpl; lia |]. simpl.
  destruct (q a), (p a) eqn:E; simpl; rewrite ?E; simpl; lia.
Qed.

Lemma slots_filtered s s' q dayId :
  plannedTable s' = filter q (plannedTable s) ->
  (slots s' dayId <= slots s dayId)%nat.
Proof.
  unfold slots, Prisma.plannedOf. intros ->.
  set (d := fun a => Nat.eqb (PlannedActivity.trainingDayId a) dayId).
  assert (Hc : filter d (filter q (plannedTable s))
               = filter q (filter d (plannedTable s))).
  { induction (plannedTable s) as [| a l IH]; [reflexivity |]. simpl.
    destruct (q a) eqn:Eq, (d a) eqn:Ed; simpl; rewrite ?Eq, ?Ed, IH;
      reflexivity. }
  rewrite Hc. apply filter_filter_length.
Qed.

Lemma slots_other_type s dayId0 ty time location name dayId :
  String.eqb ty "shooting" = false ->
  slots (Prisma.createPlanned s dayId0 ty time location name) dayId
  = slots s dayId.
Proof.
  intros Hty. unfold slots, Prisma.plannedOf, Prisma.createPlanned.
  simpl plannedTable. rewrite !filter_app, length_app. simpl.
  destruct (Nat.eqb dayId0 dayId); simpl;
    [unfold isShootingPlanned at 2; simpl; rewrite Hty |]; simpl;
    apply Nat.add_0_r.
Qed.

Lemma slots_replace s dayId0 time location name dayId :
  (slots (Prisma.createPlanned (Prisma.deleteManyPlanned s dayId0 "shooting")
            dayId0 "shooting" time location name) dayId
   <= Nat.max 1 (slots s dayId))%nat.
Proof.
  destruct (Nat.eqb_spec dayId dayId0) as [-> | Hne].
  - unfold slots at 1. rewrite replace_shooting_slot. apply Nat.le_max_l.
  - transitivity (slots (Prisma.deleteManyPlanned s dayId0 "shooting") dayId).
    + unfold slots, Prisma.plannedOf, Prisma.createPlanned.
      simpl plannedTable. rewrite !filter_app, length_app. simpl.
      destruct (Nat.eqb_spec dayId0 dayId); [congruence |]. simpl. lia.
    + etransitivity; [eapply slots_filtered; reflexivity | lia].
Qed.

(** Case analysis on the day a handler fetched or created. *)
Ltac fetch_day s userId date :=
  let H := fresh "Hday" in
  pose proof (getOrCreate_row s userId date) as H; cbv zeta in H;
  destruct (getOrCreateTrainingDay s userId date) as [?s1 ?day];
  cbn [fst snd] in H;
  destruct H as (?Hplanned & ?Hactual & ?row & ?Hfind & ?Hid & ?Hcase).

Lemma get_day_planned s userId date :
  plannedTable (fst (get_day s userId date)) = plannedTable s.
Proof. unfold get_day. fetch_day s userId date. assumption. Qed.

Lemma put_day_planned s userId date g :
  plannedTable (fst (put_day s userId date g)) = plannedTable s.
Proof.
  unfold put_day. fetch_day s userId date. rewrite sendDay_fst. assumption.
Qed.

Lemma post_actual_planned now s userId date type completedAt makes :
  plannedTable (fst (post_actual now s userId date type completedAt makes))
  = plannedTable s.
Proof.
  unfold post_actual.
  destruct (negb (JS.truthy type)); [reflexivity |].
  destruct (negb (JS.includes validTypes (JS.or_str type "")));
    [reflexivity |].
  fetch_day s userId date. rewrite sendDay_fst.
  destruct (JS.includes fixedTypes (JS.or_str type ""));
    [destruct (Prisma.findFirstActual _ _ _); assumption |].
  destruct (String.eqb (JS.or_str type "") "shooting"); [| assumption].
  destruct (Prisma.findFirstActual _ _ _); assumption.
Qed.

Lemma put_actual_planned s userId activityId completedAt makes :
  plannedTable (fst (put_actual s userId activityId completedAt makes))
  = plannedTable s.
Proof.
  unfold put_actual.
  destruct (Prisma.findActual s activityId) as [a |]; [| reflexivity].
  destruct (Prisma.findDayRow s (ActualActivity.trainingDayId a)) as [r |];
    [| reflexivity].
  destruct (negb (Nat.eqb (DayRow.userId r) userId)); [reflexivity |].
  now rewrite sendDay_fst.
Qed.

Lemma put_shooting_planned now s userId date makes completedAt :
  plannedTable (fst (put_shooting now s userId date makes completedAt))
  = plannedTable s.
Proof.
  unfold put_shooting. destruct makes as [makes |]; [| reflexivity].
  fetch_day s userId date. rewrite sendDay_fst.
  destruct (Prisma.findFirstActual _ _ _); assumption.
Qed.

Lemma delete_planned_slots s userId activityId dayId :
  (slots (fst (delete_planned s userId activityId)) dayId
   <= slots s dayId)%nat.
Proof.
  unfold delete_planned.
  destruct (Prisma.findPlanned s activityId) as [a |]; [| reflexivity].
  destruct (Prisma.findDayRow s (PlannedActivity.trainingDayId a)) as [r |];
    [| reflexivity].
  destruct (negb (Nat.eqb (DayRow.userId r) userId)); [reflexivity |].
  rewrite sendDay_fst. eapply slots_filtered. reflexivity.
Qed.

Lemma post_planned_slots s userId date type time location name dayId :
  (slots (fst (post_planned s userId date type time location name)) dayId
   <= Nat.max 1 (slots s dayId))%nat.
Proof.
  unfold post_planned.
  destruct (negb (JS.truthy type) || negb (JS.truthy time));
    [apply Nat.le_max_r |].
  destruct (JS.includes ["shooting"; "pickup"; "custom"] (JS.or_str type ""))
    eqn:Ety; simpl negb; cbv iota; [| apply Nat.le_max_r].
  fetch_day s userId date. rewrite sendDay_fst.
  rewrite <- (slots_same_table s s1 dayId Hplanned).
  apply includes_planned_types in Ety.
  destruct Ety as [-> | [-> | ->]].
  - apply slots_replace.
  - rewrite slots_other_type by reflexivity. apply Nat.le_max_r.
  - rewrite slots_other_type by reflexivity. apply Nat.le_max_r.
Qed.

Lemma handle_slots now today userId s r dayId :
  (slots (fst (handle now today userId s r)) dayId
   <= Nat.max 1 (slots s dayId))%nat.
Proof.
  destruct r; simpl handle.
  - rewrite (slots_same_table _ _ _ (get_day_planned _ _ _)).
    apply Nat.le_max_r.
  - unfold get_range. destruct range as [[? ?] |]; apply Nat.le_max_r.
  - rewrite (slots_same_table _ _ _ (put_day_planned _ _ _ _)).
    apply Nat.le_max_r.
  - apply post_planned_slots.
  - etransitivity; [apply delete_planned_slots | apply Nat.le_max_r].
  - rewrite (slots_same_table _ _ _ (post_actual_planned _ _ _ _ _ _ _)).
    apply Nat.le_max_r.
  - rewrite (slots_same_table _ _ _ (put_actual_planned _ _ _ _ _)).
    apply Nat.le_max_r.
  - rewrite (slots_same_table _ _ _ (put_shooting_planned _ _ _ _ _ _)).
    apply Nat.le_max_r.
  - apply Nat.le_max_r.
  - apply Nat.le_max_r.
  - apply Nat.le_max_r.
Qed.

Lemma post_planned_shooting_result s userId date time location name :
  JS.truthy time = true ->
  let r := post_planned s userId date (Some "shooting") time location name in
  status (snd r) = 201%nat
  /\ List.length (plannedShootingOn (fst r) userId date) = 1%nat.
Proof.
  intros Ht. cbv zeta. unfold post_planned. rewrite Ht.
  change (JS.truthy (Some "shooting")) with true.
  change (JS.or_str (Some "shooting") "") with "shooting".
  change (JS.includes ["shooting"; "pickup"; "custom"] "shooting") with true.
  change (String.eqb "shooting" "shooting") with true.
  change (String.eqb "shooting" "pickup") with false.
  change (String.eqb "shooting" "custom") with false.
  simpl negb. simpl orb. cbv iota.
  fetch_day s userId date.
  set (s3 := Prisma.createPlanned _ _ _ _ _ _).
  assert (Hdays : trainingDays s3 = trainingDays s1) by reflexivity.
  split.
  - unfold sendDay. rewrite Hid.
    destruct (findDayById_hit s3 row (Prisma.isUserDate userId date))
      as [d ->]; [now rewrite Hdays | reflexivity].
  - rewrite sendDay_fst. unfold plannedShootingOn, Prisma.findDay.
    rewrite Hdays, Hfind. simpl. rewrite <- Hid.
    unfold s3. now rewrite replace_shooting_slot.
Qed.

(** C7: a successful add-planned-shooting request answers 201 and leaves the
    day with exactly one planned shooting activity, whatever number it held
    before; and no request ever breaks the invariant that every day holds
    at most one planned shooting activity. *)
Theorem planned_shooting_single_slot :
  (forall s userId date time location name,
      JS.truthy time = true ->
      let r := post_planned s userId date (Some "shooting") time location
                 name in
      status (snd r) = 201%nat
      /\ List.length (plannedShootingOn (fst r) userId date) = 1%nat)
  /\ (forall now today userId s r,
         singleSlot s = true ->
         singleSlot (fst (handle now today userId s r)) = true).
Proof.
  split.
  - exact post_planned_shooting_result.
  - intros now today userId s r H. rewrite singleSlot_spec in *.
    intros dayId. specialize (H dayId).
    pose proof (handle_slots now today userId s r dayId). lia.
Qed.

Lemma planned_shooting_single_slot_witness :
  (status (snd (post_planned dupStore 7 100 (Some "shooting") (Some "19:00")
                  None None)) = 201%nat
   /\ List.length
        (plannedShootingOn
           (fst (post_planned dupStore 7 100 (Some "shooting") (Some "19:00")
                   None None)) 7 100) = 1%nat)
  /\ singleSlot
       (fst (handle "12:00" 100 7 twoPickups
               (PostPlanned 100 (Some "shooting") (Some "18:00") None None)))
     = true.
Proof.
  destruct planned_shooting_single_slot as [Hadd Hinv]. split.
  - apply (Hadd dupStore 7%nat 100 (Some "19:00") None None). reflexivity.
  - apply (Hinv "12:00" 100 7%nat twoPickups). reflexivity.
Defined.

(** ** The toggle of the fixed activity types *)

Lemma freshId_above ids x : In x ids -> (x < freshId ids)%nat.
Proof.
  intros H. unfold freshId.
  assert (Hall : Forall (fun k => (k <= list_max ids)%nat) ids)
    by (apply list_max_le; lia).
  rewrite Forall_forall in Hall. specialize (Hall x H). lia.
Qed.

Lemma find_and_filter {A} (p q : A -> bool) l :
  find (fun a => p a && q a) l = None <-> filter q (filter p l) = [].
Proof.
  induction l as [| a l IH]; simpl; [tauto |].
  destruct (p a) eqn:Ep; simpl; [| exact IH].
  destruct (q a) eqn:Eq; simpl; [| exact IH].
  split; discriminate.
Qed.

Lemma fixed_type_checks ty :
  JS.includes fixedTypes ty = true ->
  JS.truthy (Some ty) = true
  /\ JS.or_str (Some ty) "" = ty
  /\ JS.includes validTypes ty = true.
Proof.
  intros H. unfold JS.includes, fixedTypes in H. simpl in H.
  rewrite !orb_true_iff, !String.eqb_eq in H.
  destruct H as [-> | [-> | [-> | H]]]; try discriminate H; repeat split.
Qed.

Lemma post_actual_fixed now s userId date ty completedAt makes :
  JS.includes fixedTypes ty = true ->
  fst (post_actual now s userId date (Some ty) completedAt makes)
  = let '(s1, trainingDay) := getOrCreateTrainingDay s userId date in
    match Prisma.findFirstActual s1 (TrainingDay.id trainingDay) ty with
    | Some existing => Prisma.deleteActual s1 (ActualActivity.id existing)
    | None =>
        Prisma.createActual s1 (TrainingDay.id trainingDay) ty
          (Some (JS.or_str completedAt now)) None
    end.
Proof.
  intros Hty. destruct (fixed_type_checks ty Hty) as (Ht & Ho & Hv).
  unfold post_actual. rewrite Ht, Ho, Hv, Hty. simpl negb. cbv iota.
  destruct (getOrCreateTrainingDay s userId date) as [s1 day].
  apply sendDay_fst.
Qed.

Lemma getOrCreate_found s userId date row :
  find (Prisma.isUserDate userId date) (trainingDays s) = Some row ->
  getOrCreateTrainingDay s userId date = (s, Prisma.includeAll s row).
Proof.
  intros H. unfold getOrCreateTrainingDay, Prisma.findDay. now rewrite H.
Qed.

Lemma dayActuals_found s userId date ty row :
  find (Prisma.isUserDate userId date) (trainingDays s) = Some row ->
  dayActuals s userId date ty
  = filter (fun a => String.eqb (ActualActivity.type a) ty)
           (Prisma.actualOf s (DayRow.id row)).
Proof.
  intros H. unfold dayActuals, Prisma.findDay. now rewrite H.
Qed.

(** No activity is attached to the id a new day row is about to get. *)
Lemma fresh_day_unattached s a :
  actualsAttached s = true ->
  In a (actualTable s) ->
  ActualActivity.trainingDayId a <> freshId (map DayRow.id (trainingDays s)).
Proof.
  unfold actualsAttached. rewrite forallb_forall. intros H Hin Heq.
  specialize (H a Hin). apply existsb_exists in H.
  destruct H as (r & Hr & Hid). apply Nat.eqb_eq in Hid.
  pose proof (freshId_above (map DayRow.id (trainingDays s)) (DayRow.id r)
                (in_map DayRow.id _ _ Hr)).
  lia.
Qed.

Lemma delete_created s dayId ty completed makes :
  actualTable
    (Prisma.deleteActual (Prisma.createActual s dayId ty completed makes)
       (freshId (map ActualActivity.id (actualTable s))))
  = actualTable s.
Proof.
  unfold Prisma.deleteActual, Prisma.createActual. simpl.
  rewrite filter_app. simpl. rewrite Nat.eqb_refl. simpl.
  rewrite app_nil_r. apply forallb_filter_id. apply forallb_forall.
  intros a Hin. apply negb_true_iff, Nat.eqb_neq.
  pose proof (freshId_above (map ActualActivity.id (actualTable s))
                (ActualActivity.id a) (in_map ActualActivity.id _ _ Hin)).
  lia.
Qed.

(** The toggle on a store where the handler finds no record of the type:
    one record after the first call, the table restored by the second. *)
Lemma toggle_twice now now' s1 userId date ty c c' row :
  find (Prisma.isUserDate userId date) (trainingDays s1) = Some row ->
  Prisma.findFirstActual s1 (DayRow.id row) ty = None ->
  let sA := Prisma.createActual s1 (DayRow.id row) ty
              (Some (JS.or_str c now)) None in
  let sB :=
    let '(s2, trainingDay) := getOrCreateTrainingDay sA userId date in
    match Prisma.findFirstActual s2 (TrainingDay.id trainingDay) ty with
    | Some existing => Prisma.deleteActual s2 (ActualActivity.id existing)
    | None =>
        Prisma.createActual s2 (TrainingDay.id trainingDay) ty
          (Some (JS.or_str c' now')) None
    end in
  List.length (dayActuals sA userId date ty) = 1%nat
  /\ dayActuals sB userId date ty = []
  /\ actualTable sB = actualTable s1.
Proof.
  intros Hrow Hnone. cbv zeta.
  set (sA := Prisma.createActual s1 (DayRow.id row) ty
               (Some (JS.or_str c now)) None).
  assert (HrowA : find (Prisma.isUserDate userId date) (trainingDays sA)
                  = Some row) by exact Hrow.
  pose proof Hnone as Hempty. unfold Prisma.findFirstActual in Hempty.
  apply find_and_filter in Hempty.
  rewrite (getOrCreate_found sA userId date row HrowA).
  cbn [TrainingDay.id Prisma.includeAll].
  assert (Hf : Prisma.findFirstActual sA (DayRow.id row) ty
               = Some (ActualActivity.mk
                         (freshId (map ActualActivity.id (actualTable s1)))
                         (DayRow.id row) ty (Some (JS.or_str c now)) None))
    by exact (findFirstActual_create _ _ _ _ _ Hnone).
  rewrite Hf. cbn [ActualActivity.id].
  split; [| split].
  - rewrite (dayActuals_found sA userId date ty row HrowA).
    unfold sA, Prisma.actualOf, Prisma.createActual. simpl actualTable.
    rewrite !filter_app, Hempty. simpl. rewrite Nat.eqb_refl. simpl.
    now rewrite String.eqb_refl.
  - rewrite (dayActuals_found _ userId date ty row) by exact Hrow.
    unfold Prisma.actualOf. unfold sA. rewrite delete_created. exact Hempty.
  - unfold sA. apply delete_created.
Qed.

(** C8: on a store where the day holds no actual activity of a fixed type
    (coach_skills, coach_weights or varsity), logging that type twice in a
    row leaves none again: the first call creates exactly one record of the
    type for the day, the second deletes it and the actual-activity table is
    the one before the two calls. *)
Theorem fixed_activity_toggle now now' s userId date ty c c' m m' :
  JS.includes fixedTypes ty = true ->
  actualsAttached s = true ->
  dayActuals s userId date ty = [] ->
  let s1 := fst (post_actual now s userId date (Some ty) c m) in
  let s2 := fst (post_actual now' s1 userId date (Some ty) c' m') in
  List.length (dayActuals s1 userId date ty) = 1%nat
  /\ dayActuals s2 userId date ty = []
  /\ actualTable s2 = actualTable s.
Proof.
  intros Hty Hok Hnone. cbv zeta.
  rewrite !(post_actual_fixed _ _ _ _ _ _ _ Hty).
  fetch_day s userId date.
  assert (Hfirst : Prisma.findFirstActual s1 (DayRow.id row) ty = None).
  { unfold Prisma.findFirstActual. rewrite Hactual.
    destruct Hcase as [-> | (Hmiss & _ & Hfresh)].
    - apply find_and_filter.
      rewrite (dayActuals_found s userId date ty row Hfind) in Hnone.
      exact Hnone.
    - apply find_all_false. intros a Hin.
      apply andb_false_iff. left. apply Nat.eqb_neq. rewrite Hfresh.
      now apply fresh_day_unattached. }
  rewrite Hid, Hfirst. rewrite <- Hactual.
  exact (toggle_twice now now' s1 userId date ty c c' row Hfind Hfirst).
Qed.

Lemma fixed_activity_toggle_witness :
  let s1 := fst (post_actual "19:30" twoPickups 7 100 (Some "varsity")
                   None None) in
  let s2 := fst (post_actual "19:31" s1 7 100 (Some "varsity") None None) in
  List.length (dayActuals s1 7 100 "varsity") = 1%nat
  /\ dayActuals s2 7 100 "varsity" = []
  /\ actualTable s2 = actualTable twoPickups.
Proof.
  apply (fixed_activity_toggle "19:30" "19:31" twoPickups 7 100 "varsity"
           None None None None); reflexivity.
Defined.

(** ** Referential integrity is an invariant *)

Lemma actualsAttached_spec s :
  actualsAttached s = true
  <-> forall a, In a (actualTable s) ->
                In (ActualActivity.trainingDayId a) (idsOf s).
Proof.
  unfold actualsAttached, idsOf. rewrite forallb_forall.
  split; intros H a Hin; specialize (H a Hin).
  - apply existsb_exists in H. destruct H as (r & Hr & Hid).
    apply Nat.eqb_eq in Hid. rewrite <- Hid. now apply in_map.
  - apply in_map_iff in H. destruct H as (r & Hid & Hr).
    apply existsb_exists. exists r. split; [assumption |].
    now apply Nat.eqb_eq.
Qed.

Lemma keeps_attached s s' :
  keeps s s' -> actualsAttached s = true -> actualsAttached s' = true.
Proof.
  rewrite !actualsAttached_spec. intros [Hids Hrows] H a' Hin.
  destruct (Hrows a' Hin) as [Hd | (a & Ha & Heq)]; [assumption |].
  rewrite <- Heq. apply Hids, H, Ha.
Qed.

Lemma keeps_refl s : keeps s s.
Proof. split; [apply incl_refl | intros a Ha; right; eauto]. Qed.

Lemma keeps_trans s s' s'' : keeps s s' -> keeps s' s'' -> keeps s s''.
Proof.
  intros [Hi1 Hr1] [Hi2 Hr2]. split; [eapply incl_tran; eassumption |].
  intros a'' Hin. destruct (Hr2 a'' Hin) as [Hd | (a' & Ha' & Heq)];
    [now left |].
  destruct (Hr1 a' Ha') as [Hd | (a & Ha & Heq')].
  - left. rewrite <- Heq. now apply Hi2.
  - right. exists a. split; [assumption | congruence].
Qed.

(** A step that keeps the day ids and only removes or rewrites rows of the
    actual-activity table without changing the day they belong to. *)
Lemma keeps_rows s s' :
  idsOf s' = idsOf s ->
  (forall a', In a' (actualTable s') ->
              exists a, In a (actualTable s)
                        /\ ActualActivity.trainingDayId a
                           = ActualActivity.trainingDayId a') ->
  keeps s s'.
Proof.
  intros Hids Hrows. split; [rewrite Hids; apply incl_refl |].
  intros a' Hin. right. now apply Hrows.
Qed.

Lemma keeps_same_actual s s' :
  idsOf s' = idsOf s -> actualTable s' = actualTable s -> keeps s s'.
Proof.
  intros Hids Ht. apply keeps_rows; [assumption |].
  intros a' Hin. rewrite Ht in Hin. eauto.
Qed.

Lemma keeps_updateDay s dayId g : keeps s (Prisma.updateDay s dayId g).
Proof.
  apply keeps_same_actual; [| reflexivity].
  unfold idsOf, Prisma.updateDay. simpl. rewrite map_map.
  apply map_ext. intros r. now destruct (Nat.eqb (DayRow.id r) dayId).
Qed.

Lemma keeps_deleteActual s aid : keeps s (Prisma.deleteActual s aid).
Proof.
  apply keeps_rows; [reflexivity |].
  intros a' Hin. simpl in Hin. apply filter_In in Hin. exists a'. tauto.
Qed.

Lemma keeps_updateActual s aid makes completed :
  keeps s (Prisma.updateActual s aid makes completed).
Proof.
  apply keeps_rows; [reflexivity |].
  intros a' Hin. simpl in Hin. apply in_map_iff in Hin.
  destruct Hin as (a & <- & Ha). exists a. split; [assumption |].
  now destruct (Nat.eqb (ActualActivity.id a) aid).
Qed.

Lemma keeps_createActual s dayId ty completed makes :
  In dayId (idsOf s) ->
  keeps s (Prisma.createActual s dayId ty completed makes).
Proof.
  intros Hd. split; [apply incl_refl |].
  intros a' Hin. simpl in Hin. apply in_app_or in Hin.
  destruct Hin as [Hin | [<- | []]]; [right; eauto | left; exact Hd].
Qed.

Lemma keeps_getOrCreate s userId date :
  keeps s (fst (getOrCreateTrainingDay s userId date))
  /\ In (TrainingDay.id (snd (getOrCreateTrainingDay s userId date)))
        (idsOf (fst (getOrCreateTrainingDay s userId date))).
Proof.
  fetch_day s userId date. cbn [fst snd]. split.
  - destruct Hcase as [-> | (_ & Hdays & _)]; [apply keeps_refl |].
    split.
    + unfold idsOf. rewrite Hdays, map_app. now apply incl_appl, incl_refl.
    + intros a' Hin. rewrite Hactual in Hin. right. eauto.
  - rewrite Hid. apply find_some in Hfind. unfold idsOf.
    apply in_map. tauto.
Qed.

Lemma keeps_sendDay s s' code dayId :
  keeps s s' -> keeps s (fst (sendDay s' code dayId)).
Proof. now rewrite sendDay_fst. Qed.

Lemma handle_keeps now today userId s r :
  keeps s (fst (handle now today userId s r)).
Proof.
  destruct r; simpl handle; try apply keeps_refl.
  - unfold get_day.
    pose proof (keeps_getOrCreate s userId date) as [Hk _].
    now destruct (getOrCreateTrainingDay s userId date).
  - unfold get_range. destruct range as [[? ?] |]; apply keeps_refl.
  - unfold put_day.
    pose proof (keeps_getOrCreate s userId date) as [Hk _].
    destruct (getOrCreateTrainingDay s userId date) as [s1 day].
    apply keeps_sendDay. eapply keeps_trans; [exact Hk |].
    apply keeps_updateDay.
  - unfold post_planned.
    destruct (negb (JS.truthy type) || negb (JS.truthy time));
      [apply keeps_refl |].
    destruct (negb (JS.includes _ _)); [apply keeps_refl |].
    pose proof (keeps_getOrCreate s userId date) as [Hk _].
    destruct (getOrCreateTrainingDay s userId date) as [s1 day].
    apply keeps_sendDay. eapply keeps_trans; [exact Hk |].
    apply keeps_same_actual; [| now destruct (String.eqb _ "shooting")].
    now destruct (String.eqb (JS.or_str type "") "shooting").
  - unfold delete_planned.
    destruct (Prisma.findPlanned s activityId) as [a |]; [| apply keeps_refl].
    destruct (Prisma.findDayRow s _) as [row |]; [| apply keeps_refl].
    destruct (negb _); [apply keeps_refl |].
    apply keeps_sendDay. now apply keeps_same_actual.
  - unfold post_actual.
    destruct (negb (JS.truthy type)); [apply keeps_refl |].
    destruct (negb (JS.includes _ _)); [apply keeps_refl |].
    pose proof (keeps_getOrCreate s userId date) as [Hk Hin].
    destruct (getOrCreateTrainingDay s userId date) as [s1 day].
    cbn [fst snd] in Hk, Hin.
    apply keeps_sendDay. eapply keeps_trans; [exact Hk |].
    destruct (JS.includes fixedTypes _).
    { destruct (Prisma.findFirstActual _ _ _);
        [apply keeps_deleteActual | now apply keeps_createActual]. }
    destruct (String.eqb _ "shooting"); [| now apply keeps_createActual].
    destruct (Prisma.findFirstActual _ _ _);
      [apply keeps_updateActual | now apply keeps_createActual].
  - unfold put_actual.
    destruct (Prisma.findActual s activityId) as [a |]; [| apply keeps_refl].
    destruct (Prisma.findDayRow s _) as [row |]; [| apply keeps_refl].
    destruct (negb _); [apply keeps_refl |].
    apply keeps_sendDay, keeps_updateActual.
  - unfold put_shooting. destruct makes as [makes |]; [| apply keeps_refl].
    pose proof (keeps_getOrCreate s userId date) as [Hk Hin].
    destruct (getOrCreateTrainingDay s userId date) as [s1 day].
    cbn [fst snd] in Hk, Hin.
    apply keeps_sendDay. eapply keeps_trans; [exact Hk |].
    destruct (Prisma.findFirstActual _ _ _);
      [apply keeps_updateActual | now apply keeps_createActual].
Qed.

(** Every request preserves referential integrity and the single planned
    shooting slot, so every store reached from the empty one has both. *)
Lemma handle_attached now today userId s r :
  actualsAttached s = true ->
  actualsAttached (fst (handle now today userId s r)) = true.
Proof. apply keeps_attached, handle_keeps. Qed.

Lemma run_invariants now today userId rs : forall s,
  actualsAttached s = true -> singleSlot s = true ->
  actualsAttached (run now today userId s rs) = true
  /\ singleSlot (run now today userId s rs) = true.
Proof.
  unfold run. induction rs as [| r rs IH]; intros s Ha Hs; [now split |].
  simpl. apply IH.
  - now apply handle_attached.
  - rewrite singleSlot_spec in *. intros dayId.
    pose proof (handle_slots now today userId s r dayId).
    specialize (Hs dayId). lia.
Qed.

Lemma reachable_invariants now today userId rs :
  actualsAttached (run now today userId emptyStore rs) = true
  /\ singleSlot (run now today userId emptyStore rs) = true.
Proof. now apply run_invariants. Qed.

(** * Further properties of the services *)

(** ** The lists and flags of the day view *)

Lemma fold_planned_lists l :
  View.pickupRuns (fold_left plannedStep l plannedInit)
  = map pickupSlot (filter (plannedOfType "pickup") l)
  /\ View.custom (fold_left plannedStep l plannedInit)
     = map customSlot (filter (plannedOfType "custom") l).
Proof.
  induction l as [| a l [IHp IHc]] using rev_ind; [split; reflexivity |].
  rewrite fold_left_app, !filter_app, !map_app. simpl fold_left.
  unfold plannedStep at 1 3. simpl filter. unfold plannedOfType at 2 4.
  destruct (String.eqb_spec (PlannedActivity.type a) "shooting") as [E | _].
  { rewrite E. simpl. rewrite !app_nil_r. now split. }
  destruct (String.eqb_spec (PlannedActivity.type a) "pickup") as [E | _].
  { rewrite E. simpl. rewrite IHp, app_nil_r. now split. }
  destruct (String.eqb (PlannedActivity.type a) "custom"); simpl;
    rewrite ?app_nil_r, ?IHc; now split.
Qed.

(** X1: the pickup and custom lists of the day view hold exactly the pickup
    and custom records of the day, planned and actual, in the order of the
    collections; records of any other type add no entry. *)
Theorem format_lists_in_order (trainingDay : TrainingDay.t) :
  let view := formatTrainingDayResponse trainingDay in
  View.pickupRuns (View.planned view)
  = map pickupSlot (filter (plannedOfType "pickup")
                           (TrainingDay.plannedActivities trainingDay))
  /\ View.custom (View.planned view)
     = map customSlot (filter (plannedOfType "custom")
                              (TrainingDay.plannedActivities trainingDay))
  /\ View.actualPickupRuns (View.actual view)
     = map doneOf (filter (actualOfType "pickup")
                          (TrainingDay.actualActivities trainingDay))
  /\ View.actualCustom (View.actual view)
     = map doneOf (filter (actualOfType "custom")
                          (TrainingDay.actualActivities trainingDay)).
Proof.
  cbv zeta. unfold formatTrainingDayResponse. cbn [View.planned View.actual].
  destruct (fold_planned_lists (TrainingDay.plannedActivities trainingDay))
    as [Hp Hc].
  split; [exact Hp |]. split; [exact Hc |].
  induction (TrainingDay.actualActivities trainingDay) as [| a l [IHp IHc]]
    using rev_ind; [split; reflexivity |].
  rewrite fold_left_app, !filter_app, !map_app. simpl fold_left.
  unfold actualStep at 1 3. cbv zeta. simpl filter.
  unfold actualOfType at 2 4.
  destruct (String.eqb_spec (ActualActivity.type a) "shooting") as [E | _].
  { rewrite E. simpl. rewrite !app_nil_r. now split. }
  destruct (String.eqb_spec (ActualActivity.type a) "coach_skills") as [E | _].
  { rewrite E. simpl. rewrite !app_nil_r. now split. }
  destruct (String.eqb_spec (ActualActivity.type a) "coach_weights") as [E | _].
  { rewrite E. simpl. rewrite !app_nil_r. now split. }
  destruct (String.eqb_spec (ActualActivity.type a) "varsity") as [E | _].
  { rewrite E. simpl. rewrite !app_nil_r. now split. }
  destruct (String.eqb_spec (ActualActivity.type a) "pickup") as [E | _].
  { rewrite E. simpl. rewrite IHp, app_nil_r. now split. }
  destruct (String.eqb (ActualActivity.type a) "custom"); simpl;
    rewrite ?app_nil_r, ?IHc; now split.
Qed.

(** Case analysis on the string tests of a type tag. *)
Ltac type_cases ty :=
  repeat match goal with
         | |- context [String.eqb ty ?t] => destruct (String.eqb_spec ty t)
         end.

Lemma actualStep_flags acc a :
  View.coachSkills (actualStep acc a)
  = View.coachSkills acc || actualOfType "coach_skills" a
  /\ View.coachWeights (actualStep acc a)
     = View.coachWeights acc || actualOfType "coach_weights" a
  /\ View.varsity (actualStep acc a)
     = View.varsity acc || actualOfType "varsity" a.
Proof.
  unfold actualStep, actualOfType. cbv zeta.
  type_cases (ActualActivity.type a);
    simpl; rewrite ?orb_false_r, ?orb_true_r; try congruence; auto.
Qed.

(** X2: each of the three fixed-activity flags of the day view is true
    exactly when the day holds an actual activity of that type. *)
Theorem format_flags_presence (trainingDay : TrainingDay.t) :
  let actual := View.actual (formatTrainingDayResponse trainingDay) in
  let acts := TrainingDay.actualActivities trainingDay in
  View.coachSkills actual = existsb (actualOfType "coach_skills") acts
  /\ View.coachWeights actual = existsb (actualOfType "coach_weights") acts
  /\ View.varsity actual = existsb (actualOfType "varsity") acts.
Proof.
  cbv zeta. unfold formatTrainingDayResponse. cbn [View.actual].
  induction (TrainingDay.actualActivities trainingDay)
    as [| a l (IH1 & IH2 & IH3)] using rev_ind; [repeat split |].
  rewrite fold_left_app, !existsb_app. simpl fold_left. simpl existsb.
  destruct (actualStep_flags (fold_left actualStep l actualInit) a)
    as (H1 & H2 & H3).
  rewrite H1, H2, H3, IH1, IH2, IH3, !orb_false_r. auto.
Qed.

(** ** Fetching the day again *)

Lemma getOrCreate_day s userId date :
  exists row,
    find (Prisma.isUserDate userId date)
         (trainingDays (fst (getOrCreateTrainingDay s userId date)))
    = Some row
    /\ snd (getOrCreateTrainingDay s userId date)
       = Prisma.includeAll (fst (getOrCreateTrainingDay s userId date)) row.
Proof.
  unfold getOrCreateTrainingDay, Prisma.findDay.
  destruct (find (Prisma.isUserDate userId date) (trainingDays s))
    as [row |] eqn:E; cbn [option_map fst snd].
  - exists row. now split.
  - exists (DayRow.mk (freshId (map DayRow.id (trainingDays s)))
                      userId date false).
    split; [| reflexivity].
    apply find_snoc_new; [exact E |]. unfold Prisma.isUserDate. simpl.
    now rewrite Nat.eqb_refl, Z.eqb_refl.
Qed.

(** X3: getOrCreateTrainingDay returns a day of the requested user and
    date, and calling it again on the resulting store returns the same day
    and creates nothing. *)
Theorem getOrCreate_idempotent s userId date :
  let r := getOrCreateTrainingDay s userId date in
  TrainingDay.userId (snd r) = userId
  /\ TrainingDay.date (snd r) = date
  /\ Prisma.findDay (fst r) userId date = Some (snd r)
  /\ getOrCreateTrainingDay (fst r) userId date = r.
Proof.
  cbv zeta. destruct (getOrCreate_day s userId date) as (row & Hrow & Hday).
  destruct (getOrCreateTrainingDay s userId date) as [s1 day].
  cbn [fst snd] in *. subst day.
  pose proof (find_some _ _ Hrow) as [_ Hk].
  unfold Prisma.isUserDate in Hk. apply andb_true_iff in Hk.
  destruct Hk as [Hu Hd]. apply Nat.eqb_eq in Hu. apply Z.eqb_eq in Hd.
  repeat split; try assumption.
  - unfold Prisma.findDay. now rewrite Hrow.
  - apply getOrCreate_found, Hrow.
Qed.

(** ** The value of the streak *)

Lemma allComplete_spec s userId date n :
  allComplete s userId date n = true
  <-> forall i, (i < n)%nat ->
                completeOn s userId (date - Z.of_nat i) = true.
Proof.
  unfold allComplete. rewrite forallb_forall. split.
  - intros H i Hi. apply H, in_seq. lia.
  - intros H i Hi. apply in_seq in Hi. apply H. lia.
Qed.

Lemma allComplete_tail s userId date n :
  allComplete s userId date (S n) = true ->
  completeOn s userId date = true
  /\ allComplete s userId (date - 1) n = true.
Proof.
  rewrite !allComplete_spec. intros H. split.
  - specialize (H 0%nat). rewrite Z.sub_0_r in H. apply H. lia.
  - intros i Hi. specialize (H (S i)).
    replace (date - 1 - Z.of_nat i) with (date - Z.of_nat (S i)) by lia.
    apply H. lia.
Qed.

(** From a state that already counts, or on a past day: a run of [n]
    complete days followed by an incomplete one adds exactly [n]. *)
Lemma streakLoop_counts s userId today :
  forall (n fuel : nat) streak cur seen,
    runEnds s userId cur n = true ->
    0 < streak + Z.of_nat n \/ cur - Z.of_nat n < today ->
    0 <= streak ->
    streak + Z.of_nat n <= 365 ->
    (n < fuel)%nat ->
    streakLoop fuel s userId today streak cur seen
    = Some (streak + Z.of_nat n, seen ++ datesDown cur (S n)).
Proof.
  induction n as [| n IH]; intros fuel streak cur seen Hrun Hpast H0 Hle Hf;
    (destruct fuel as [| fuel]; [lia |]); rewrite streakLoop_step;
    unfold runEnds in Hrun; apply andb_true_iff in Hrun;
    destruct Hrun as [Hall Hend]; apply negb_true_iff in Hend.
  - simpl in Hend. rewrite Z.sub_0_r in Hend. unfold completeOn in Hend.
    rewrite Hend. simpl in Hpast. rewrite Z.add_0_r, Z.sub_0_r in Hpast.
    assert (Hc : (0 <? streak) || (cur <? today) = true).
    { apply orb_true_iff. destruct Hpast; [left | right];
        now apply Z.ltb_lt. }
    rewrite Hc, datesDown_one. do 2 f_equal. simpl. lia.
  - destruct (allComplete_tail s userId cur n Hall) as [Hc Htail].
    unfold completeOn in Hc. rewrite Hc.
    destruct (Z.ltb_spec 365 (streak + 1)); [lia |].
    rewrite (IH fuel (streak + 1) (cur - 1) (seen ++ [cur])); try lia.
    + rewrite (datesDown_cons cur (S n)), <- app_assoc. simpl.
      do 2 f_equal. lia.
    + unfold runEnds. fold (allComplete s userId (cur - 1) n).
      rewrite Htail. simpl.
      replace (cur - 1 - Z.of_nat n) with (cur - Z.of_nat (S n)) by lia.
      now rewrite Hend.
Qed.

Lemma streakRun_counted s userId today n :
  (1 <= n <= 365)%nat ->
  runEnds s userId today n = true ->
  streakRun (S n) s userId today
  = Some (Z.of_nat n, datesDown today (S n)).
Proof.
  intros Hn Hrun. unfold streakRun.
  rewrite (streakLoop_counts s userId today n (S n) 0 today []); try lia;
    [reflexivity | assumption].
Qed.

Lemma streakRun_counted_yesterday s userId today n :
  (n <= 365)%nat ->
  completeOn s userId today = false ->
  runEnds s userId (today - 1) n = true ->
  streakRun (S (S n)) s userId today
  = Some (Z.of_nat n, datesDown today (S (S n))).
Proof.
  intros Hn Htoday Hrun. unfold streakRun. rewrite streakLoop_step.
  unfold completeOn in Htoday. rewrite Htoday, (Z.ltb_irrefl today).
  change (0 <? 0) with false. change (365 <? 0) with false.
  simpl orb. cbv iota.
  rewrite (streakLoop_counts s userId today n (S n) 0 (today - 1)
             ([] ++ [today])); try lia; [| assumption].
  now rewrite (datesDown_cons today (S n)).
Qed.

(** X4: the streak is the length of the run of consecutive complete days
    (makes >= 200) that ends today, or that ends yesterday when today is
    not complete yet, for runs of up to 365 days. *)
Theorem calculateStreak_run_length s userId today n :
  ((1 <= n <= 365)%nat ->
   runEnds s userId today n = true ->
   calculateStreak s userId today = Z.of_nat n)
  /\ ((n <= 365)%nat ->
      completeOn s userId today = false ->
      runEnds s userId (today - 1) n = true ->
      calculateStreak s userId today = Z.of_nat n).
Proof.
  split.
  - intros Hn Hrun.
    apply calculateStreak_run with (seen := datesDown today (S n)).
    apply streakRun_mono with (fuel := S n); [apply streakFuel_ge; lia |].
    now apply streakRun_counted.
  - intros Hn Htoday Hrun.
    apply calculateStreak_run with (seen := datesDown today (S (S n))).
    apply streakRun_mono with (fuel := S (S n)); [apply streakFuel_ge; lia |].
    now apply streakRun_counted_yesterday.
Qed.

Lemma calculateStreak_run_length_witness :
  calculateStreak yearStore 1 998 = 365
  /\ calculateStreak breakStore 7 100 = 1.
Proof.
  split.
  - apply (proj1 (calculateStreak_run_length yearStore 1 998 365));
      [lia | vm_compute; reflexivity].
  - apply (proj2 (calculateStreak_run_length breakStore 7 100 1));
      [lia | reflexivity | reflexivity].
Defined.

(** A state that already counts, or on a past day, with [n] complete days
    ahead, ends with at least [n] more. *)
Lemma streakLoop_at_least s userId today :
  forall (n fuel : nat) streak cur seen,
    allComplete s userId cur n = true ->
    0 < streak \/ cur < today ->
    0 <= streak <= 365 ->
    streak + Z.of_nat n <= 366 ->
    (Z.to_nat (366 - streak) <= fuel)%nat ->
    exists k seen',
      streakLoop fuel s userId today streak cur seen = Some (k, seen')
      /\ streak + Z.of_nat n <= k.
Proof.
  induction n as [| n IH]; intros fuel streak cur seen Hall Hpast H0 Hle Hf.
  - destruct (streakLoop_past s userId today (Z.to_nat (366 - streak)) fuel
                streak cur seen) as (k & m & Hrun & Hk & _); try lia.
    exists k, (seen ++ datesDown cur m). split; [assumption | lia].
  - destruct fuel as [| fuel]; [lia |]. rewrite streakLoop_step.
    destruct (allComplete_tail s userId cur n Hall) as [Hc Htail].
    unfold completeOn in Hc. rewrite Hc.
    destruct (Z.ltb_spec 365 (streak + 1)).
    + eexists _, _. split; [reflexivity | lia].
    + destruct (IH fuel (streak + 1) (cur - 1) (seen ++ [cur]))
        as (k & seen' & Hrun & Hk); try lia; [assumption |].
      exists k, seen'. split; [assumption | lia].
Qed.

Lemma streakRun_at_least s userId today n fuel :
  (367 <= fuel)%nat ->
  (1 <= n <= 366)%nat ->
  allComplete s userId today n = true ->
  exists k seen,
    streakRun fuel s userId today = Some (k, seen) /\ Z.of_nat n <= k.
Proof.
  intros Hf Hn Hall. unfold streakRun.
  destruct fuel as [| fuel]; [lia |]. rewrite streakLoop_step.
  destruct n as [| n]; [lia |].
  destruct (allComplete_tail s userId today n Hall) as [Hc Htail].
  unfold completeOn in Hc. rewrite Hc.
  change (365 <? 0 + 1) with false. cbv iota.
  destruct (streakLoop_at_least s userId today n fuel (0 + 1) (today - 1)
              ([] ++ [today])) as (k & seen' & Hrun & Hk); try lia;
    [assumption |].
  exists k, seen'. split; [assumption | lia].
Qed.

(** X5: when today and the [n - 1] days before it are all complete, the
    streak is at least [n], for every [n] up to the cap of 366. *)
Theorem calculateStreak_at_least s userId today n :
  (1 <= n <= 366)%nat ->
  allComplete s userId today n = true ->
  Z.of_nat n <= calculateStreak s userId today.
Proof.
  intros Hn Hall.
  destruct (streakRun_at_least s userId today n streakFuel (Nat.le_refl _)
              Hn Hall) as (k & seen & Hrun & Hk).
  now rewrite (calculateStreak_run _ _ _ _ _ Hrun).
Qed.

Lemma calculateStreak_at_least_witness :
  Z.of_nat 200 <= calculateStreak yearStore 1 999.
Proof.
  apply (calculateStreak_at_least yearStore 1 999 200);
    [lia | vm_compute; reflexivity].
Defined.

(** * Further properties of the routes *)

(** ** Rejected requests *)

Lemma sendDay_status s code dayId :
  status (snd (sendDay s code dayId)) = code
  \/ status (snd (sendDay s code dayId)) = 500%nat.
Proof.
  unfold sendDay. destruct (Prisma.findDayById s dayId); [left | right];
    reflexivity.
Qed.

Ltac sent_status H :=
  match type of H with
  | context [sendDay ?s ?code ?dayId] =>
      destruct (sendDay_status s code dayId) as [Hst | Hst];
      rewrite Hst in H; destruct H; discriminate
  end.

(** X6: a request answered with status 400 or 404 has written nothing: the
    store after it is the store before it. *)
Theorem rejected_requests_write_nothing now today userId s r :
  let res := handle now today userId s r in
  status (snd res) = 400%nat \/ status (snd res) = 404%nat ->
  fst res = s.
Proof.
  cbv zeta. destruct r; simpl handle; intros H; try reflexivity.
  - unfold get_day in *.
    destruct (getOrCreateTrainingDay s userId date) as [s1 day].
    simpl in H. destruct H; discriminate.
  - unfold get_range. now destruct range as [[? ?] |].
  - unfold put_day in *.
    destruct (getOrCreateTrainingDay s userId date) as [s1 day].
    sent_status H.
  - unfold post_planned in *.
    destruct (negb (JS.truthy type) || negb (JS.truthy time));
      [reflexivity |].
    destruct (negb (JS.includes _ _)); [reflexivity |].
    destruct (getOrCreateTrainingDay s userId date) as [s1 day].
    sent_status H.
  - unfold delete_planned in *.
    destruct (Prisma.findPlanned s activityId) as [a |]; [| reflexivity].
    destruct (Prisma.findDayRow s _) as [row |]; [| reflexivity].
    destruct (negb _); [reflexivity |]. sent_status H.
  - unfold post_actual in *.
    destruct (negb (JS.truthy type)); [reflexivity |].
    destruct (negb (JS.includes _ _)); [reflexivity |].
    destruct (getOrCreateTrainingDay s userId date) as [s1 day].
    sent_status H.
  - unfold put_actual in *.
    destruct (Prisma.findActual s activityId) as [a |]; [| reflexivity].
    destruct (Prisma.findDayRow s _) as [row |]; [| reflexivity].
    destruct (negb _); [reflexivity |]. sent_status H.
  - unfold put_shooting in *. destruct makes as [makes |]; [| reflexivity].
    destruct (getOrCreateTrainingDay s userId date) as [s1 day].
    sent_status H.
Qed.

Lemma rejected_requests_write_nothing_witness :
  fst (handle "12:00" 100 8 twoPickups (DeletePlanned 1)) = twoPickups
  /\ fst (handle "12:00" 100 7 twoPickups
            (PostPlanned 101 (Some "sprint") (Some "17:00") None None))
     = twoPickups.
Proof.
  split.
  - apply (rejected_requests_write_nothing "12:00" 100 8 twoPickups
             (DeletePlanned 1)). right. reflexivity.
  - apply (rejected_requests_write_nothing "12:00" 100 7 twoPickups
             (PostPlanned 101 (Some "sprint") (Some "17:00") None None)).
    left. reflexivity.
Defined.

(** ** The game-day flag *)

Lemma find_updateDay s dayId g (p : DayRow.t -> bool) row :
  (forall r b, p (DayRow.mk (DayRow.id r) (DayRow.userId r) (DayRow.date r) b)
               = p r) ->
  find p (trainingDays s) = Some row ->
  find p (trainingDays (Prisma.updateDay s dayId g))
  = Some (if Nat.eqb (DayRow.id row) dayId
          then DayRow.mk (DayRow.id row) (DayRow.userId row) (DayRow.date row) g
          else row).
Proof.
  intros Hp Hf. unfold Prisma.updateDay. simpl.
  rewrite find_map_stable.
  - now rewrite Hf.
  - intros r. destruct (Nat.eqb (DayRow.id r) dayId); [apply Hp | reflexivity].
Qed.

(** X7: after the day update the day of the caller and date carries the
    requested game-day flag, or its previous flag when the body gives none;
    the activity tables are untouched. *)
Theorem put_day_sets_flag s userId date isGameDay :
  let before := snd (getOrCreateTrainingDay s userId date) in
  let s' := fst (put_day s userId date isGameDay) in
  plannedTable s' = plannedTable s
  /\ actualTable s' = actualTable s
  /\ exists day,
       Prisma.findDay s' userId date = Some day
       /\ TrainingDay.id day = TrainingDay.id before
       /\ TrainingDay.isGameDay day
          = match isGameDay with
            | Some b => b
            | None => TrainingDay.isGameDay before
            end.
Proof.
  cbv zeta. unfold put_day. fetch_day s userId date. cbn [snd].
  rewrite sendDay_fst.
  split; [exact Hplanned |]. split; [exact Hactual |].
  unfold Prisma.findDay.
  rewrite (find_updateDay s1 _ _ _ row) by (reflexivity || exact Hfind).
  rewrite Hid, Nat.eqb_refl. cbn [option_map].
  eexists. split; [reflexivity |]. split; reflexivity.
Qed.

(** ** Well-formed stores *)

Lemma nodupb_spec l : nodupb l = true <-> NoDup l.
Proof.
  induction l as [| x l IH]; simpl.
  - split; [constructor | reflexivity].
  - rewrite andb_true_iff, negb_true_iff, IH. split.
    + intros [Hx Hl]. constructor; [| assumption].
      intros Hin. assert (E : existsb (Nat.eqb x) l = true).
      { apply existsb_exists. exists x. split; [assumption |].
        apply Nat.eqb_refl. }
      congruence.
    + intros H. inversion H as [| ? ? Hx Hl]; subst. split; [| assumption].
      destruct (existsb (Nat.eqb x) l) eqn:E; [| reflexivity].
      apply existsb_exists in E. destruct E as (y & Hy & Hxy).
      apply Nat.eqb_eq in Hxy. subst. contradiction.
Qed.

Lemma sameKey_eq k k' : sameKey k k' = true <-> k = k'.
Proof.
  destruct k as [u d], k' as [u' d']. unfold sameKey. simpl.
  rewrite andb_true_iff, Nat.eqb_eq, Z.eqb_eq. split.
  - intros [-> ->]. reflexivity.
  - intros H. injection H as -> ->. now split.
Qed.

Lemma uniqueKeys_spec l : uniqueKeys l = true <-> NoDup l.
Proof.
  induction l as [| x l IH]; simpl.
  - split; [constructor | reflexivity].
  - rewrite andb_true_iff, negb_true_iff, IH. split.
    + intros [Hx Hl]. constructor; [| assumption].
      intros Hin. assert (E : existsb (sameKey x) l = true).
      { apply existsb_exists. exists x. split; [assumption |].
        now apply sameKey_eq. }
      congruence.
    + intros H. inversion H as [| ? ? Hx Hl]; subst. split; [| assumption].
      destruct (existsb (sameKey x) l) eqn:E; [| reflexivity].
      apply existsb_exists in E. destruct E as (y & Hy & Hxy).
      apply sameKey_eq in Hxy. subst. contradiction.
Qed.

Lemma plannedAttached_spec s :
  plannedAttached s = true
  <-> forall a, In a (plannedTable s) ->
                In (PlannedActivity.trainingDayId a) (idsOf s).
Proof.
  unfold plannedAttached, idsOf. rewrite forallb_forall.
  split; intros H a Hin; specialize (H a Hin).
  - apply existsb_exists in H. destruct H as (r & Hr & Hid).
    apply Nat.eqb_eq in Hid. rewrite <- Hid. now apply in_map.
  - apply in_map_iff in H. destruct H as (r & Hid & Hr).
    apply existsb_exists. exists r. split; [assumption |].
    now apply Nat.eqb_eq.
Qed.

Lemma wellFormed_spec s : wellFormed s = true <-> WF s.
Proof.
  unfold wellFormed. rewrite !andb_true_iff, !nodupb_spec, uniqueKeys_spec,
    plannedAttached_spec, actualsAttached_spec.
  split.
  - intros (((((H1 & H2) & H3) & H4) & H5) & H6). now constructor.
  - intros [H1 H2 H3 H4 H5 H6]. repeat split; assumption.
Qed.

Lemma NoDup_snoc {A} (l : list A) x :
  NoDup l -> ~ In x l -> NoDup (l ++ [x]).
Proof.
  intros Hl Hx. induction l as [| a l IH]; simpl.
  - constructor; [intros [] | constructor].
  - inversion Hl as [| ? ? Ha Hl']; subst. constructor.
    + rewrite in_app_iff. simpl. intros [H | [H | []]]; [contradiction |].
      subst. apply Hx. now left.
    + apply IH; [assumption |]. intros H. apply Hx. now right.
Qed.

Lemma NoDup_map_filter {A B} (f : A -> B) (p : A -> bool) l :
  NoDup (map f l) -> NoDup (map f (filter p l)).
Proof.
  induction l as [| a l IH]; simpl; intros H; [constructor |].
  inversion H as [| ? ? Ha Hl]; subst.
  destruct (p a); simpl; [| now apply IH].
  constructor; [| now apply IH].
  intros Hin. apply Ha. apply in_map_iff in Hin.
  destruct Hin as (y & Hy & Hin). apply filter_In in Hin.
  apply in_map_iff. exists y. tauto.
Qed.

Lemma freshId_new ids : ~ In (freshId ids) ids.
Proof. intros H. apply freshId_above in H. lia. Qed.

Lemma find_None_key s userId date :
  find (Prisma.isUserDate userId date) (trainingDays s) = None ->
  ~ In (userId, date) (map dayKey (trainingDays s)).
Proof.
  intros E Hin. apply in_map_iff in Hin. destruct Hin as (r & Hk & Hr).
  pose proof (find_none _ _ E r Hr) as Hf.
  unfold dayKey in Hk. injection Hk as Hu Hd.
  unfold Prisma.isUserDate in Hf.
  rewrite Hu, Hd, Nat.eqb_refl, Z.eqb_refl in Hf. discriminate.
Qed.

Lemma WF_getOrCreate s userId date :
  WF s ->
  WF (fst (getOrCreateTrainingDay s userId date))
  /\ In (TrainingDay.id (snd (getOrCreateTrainingDay s userId date)))
        (idsOf (fst (getOrCreateTrainingDay s userId date))).
Proof.
  intros [H1 H2 H3 H4 H5 H6].
  split; [| apply keeps_getOrCreate].
  unfold getOrCreateTrainingDay, Prisma.findDay.
  destruct (find (Prisma.isUserDate userId date) (trainingDays s))
    as [row |] eqn:E; cbn [option_map fst]; [now constructor |].
  unfold Prisma.createDay. cbn [fst].
  constructor; unfold idsOf in *; cbn [trainingDays plannedTable actualTable];
    try assumption.
  - rewrite map_app. apply NoDup_snoc; [assumption | apply freshId_new].
  - rewrite map_app. apply NoDup_snoc; [assumption |].
    now apply find_None_key.
  - intros a Ha. rewrite map_app. apply in_or_app. left. now apply H5.
  - intros a Ha. rewrite map_app. apply in_or_app. left. now apply H6.
Qed.

Lemma WF_updateDay s dayId g : WF s -> WF (Prisma.updateDay s dayId g).
Proof.
  intros [H1 H2 H3 H4 H5 H6].
  assert (Hids : idsOf (Prisma.updateDay s dayId g) = idsOf s).
  { unfold idsOf, Prisma.updateDay. simpl. rewrite map_map.
    apply map_ext. intros r. now destruct (Nat.eqb (DayRow.id r) dayId). }
  assert (Hkeys : map dayKey (trainingDays (Prisma.updateDay s dayId g))
                  = map dayKey (trainingDays s)).
  { unfold Prisma.updateDay. simpl. rewrite map_map.
    apply map_ext. intros r. now destruct (Nat.eqb (DayRow.id r) dayId). }
  constructor; rewrite ?Hids, ?Hkeys; assumption.
Qed.

Lemma WF_filter_planned s p :
  WF s ->
  WF (mkStore (trainingDays s) (filter p (plannedTable s)) (actualTable s)).
Proof.
  intros [H1 H2 H3 H4 H5 H6]. constructor; try assumption.
  - now apply NoDup_map_filter.
  - intros a Ha. apply filter_In in Ha. now apply H5.
Qed.

Lemma WF_createPlanned s dayId ty time location name :
  WF s -> In dayId (idsOf s) ->
  WF (Prisma.createPlanned s dayId ty time location name).
Proof.
  intros [H1 H2 H3 H4 H5 H6] Hd. constructor; try assumption.
  - unfold Prisma.createPlanned. cbn [plannedTable]. rewrite map_app.
    apply NoDup_snoc; [assumption | apply freshId_new].
  - intros a Ha. unfold Prisma.createPlanned in Ha. cbn [plannedTable] in Ha.
    apply in_app_or in Ha. destruct Ha as [Ha | [<- | []]];
      [now apply H5 | exact Hd].
Qed.

Lemma WF_deleteActual s aid : WF s -> WF (Prisma.deleteActual s aid).
Proof.
  intros [H1 H2 H3 H4 H5 H6]. constructor; try assumption.
  - now apply NoDup_map_filter.
  - intros a Ha. simpl in Ha. apply filter_In in Ha. now apply H6.
Qed.

Lemma WF_updateActual s aid makes completed :
  WF s -> WF (Prisma.updateActual s aid makes completed).
Proof.
  intros [H1 H2 H3 H4 H5 H6]. constructor; try assumption.
  - unfold Prisma.updateActual. cbn [actualTable]. rewrite map_map.
    erewrite map_ext; [exact H3 |].
    intros a. now destruct (Nat.eqb (ActualActivity.id a) aid).
  - intros a' Ha. simpl in Ha. apply in_map_iff in Ha.
    destruct Ha as (a & <- & Ha).
    destruct (Nat.eqb (ActualActivity.id a) aid);
      cbn [ActualActivity.trainingDayId]; exact (H6 a Ha).
Qed.

Lemma WF_createActual s dayId ty completed makes :
  WF s -> In dayId (idsOf s) ->
  WF (Prisma.createActual s dayId ty completed makes).
Proof.
  intros [H1 H2 H3 H4 H5 H6] Hd. constructor; try assumption.
  - unfold Prisma.createActual. cbn [actualTable]. rewrite map_app.
    apply NoDup_snoc; [assumption | apply freshId_new].
  - intros a Ha. unfold Prisma.createActual in Ha. cbn [actualTable] in Ha.
    apply in_app_or in Ha. destruct Ha as [Ha | [<- | []]];
      [now apply H6 | exact Hd].
Qed.

Ltac fetch_wf s userId date Hwf :=
  let H := fresh "Hfetch" in
  pose proof (WF_getOrCreate s userId date Hwf) as H;
  destruct (getOrCreateTrainingDay s userId date) as [?s1 ?day];
  cbn [fst snd] in H; destruct H as [?Hwf1 ?Hin1].

Lemma handle_WF now today userId s r :
  WF s -> WF (fst (handle now today userId s r)).
Proof.
  intros Hwf. destruct r; simpl handle; try exact Hwf.
  - unfold get_day. now fetch_wf s userId date Hwf.
  - unfold get_range. now destruct range as [[? ?] |].
  - unfold put_day. fetch_wf s userId date Hwf. rewrite sendDay_fst.
    now apply WF_updateDay.
  - unfold post_planned.
    destruct (negb (JS.truthy type) || negb (JS.truthy time));
      [exact Hwf |].
    destruct (negb (JS.includes _ _)); [exact Hwf |].
    fetch_wf s userId date Hwf. rewrite sendDay_fst.
    apply WF_createPlanned.
    + destruct (String.eqb _ "shooting"); [| assumption].
      now apply WF_filter_planned.
    + now destruct (String.eqb _ "shooting").
  - unfold delete_planned.
    destruct (Prisma.findPlanned s activityId) as [a |]; [| exact Hwf].
    destruct (Prisma.findDayRow s _) as [row |]; [| exact Hwf].
    destruct (negb _); [exact Hwf |].
    rewrite sendDay_fst. now apply WF_filter_planned.
  - unfold post_actual.
    destruct (negb (JS.truthy type)); [exact Hwf |].
    destruct (negb (JS.includes _ _)); [exact Hwf |].
    fetch_wf s userId date Hwf. rewrite sendDay_fst.
    destruct (JS.includes fixedTypes _).
    { destruct (Prisma.findFirstActual _ _ _);
        [now apply WF_deleteActual | now apply WF_createActual]. }
    destruct (String.eqb _ "shooting"); [| now apply WF_createActual].
    destruct (Prisma.findFirstActual _ _ _);
      [now apply WF_updateActual | now apply WF_createActual].
  - unfold put_actual.
    destruct (Prisma.findActual s activityId) as [a |]; [| exact Hwf].
    destruct (Prisma.findDayRow s _) as [row |]; [| exact Hwf].
    destruct (negb _); [exact Hwf |].
    rewrite sendDay_fst. now apply WF_updateActual.
  - unfold put_shooting. destruct makes as [makes |]; [| exact Hwf].
    fetch_wf s userId date Hwf. rewrite sendDay_fst.
    destruct (Prisma.findFirstActual _ _ _);
      [now apply WF_updateActual | now apply WF_createActual].
Qed.

(** X8: every request keeps the store well formed: ids stay unique within
    each table, a user keeps at most one day row per date, and every
    planned or actual activity stays attached to an existing day; the empty
    store is well formed, so every store the handlers build is. *)
Theorem handle_keeps_well_formed :
  wellFormed emptyStore = true
  /\ forall now today userId s r,
       wellFormed s = true ->
       wellFormed (fst (handle now today userId s r)) = true.
Proof.
  split; [reflexivity |].
  intros now today userId s r. rewrite !wellFormed_spec. apply handle_WF.
Qed.

Lemma handle_keeps_well_formed_witness :
  wellFormed
    (fst (handle "12:00" 100 7 twoPickups
            (PostActual 101 (Some "varsity") None None))) = true.
Proof.
  apply (proj2 handle_keeps_well_formed "12:00" 100 7%nat twoPickups).
  reflexivity.
Defined.

(** ** A day created on first access *)

Lemma filter_none {A} (p : A -> bool) l :
  (forall x, In x l -> p x = false) -> filter p l = [].
Proof.
  induction l as [| a l IH]; intros H; [reflexivity |]. simpl.
  rewrite (H a (or_introl eq_refl)). apply IH. intros x Hx. apply H.
  now right.
Qed.

(** X9: in a well-formed store, fetching a date that has no day row yet
    answers 200 with the blank view: no planned slot, empty lists, zero
    makes, no completion time, all flags false, not a game day. *)
Theorem get_day_blank s userId date :
  wellFormed s = true ->
  Prisma.findDay s userId date = None ->
  snd (get_day s userId date)
  = mkResponse 200
      (DayBody (View.mk (freshId (idsOf s)) date false plannedInit actualInit)).
Proof.
  rewrite wellFormed_spec. intros [_ _ _ _ H5 H6] Hnone.
  unfold get_day, getOrCreateTrainingDay. rewrite Hnone.
  unfold Prisma.createDay, formatTrainingDayResponse, Prisma.includeAll.
  cbn [snd TrainingDay.id TrainingDay.date TrainingDay.isGameDay DayRow.id
       DayRow.date DayRow.isGameDay DayRow.userId TrainingDay.plannedActivities
       TrainingDay.actualActivities].
  assert (Hp : Prisma.plannedOf
                 (mkStore (trainingDays s
                           ++ [DayRow.mk (freshId (map DayRow.id (trainingDays s)))
                                         userId date false])
                          (plannedTable s) (actualTable s))
                 (freshId (map DayRow.id (trainingDays s))) = []).
  { unfold Prisma.plannedOf. cbn [plannedTable].
    apply filter_none. intros a Ha. apply Nat.eqb_neq. intros E.
    apply (freshId_new (idsOf s)). unfold idsOf at 1. rewrite <- E.
    now apply H5. }
  assert (Ha : Prisma.actualOf
                 (mkStore (trainingDays s
                           ++ [DayRow.mk (freshId (map DayRow.id (trainingDays s)))
                                         userId date false])
                          (plannedTable s) (actualTable s))
                 (freshId (map DayRow.id (trainingDays s))) = []).
  { unfold Prisma.actualOf. cbn [actualTable].
    apply filter_none. intros a Ha0. apply Nat.eqb_neq. intros E.
    apply (freshId_new (idsOf s)). unfold idsOf at 1. rewrite <- E.
    now apply H6. }
  rewrite Hp, Ha. reflexivity.
Qed.

Lemma get_day_blank_witness :
  snd (get_day twoPickups 7 101)
  = mkResponse 200 (DayBody (View.mk 2 101 false plannedInit actualInit)).
Proof. apply (get_day_blank twoPickups 7 101); reflexivity. Defined.

(** ** One record per day for shooting and the fixed types *)

Lemma includes_In xs x : JS.includes xs x = true <-> In x xs.
Proof.
  unfold JS.includes. rewrite existsb_exists. split.
  - intros (y & Hy & E). apply String.eqb_eq in E. now subst.
  - intros H. exists x. split; [assumption | apply String.eqb_refl].
Qed.

Lemma singleActual_spec s :
  singleActual s = true
  <-> forall dayId ty, In ty singletonTypes ->
                       (actualCount s dayId ty <= 1)%nat.
Proof.
  unfold singleActual. rewrite forallb_forall. split.
  - intros H dayId ty Hty. unfold actualCount.
    destruct (filter (actualOfType ty) (Prisma.actualOf s dayId))
      as [| a l] eqn:E; [simpl; lia |].
    assert (Ha : In a (filter (actualOfType ty) (Prisma.actualOf s dayId)))
      by (rewrite E; now left).
    apply filter_In in Ha. destruct Ha as [Ha Ht].
    unfold Prisma.actualOf in Ha. apply filter_In in Ha.
    destruct Ha as [Hin Hd]. apply Nat.eqb_eq in Hd.
    apply String.eqb_eq in Ht.
    specialize (H a Hin). rewrite Hd, Ht in H.
    rewrite (proj2 (includes_In singletonTypes ty) Hty) in H.
    simpl in H. apply Nat.leb_le in H. unfold actualCount in H.
    now rewrite E in H.
  - intros H a _. apply orb_true_iff.
    destruct (JS.includes singletonTypes (ActualActivity.type a)) eqn:E;
      [right | now left].
    apply Nat.leb_le, H. now apply includes_In.
Qed.

Lemma actualCount_same s s' dayId ty :
  actualTable s' = actualTable s ->
  actualCount s' dayId ty = actualCount s dayId ty.
Proof. unfold actualCount, Prisma.actualOf. now intros ->. Qed.

Lemma filter_swap {A} (p q : A -> bool) l :
  filter p (filter q l) = filter q (filter p l).
Proof.
  induction l as [| a l IH]; [reflexivity |]. simpl.
  destruct (q a) eqn:Eq, (p a) eqn:Ep; simpl; rewrite ?Eq, ?Ep, IH;
    reflexivity.
Qed.

Lemma actualCount_deleted s aid dayId ty :
  (actualCount (Prisma.deleteActual s aid) dayId ty
   <= actualCount s dayId ty)%nat.
Proof.
  unfold actualCount, Prisma.actualOf, Prisma.deleteActual.
  cbn [actualTable].
  set (del := fun a => negb (Nat.eqb (ActualActivity.id a) aid)).
  set (onDay := fun a => Nat.eqb (ActualActivity.trainingDayId a) dayId).
  rewrite (filter_swap onDay del), (filter_swap (actualOfType ty) del).
  apply filter_length_le.
Qed.

Lemma filter_map_stable {A} (p : A -> bool) (f : A -> A) l :
  (forall x, p (f x) = p x) -> filter p (map f l) = map f (filter p l).
Proof.
  intros H. induction l as [| a l IH]; [reflexivity |]. simpl.
  rewrite H. destruct (p a); simpl; now rewrite IH.
Qed.

Lemma actualCount_updated s aid makes completed dayId ty :
  actualCount (Prisma.updateActual s aid makes completed) dayId ty
  = actualCount s dayId ty.
Proof.
  unfold actualCount, Prisma.actualOf, Prisma.updateActual.
  cbn [actualTable].
  rewrite !filter_map_stable, length_map; [reflexivity | |];
    intros a; now destruct (Nat.eqb (ActualActivity.id a) aid).
Qed.

Lemma actualCount_created s d ty completed makes dayId ty' :
  actualCount (Prisma.createActual s d ty completed makes) dayId ty'
  = (actualCount s dayId ty'
     + if Nat.eqb d dayId && String.eqb ty ty' then 1 else 0)%nat.
Proof.
  unfold actualCount, Prisma.actualOf, Prisma.createActual.
  cbn [actualTable]. rewrite !filter_app, length_app. f_equal.
  simpl. destruct (Nat.eqb d dayId); simpl; [| reflexivity].
  unfold actualOfType. simpl. now destruct (String.eqb ty ty').
Qed.

Lemma actualCount_none s dayId ty :
  Prisma.findFirstActual s dayId ty = None -> actualCount s dayId ty = 0%nat.
Proof.
  unfold Prisma.findFirstActual, actualCount, Prisma.actualOf. intros H.
  apply find_and_filter in H. unfold actualOfType.
  now rewrite H.
Qed.

(** Creating a record where the handler found none. *)
Lemma actualCount_first s d ty completed makes dayId ty' :
  Prisma.findFirstActual s d ty = None ->
  (actualCount (Prisma.createActual s d ty completed makes) dayId ty'
   <= Nat.max 1 (actualCount s dayId ty'))%nat.
Proof.
  intros Hnone. rewrite actualCount_created.
  destruct (Nat.eqb_spec d dayId) as [<- | _]; cbn [andb]; [| lia].
  destruct (String.eqb_spec ty ty') as [<- | _]; [| lia].
  rewrite (actualCount_none _ _ _ Hnone). lia.
Qed.

Lemma other_type_not_singleton ty ty' :
  JS.includes fixedTypes ty = false ->
  String.eqb ty "shooting" = false ->
  In ty' singletonTypes ->
  String.eqb ty ty' = false.
Proof.
  unfold JS.includes, fixedTypes. simpl. rewrite !orb_false_iff.
  intros (H1 & H2 & H3 & _) Hs [<- | [<- | [<- | [<- | []]]]]; assumption.
Qed.

Lemma post_actual_count now s userId date type completedAt makes dayId ty :
  In ty singletonTypes ->
  (actualCount (fst (post_actual now s userId date type completedAt makes))
     dayId ty
   <= Nat.max 1 (actualCount s dayId ty))%nat.
Proof.
  intros Hty. unfold post_actual.
  destruct (negb (JS.truthy type)); [apply Nat.le_max_r |].
  destruct (negb (JS.includes _ _)); [apply Nat.le_max_r |].
  fetch_day s userId date. rewrite sendDay_fst.
  rewrite <- (actualCount_same s s1 dayId ty Hactual).
  destruct (JS.includes fixedTypes (JS.or_str type "")) eqn:Efix.
  { destruct (Prisma.findFirstActual _ _ _) eqn:E.
    - etransitivity; [apply actualCount_deleted | apply Nat.le_max_r].
    - now apply actualCount_first. }
  destruct (String.eqb_spec (JS.or_str type "") "shooting") as [Es | Es].
  { destruct (Prisma.findFirstActual _ _ _) eqn:E.
    - rewrite actualCount_updated. apply Nat.le_max_r.
    - now apply actualCount_first. }
  rewrite actualCount_created.
  rewrite (other_type_not_singleton _ ty Efix); [| | assumption].
  - rewrite andb_false_r. lia.
  - now apply String.eqb_neq.
Qed.

Lemma handle_actualCount now today userId s r dayId ty :
  In ty singletonTypes ->
  (actualCount (fst (handle now today userId s r)) dayId ty
   <= Nat.max 1 (actualCount s dayId ty))%nat.
Proof.
  intros Hty. destruct r; simpl handle; try apply Nat.le_max_r.
  - unfold get_day. fetch_day s userId date. cbn [fst].
    rewrite (actualCount_same _ _ _ _ Hactual). apply Nat.le_max_r.
  - unfold get_range. destruct range as [[? ?] |]; apply Nat.le_max_r.
  - unfold put_day. fetch_day s userId date. rewrite sendDay_fst.
    rewrite <- (actualCount_same s s1 dayId ty Hactual). apply Nat.le_max_r.
  - unfold post_planned.
    destruct (negb (JS.truthy type) || negb (JS.truthy time));
      [apply Nat.le_max_r |].
    destruct (negb (JS.includes _ _)); [apply Nat.le_max_r |].
    fetch_day s userId date. rewrite sendDay_fst.
    rewrite <- (actualCount_same s s1 dayId ty Hactual).
    destruct (String.eqb _ "shooting"); apply Nat.le_max_r.
  - unfold delete_planned.
    destruct (Prisma.findPlanned s activityId) as [a |];
      [| apply Nat.le_max_r].
    destruct (Prisma.findDayRow s _) as [row |]; [| apply Nat.le_max_r].
    destruct (negb _); [apply Nat.le_max_r |].
    rewrite sendDay_fst. apply Nat.le_max_r.
  - now apply post_actual_count.
  - unfold put_actual.
    destruct (Prisma.findActual s activityId) as [a |];
      [| apply Nat.le_max_r].
    destruct (Prisma.findDayRow s _) as [row |]; [| apply Nat.le_max_r].
    destruct (negb _); [apply Nat.le_max_r |].
    rewrite sendDay_fst, actualCount_updated. apply Nat.le_max_r.
  - unfold put_shooting. destruct makes as [makes |]; [| apply Nat.le_max_r].
    fetch_day s userId date. rewrite sendDay_fst.
    rewrite <- (actualCount_same s s1 dayId ty Hactual).
    destruct (Prisma.findFirstActual _ _ _) eqn:E.
    + rewrite actualCount_updated. apply Nat.le_max_r.
    + now apply actualCount_first.
Qed.

(** X10: no request ever gives a day a second shooting, coach_skills,
    coach_weights or varsity actual activity: a store in which every day
    holds at most one record of each of these types stays so. *)
Theorem handle_keeps_single_actual now today userId s r :
  singleActual s = true ->
  singleActual (fst (handle now today userId s r)) = true.
Proof.
  rewrite !singleActual_spec. intros H dayId ty Hty.
  specialize (H dayId ty Hty).
  pose proof (handle_actualCount now today userId s r dayId ty Hty). lia.
Qed.

Lemma handle_keeps_single_actual_witness :
  singleActual
    (fst (handle "12:00" 100 7 twoPickups (PutShooting 100 (Some 230) None)))
  = true.
Proof.
  apply (handle_keeps_single_actual "12:00" 100 7 twoPickups). reflexivity.
Defined.

(** ** Users do not see each other's requests *)

Lemma sameView_refl u s : sameView u s s.
Proof. now split. Qed.

Lemma sameView_trans u s s' s'' :
  sameView u s s' -> sameView u s' s'' -> sameView u s s''.
Proof.
  intros [Hr1 Hi1] [Hr2 Hi2]. split; [congruence |].
  intros r Hr. rewrite Hi2 by (now rewrite Hr1). now apply Hi1.
Qed.

Lemma onlyDay_sameView u d0 s s' :
  onlyDay d0 s s' ->
  (forall r, In r (rowsOf u s) -> DayRow.id r <> d0) ->
  sameView u s s'.
Proof.
  intros [Hdays Hd] Hne. split; [unfold rowsOf; now rewrite Hdays |].
  intros r Hr. unfold Prisma.includeAll.
  destruct (Hd (DayRow.id r) (Hne r Hr)) as [-> ->]. reflexivity.
Qed.

Lemma onlyDay_trans d0 s s' s'' :
  onlyDay d0 s s' -> onlyDay d0 s' s'' -> onlyDay d0 s s''.
Proof.
  intros [H1 G1] [H2 G2]. split; [congruence |].
  intros d Hd. destruct (G1 d Hd) as [<- <-]. now apply G2.
Qed.

Lemma filter_keep {A} (p keep : A -> bool) l :
  (forall x, In x l -> p x = true -> keep x = true) ->
  filter p (filter keep l) = filter p l.
Proof.
  induction l as [| a l IH]; intros H; [reflexivity |]. simpl.
  assert (IH' : filter p (filter keep l) = filter p l).
  { apply IH. intros x Hx. apply H. now right. }
  destruct (keep a) eqn:Ek; simpl; rewrite IH'; [reflexivity |].
  destruct (p a) eqn:Ep; [| reflexivity].
  rewrite (H a (or_introl eq_refl) Ep) in Ek. discriminate.
Qed.

Lemma filter_map_fixed {A} (p : A -> bool) (f : A -> A) l :
  (forall x, p (f x) = p x) ->
  (forall x, In x l -> p x = true -> f x = x) ->
  filter p (map f l) = filter p l.
Proof.
  intros Hp. induction l as [| a l IH]; intros H; [reflexivity |]. simpl.
  rewrite Hp, IH by (intros x Hx; apply H; now right).
  destruct (p a) eqn:Ep; [| reflexivity].
  now rewrite (H a (or_introl eq_refl) Ep).
Qed.

Lemma NoDup_map_inj {A B} (f : A -> B) l x y :
  NoDup (map f l) -> In x l -> In y l -> f x = f y -> x = y.
Proof.
  induction l as [| a l IH]; simpl; intros Hnd Hx Hy E; [contradiction |].
  inversion Hnd as [| ? ? Ha Hl]; subst.
  destruct Hx as [-> | Hx], Hy as [-> | Hy]; try reflexivity.
  - exfalso. apply Ha. rewrite E. now apply in_map.
  - exfalso. apply Ha. rewrite <- E. now apply in_map.
  - now apply IH.
Qed.

Lemma onlyDay_deleteManyPlanned s d0 ty :
  onlyDay d0 s (Prisma.deleteManyPlanned s d0 ty).
Proof.
  split; [reflexivity |]. intros d Hd. split; [| reflexivity].
  unfold Prisma.plannedOf, Prisma.deleteManyPlanned. cbn [plannedTable].
  apply filter_keep. intros x _ Hx. apply Nat.eqb_eq in Hx.
  apply negb_true_iff, andb_false_iff. left. apply Nat.eqb_neq. congruence.
Qed.

Lemma onlyDay_createPlanned s d0 ty time location name :
  onlyDay d0 s (Prisma.createPlanned s d0 ty time location name).
Proof.
  split; [reflexivity |]. intros d Hd. split; [| reflexivity].
  unfold Prisma.plannedOf, Prisma.createPlanned. cbn [plannedTable].
  rewrite filter_app. simpl.
  destruct (Nat.eqb_spec d0 d); [congruence | apply app_nil_r].
Qed.

Lemma onlyDay_createActual s d0 ty completed makes :
  onlyDay d0 s (Prisma.createActual s d0 ty completed makes).
Proof.
  split; [reflexivity |]. intros d Hd. split; [reflexivity |].
  unfold Prisma.actualOf, Prisma.createActual. cbn [actualTable].
  rewrite filter_app. simpl.
  destruct (Nat.eqb_spec d0 d); [congruence | apply app_nil_r].
Qed.

Lemma onlyDay_deletePlanned s a :
  NoDup (map PlannedActivity.id (plannedTable s)) ->
  In a (plannedTable s) ->
  onlyDay (PlannedActivity.trainingDayId a) s
    (Prisma.deletePlanned s (PlannedActivity.id a)).
Proof.
  intros Hnd Ha. split; [reflexivity |]. intros d Hd. split; [| reflexivity].
  unfold Prisma.plannedOf, Prisma.deletePlanned. cbn [plannedTable].
  apply filter_keep. intros x Hin Hx. apply Nat.eqb_eq in Hx.
  apply negb_true_iff, Nat.eqb_neq. intros E.
  assert (x = a) by (eapply NoDup_map_inj; eassumption). congruence.
Qed.

Lemma onlyDay_deleteActual s a :
  NoDup (map ActualActivity.id (actualTable s)) ->
  In a (actualTable s) ->
  onlyDay (ActualActivity.trainingDayId a) s
    (Prisma.deleteActual s (ActualActivity.id a)).
Proof.
  intros Hnd Ha. split; [reflexivity |]. intros d Hd. split; [reflexivity |].
  unfold Prisma.actualOf, Prisma.deleteActual. cbn [actualTable].
  apply filter_keep. intros x Hin Hx. apply Nat.eqb_eq in Hx.
  apply negb_true_iff, Nat.eqb_neq. intros E.
  assert (x = a) by (eapply NoDup_map_inj; eassumption). congruence.
Qed.

Lemma onlyDay_updateActual s a makes completed :
  NoDup (map ActualActivity.id (actualTable s)) ->
  In a (actualTable s) ->
  onlyDay (ActualActivity.trainingDayId a) s
    (Prisma.updateActual s (ActualActivity.id a) makes completed).
Proof.
  intros Hnd Ha. split; [reflexivity |]. intros d Hd. split; [reflexivity |].
  unfold Prisma.actualOf, Prisma.updateActual. cbn [actualTable].
  apply filter_map_fixed.
  - intros x. now destruct (Nat.eqb (ActualActivity.id x) (ActualActivity.id a)).
  - intros x Hin Hx. apply Nat.eqb_eq in Hx.
    destruct (Nat.eqb_spec (ActualActivity.id x) (ActualActivity.id a))
      as [E | _]; [| reflexivity].
    assert (x = a) by (eapply NoDup_map_inj; eassumption). congruence.
Qed.

Lemma findFirstActual_some s dayId ty a :
  Prisma.findFirstActual s dayId ty = Some a ->
  In a (actualTable s) /\ ActualActivity.trainingDayId a = dayId.
Proof.
  unfold Prisma.findFirstActual. intros H. apply find_some in H.
  destruct H as [Hin Hp]. apply andb_true_iff in Hp.
  destruct Hp as [Hd _]. apply Nat.eqb_eq in Hd. now split.
Qed.

(** Rows of different users have different ids. *)
Lemma other_row_id s u other row0 r :
  NoDup (idsOf s) ->
  In row0 (trainingDays s) -> DayRow.userId row0 = other ->
  u <> other ->
  In r (rowsOf u s) -> DayRow.id r <> DayRow.id row0.
Proof.
  intros Hnd H0 Hu0 Hne Hr E. unfold rowsOf in Hr. apply filter_In in Hr.
  destruct Hr as [Hr Hu]. apply Nat.eqb_eq in Hu.
  assert (r = row0) by (eapply NoDup_map_inj; eassumption). congruence.
Qed.

Lemma findDayRow_some s dayId row :
  Prisma.findDayRow s dayId = Some row ->
  In row (trainingDays s) /\ DayRow.id row = dayId.
Proof.
  unfold Prisma.findDayRow. intros H. apply find_some in H.
  destruct H as [Hin Hp]. apply Nat.eqb_eq in Hp. now split.
Qed.

Lemma sameView_updateDay u other s row0 g :
  NoDup (idsOf s) ->
  In row0 (trainingDays s) -> DayRow.userId row0 = other ->
  u <> other ->
  sameView u s (Prisma.updateDay s (DayRow.id row0) g).
Proof.
  intros Hnd H0 Hu0 Hne. split; [| reflexivity].
  unfold rowsOf, Prisma.updateDay. cbn [trainingDays].
  apply filter_map_fixed.
  - intros r. now destruct (Nat.eqb (DayRow.id r) (DayRow.id row0)).
  - intros r Hr Hu.
    destruct (Nat.eqb_spec (DayRow.id r) (DayRow.id row0)) as [E | _];
      [| reflexivity].
    exfalso. apply (other_row_id s u other row0 r Hnd H0 Hu0 Hne); [| exact E].
    unfold rowsOf. apply filter_In. now split.
Qed.

(** Fetching or creating a day of another user. *)
Lemma sameView_getOrCreate u other s date :
  u <> other ->
  let r := getOrCreateTrainingDay s other date in
  sameView u s (fst r)
  /\ exists row0,
       In row0 (trainingDays (fst r))
       /\ DayRow.userId row0 = other
       /\ DayRow.id row0 = TrainingDay.id (snd r).
Proof.
  intros Hne. cbv zeta. fetch_day s other date. cbn [fst snd]. split.
  - destruct Hcase as [-> | (_ & Hdays & _)]; [apply sameView_refl |].
    pose proof (find_some _ _ Hfind) as [_ Hk].
    unfold Prisma.isUserDate in Hk. apply andb_true_iff in Hk.
    destruct Hk as [Hu _]. apply Nat.eqb_eq in Hu.
    split.
    + unfold rowsOf. rewrite Hdays, filter_app. simpl.
      destruct (Nat.eqb_spec (DayRow.userId row) u); [congruence |].
      apply app_nil_r.
    + intros r _. unfold Prisma.includeAll, Prisma.plannedOf, Prisma.actualOf.
      now rewrite Hplanned, Hactual.
  - exists row. pose proof (find_some _ _ Hfind) as [Hin Hk].
    unfold Prisma.isUserDate in Hk. apply andb_true_iff in Hk.
    destruct Hk as [Hu _]. apply Nat.eqb_eq in Hu. auto.
Qed.

Lemma sameView_on_other_day u other s row0 s' :
  NoDup (idsOf s) ->
  In row0 (trainingDays s) -> DayRow.userId row0 = other ->
  u <> other ->
  onlyDay (DayRow.id row0) s s' ->
  sameView u s s'.
Proof.
  intros Hnd H0 Hu0 Hne Hod. apply (onlyDay_sameView u _ s s' Hod).
  intros r Hr. now apply (other_row_id s u other row0 r).
Qed.

Lemma findPlanned_some s aid a :
  Prisma.findPlanned s aid = Some a ->
  In a (plannedTable s) /\ PlannedActivity.id a = aid.
Proof.
  unfold Prisma.findPlanned. intros H. apply find_some in H.
  destruct H as [Hin Hp]. apply Nat.eqb_eq in Hp. now split.
Qed.

Lemma findActual_some s aid a :
  Prisma.findActual s aid = Some a ->
  In a (actualTable s) /\ ActualActivity.id a = aid.
Proof.
  unfold Prisma.findActual. intros H. apply find_some in H.
  destruct H as [Hin Hp]. apply Nat.eqb_eq in Hp. now split.
Qed.

(** The day another user's handler works on, with the facts the steps
    below need. *)
Ltac fetch_other u other s date Hwf Hne :=
  let Hsv := fresh "Hsv" in
  let Hw := fresh "Hw" in
  pose proof (sameView_getOrCreate u other s date Hne) as Hsv;
  pose proof (WF_getOrCreate s other date Hwf) as Hw;
  cbv zeta in Hsv;
  destruct (getOrCreateTrainingDay s other date) as [?s1 ?day];
  cbn [fst snd] in Hsv, Hw;
  destruct Hsv as (?Hview & ?row0 & ?Hrow0 & ?Huser0 & ?Hid0);
  destruct Hw as [?Hwf1 _].

Lemma handle_sameView now today u other s r :
  WF s -> u <> other ->
  sameView u s (fst (handle now today other s r)).
Proof.
  intros Hwf Hne. destruct r; simpl handle; try apply sameView_refl.
  - unfold get_day. now fetch_other u other s date Hwf Hne.
  - unfold get_range. destruct range as [[? ?] |]; apply sameView_refl.
  - unfold put_day. fetch_other u other s date Hwf Hne.
    rewrite sendDay_fst. apply (sameView_trans u s s1 _ Hview).
    rewrite <- Hid0.
    now apply (sameView_updateDay u other s1 row0 _ (wf_days s1 Hwf1)).
  - unfold post_planned.
    destruct (negb (JS.truthy type) || negb (JS.truthy time));
      [apply sameView_refl |].
    destruct (negb (JS.includes _ _)); [apply sameView_refl |].
    fetch_other u other s date Hwf Hne.
    rewrite sendDay_fst. apply (sameView_trans u s s1 _ Hview).
    apply (sameView_on_other_day u other s1 row0 _ (wf_days s1 Hwf1)
             Hrow0 Huser0 Hne).
    rewrite Hid0.
    destruct (String.eqb _ "shooting"); [| apply onlyDay_createPlanned].
    eapply onlyDay_trans;
      [apply onlyDay_deleteManyPlanned | apply onlyDay_createPlanned].
  - unfold delete_planned.
    destruct (Prisma.findPlanned s activityId) as [a |] eqn:Ea;
      [| apply sameView_refl].
    destruct (Prisma.findDayRow s _) as [row |] eqn:Er;
      [| apply sameView_refl].
    destruct (Nat.eqb_spec (DayRow.userId row) other) as [Hu | _];
      [| apply sameView_refl].
    simpl negb. cbv iota. rewrite sendDay_fst.
    apply findPlanned_some in Ea. destruct Ea as [Hin <-].
    apply findDayRow_some in Er. destruct Er as [Hrow Hid].
    apply (sameView_on_other_day u other s row _ (wf_days s Hwf) Hrow Hu Hne).
    rewrite Hid. apply onlyDay_deletePlanned; [apply Hwf | exact Hin].
  - unfold post_actual.
    destruct (negb (JS.truthy type)); [apply sameView_refl |].
    destruct (negb (JS.includes _ _)); [apply sameView_refl |].
    fetch_other u other s date Hwf Hne.
    rewrite sendDay_fst. apply (sameView_trans u s s1 _ Hview).
    apply (sameView_on_other_day u other s1 row0 _ (wf_days s1 Hwf1)
             Hrow0 Huser0 Hne).
    rewrite Hid0.
    destruct (JS.includes fixedTypes _).
    { destruct (Prisma.findFirstActual _ _ _) as [e |] eqn:E;
        [| apply onlyDay_createActual].
      apply findFirstActual_some in E. destruct E as [Hin <-].
      apply onlyDay_deleteActual; [apply Hwf1 | exact Hin]. }
    destruct (String.eqb _ "shooting"); [| apply onlyDay_createActual].
    destruct (Prisma.findFirstActual _ _ _) as [e |] eqn:E;
      [| apply onlyDay_createActual].
    apply findFirstActual_some in E. destruct E as [Hin <-].
    apply onlyDay_updateActual; [apply Hwf1 | exact Hin].
  - unfold put_actual.
    destruct (Prisma.findActual s activityId) as [a |] eqn:Ea;
      [| apply sameView_refl].
    destruct (Prisma.findDayRow s _) as [row |] eqn:Er;
      [| apply sameView_refl].
    destruct (Nat.eqb_spec (DayRow.userId row) other) as [Hu | _];
      [| apply sameView_refl].
    simpl negb. cbv iota. rewrite sendDay_fst.
    apply findActual_some in Ea. destruct Ea as [Hin <-].
    apply findDayRow_some in Er. destruct Er as [Hrow Hid].
    apply (sameView_on_other_day u other s row _ (wf_days s Hwf) Hrow Hu Hne).
    rewrite Hid. apply onlyDay_updateActual; [apply Hwf | exact Hin].
  - unfold put_shooting. destruct makes as [makes |]; [| apply sameView_refl].
    fetch_other u other s date Hwf Hne.
    rewrite sendDay_fst. apply (sameView_trans u s s1 _ Hview).
    apply (sameView_on_other_day u other s1 row0 _ (wf_days s1 Hwf1)
             Hrow0 Huser0 Hne).
    rewrite Hid0.
    destruct (Prisma.findFirstActual _ _ _) as [e |] eqn:E;
      [| apply onlyDay_createActual].
    apply findFirstActual_some in E. destruct E as [Hin <-].
    apply onlyDay_updateActual; [apply Hwf1 | exact Hin].
Qed.

Lemma find_filter_conj {A} (p q : A -> bool) l :
  find (fun x => p x && q x) l = find q (filter p l).
Proof.
  induction l as [| a l IH]; [reflexivity |]. simpl.
  destruct (p a); simpl; [| exact IH]. now destruct (q a).
Qed.

Lemma filter_conj {A} (p q : A -> bool) l :
  filter (fun x => p x && q x) l = filter q (filter p l).
Proof.
  induction l as [| a l IH]; [reflexivity |]. simpl.
  destruct (p a); simpl; [| exact IH]. destruct (q a); now rewrite IH.
Qed.

Lemma find_userDate s u date :
  find (Prisma.isUserDate u date) (trainingDays s)
  = find (fun r => DayRow.date r =? date) (rowsOf u s).
Proof. apply find_filter_conj. Qed.

Lemma sameView_findDay u s s' date :
  sameView u s s' -> Prisma.findDay s' u date = Prisma.findDay s u date.
Proof.
  intros [Hrows Hinc]. unfold Prisma.findDay.
  rewrite !find_userDate, Hrows.
  destruct (find _ (rowsOf u s)) as [r |] eqn:E; [| reflexivity].
  simpl. f_equal. apply Hinc. now apply find_some in E.
Qed.

Lemma sameView_makesOn u s s' date :
  sameView u s s' -> makesOn s' u date = makesOn s u date.
Proof.
  intros [Hrows Hinc]. unfold makesOn, shootingOn, Prisma.findDayShooting.
  rewrite !find_userDate, Hrows.
  destruct (find _ (rowsOf u s)) as [r |] eqn:E; [| reflexivity].
  simpl. apply find_some in E. destruct E as [Hr _].
  specialize (Hinc r Hr). unfold Prisma.includeAll in Hinc.
  injection Hinc as _ Ha. now rewrite Ha.
Qed.

Lemma sameView_range u s s' gte lte :
  sameView u s s' ->
  Prisma.findDaysInRange s' u gte lte = Prisma.findDaysInRange s u gte lte.
Proof.
  intros [Hrows Hinc]. unfold Prisma.findDaysInRange. f_equal.
  assert (G : forall t,
             filter (fun r => Nat.eqb (DayRow.userId r) u
                              && (gte <=? DayRow.date r)
                              && (DayRow.date r <=? lte))
                    (trainingDays t)
             = filter (fun r => (gte <=? DayRow.date r)
                                && (DayRow.date r <=? lte))
                      (rowsOf u t)).
  { intros t. unfold rowsOf. rewrite <- filter_conj. apply filter_ext.
    intros r. now rewrite andb_assoc. }
  rewrite !G, Hrows. apply map_ext_in. intros r Hr.
  apply filter_In in Hr. now apply Hinc.
Qed.

Lemma streakLoop_ext s s' u today :
  (forall d, makesOn s' u d = makesOn s u d) ->
  forall fuel streak cur seen,
    streakLoop fuel s' u today streak cur seen
    = streakLoop fuel s u today streak cur seen.
Proof.
  intros H. induction fuel as [| fuel IH]; intros streak cur seen;
    [reflexivity |].
  rewrite !streakLoop_step, H, !IH. reflexivity.
Qed.

Lemma sameView_streak u s s' today :
  sameView u s s' -> calculateStreak s' u today = calculateStreak s u today.
Proof.
  intros Hsv. unfold calculateStreak, streakRun.
  rewrite (streakLoop_ext s s' u today); [reflexivity |].
  intros d. now apply sameView_makesOn.
Qed.

(** X11: in a well-formed store a request of one user changes nothing of
    what another user reads: that user's days with their planned and
    actual activities, the date-range listing, the streak and the weekly
    statistics are the same after the request as before. *)
Theorem requests_isolated_between_users now today userId other s r :
  wellFormed s = true ->
  userId <> other ->
  let s' := fst (handle now today other s r) in
  (forall date, Prisma.findDay s' userId date = Prisma.findDay s userId date)
  /\ (forall gte lte, Prisma.findDaysInRange s' userId gte lte
                      = Prisma.findDaysInRange s userId gte lte)
  /\ (forall t, calculateStreak s' userId t = calculateStreak s userId t)
  /\ (forall t, get_weekly s' userId t = get_weekly s userId t).
Proof.
  rewrite wellFormed_spec. intros Hwf Hne. cbv zeta.
  pose proof (handle_sameView now today userId other s r Hwf Hne) as Hsv.
  repeat split; intros.
  - now apply sameView_findDay.
  - now apply sameView_range.
  - now apply sameView_streak.
  - unfold get_weekly. now rewrite (sameView_range userId s _ _ _ Hsv).
Qed.

Lemma requests_isolated_between_users_witness :
  let s' := fst (handle "12:00" 100 8 twoPickups
                   (PutShooting 100 (Some 250) None)) in
  (forall date, Prisma.findDay s' 7 date = Prisma.findDay twoPickups 7 date)
  /\ (forall gte lte, Prisma.findDaysInRange s' 7 gte lte
                      = Prisma.findDaysInRange twoPickups 7 gte lte)
  /\ (forall t, calculateStreak s' 7 t = calculateStreak twoPickups 7 t)
  /\ (forall t, get_weekly s' 7 t = get_weekly twoPickups 7 t).
Proof.
  apply (requests_isolated_between_users "12:00" 100 7 8 twoPickups
           (PutShooting 100 (Some 250) None)); [reflexivity | discriminate].
Defined.

(** ** Adding and removing a planned activity *)

Lemma findDayRow_unique s row :
  NoDup (idsOf s) -> In row (trainingDays s) ->
  Prisma.findDayRow s (DayRow.id row) = Some row.
Proof.
  intros Hnd Hin. unfold Prisma.findDayRow.
  destruct (find_hit (fun r => Nat.eqb (DayRow.id r) (DayRow.id row))
              (trainingDays s) row Hin (Nat.eqb_refl _)) as [y Hy].
  rewrite Hy. f_equal. pose proof (find_some _ _ Hy) as [Hyin Hid].
  apply Nat.eqb_eq in Hid. eapply NoDup_map_inj; eassumption.
Qed.

Lemma sendDay_ok s code dayId :
  In dayId (idsOf s) -> status (snd (sendDay s code dayId)) = code.
Proof.
  intros Hin. unfold idsOf in Hin. apply in_map_iff in Hin.
  destruct Hin as (row & <- & Hrow). unfold sendDay, Prisma.findDayById.
  destruct (find_hit (fun r => Nat.eqb (DayRow.id r) (DayRow.id row))
              (trainingDays s) row Hrow (Nat.eqb_refl _)) as [y ->].
  reflexivity.
Qed.

Lemma findPlanned_created s dayId ty time location name :
  Prisma.findPlanned (Prisma.createPlanned s dayId ty time location name)
    (freshId (map PlannedActivity.id (plannedTable s)))
  = Some (PlannedActivity.mk
            (freshId (map PlannedActivity.id (plannedTable s)))
            dayId ty time location name).
Proof.
  unfold Prisma.findPlanned, Prisma.createPlanned. cbn [plannedTable].
  apply find_snoc_new; [| simpl; apply Nat.eqb_refl].
  apply find_all_false. intros a Ha. apply Nat.eqb_neq.
  pose proof (freshId_above (map PlannedActivity.id (plannedTable s))
                (PlannedActivity.id a) (in_map PlannedActivity.id _ _ Ha)).
  lia.
Qed.

Lemma delete_created_planned s dayId ty time location name :
  plannedTable
    (Prisma.deletePlanned
       (Prisma.createPlanned s dayId ty time location name)
       (freshId (map PlannedActivity.id (plannedTable s))))
  = plannedTable s.
Proof.
  unfold Prisma.deletePlanned, Prisma.createPlanned. simpl.
  rewrite filter_app. simpl. rewrite Nat.eqb_refl. simpl.
  rewrite app_nil_r. apply forallb_filter_id. apply forallb_forall.
  intros a Hin. apply negb_true_iff, Nat.eqb_neq.
  pose proof (freshId_above (map PlannedActivity.id (plannedTable s))
                (PlannedActivity.id a) (in_map PlannedActivity.id _ _ Hin)).
  lia.
Qed.

(** Adding a planned activity of a type other than shooting. *)
Lemma post_planned_other s userId date ty time location name :
  JS.truthy time = true ->
  ty = "pickup" \/ ty = "custom" ->
  post_planned s userId date (Some ty) time location name
  = let '(s1, trainingDay) := getOrCreateTrainingDay s userId date in
    sendDay
      (Prisma.createPlanned s1 (TrainingDay.id trainingDay) ty time
         (if String.eqb ty "pickup" then location else None)
         (if String.eqb ty "custom" then name else None))
      201 (TrainingDay.id trainingDay).
Proof.
  intros Ht Hty. unfold post_planned. rewrite Ht.
  destruct Hty as [-> | ->]; reflexivity.
Qed.

(** X12: in a well-formed store, adding a planned pickup or custom activity
    answers 201, and deleting the activity that was added (it carries the
    next id of the table) answers 200 and gives back the planned and actual
    tables from before the addition. *)
Theorem planned_add_then_delete s userId date ty time location name :
  wellFormed s = true ->
  JS.truthy time = true ->
  ty = "pickup" \/ ty = "custom" ->
  let r1 := post_planned s userId date (Some ty) time location name in
  let newId := freshId (map PlannedActivity.id (plannedTable s)) in
  let r2 := delete_planned (fst r1) userId newId in
  status (snd r1) = 201%nat
  /\ status (snd r2) = 200%nat
  /\ plannedTable (fst r2) = plannedTable s
  /\ actualTable (fst r2) = actualTable s.
Proof.
  rewrite wellFormed_spec. intros Hwf Ht Hty. cbv zeta.
  rewrite (post_planned_other s userId date ty time location name Ht Hty).
  pose proof (WF_getOrCreate s userId date Hwf) as [Hwf1 Hin1].
  fetch_day s userId date. cbn [fst snd] in Hwf1, Hin1. cbv beta iota.
  set (loc := if String.eqb ty "pickup" then location else None).
  set (nm := if String.eqb ty "custom" then name else None).
  set (s3 := Prisma.createPlanned s1 (TrainingDay.id day) ty time loc nm).
  assert (Hin3 : In (TrainingDay.id day) (idsOf s3)) by exact Hin1.
  split; [now apply sendDay_ok |].
  rewrite sendDay_fst.
  pose proof (find_some _ _ Hfind) as [Hrow Hk].
  unfold Prisma.isUserDate in Hk. apply andb_true_iff in Hk.
  destruct Hk as [Hu _].
  assert (Hr : Prisma.findDayRow s3 (TrainingDay.id day) = Some row).
  { rewrite Hid. apply (findDayRow_unique s1 row); [apply Hwf1 | exact Hrow]. }
  assert (Hdel : delete_planned s3 userId
                   (freshId (map PlannedActivity.id (plannedTable s)))
                 = sendDay
                     (Prisma.deletePlanned s3
                        (freshId (map PlannedActivity.id (plannedTable s1))))
                     200 (TrainingDay.id day)).
  { unfold delete_planned. rewrite <- Hplanned. unfold s3 at 1.
    rewrite findPlanned_created. cbn [PlannedActivity.trainingDayId].
    rewrite Hr, Hu. reflexivity. }
  rewrite Hdel, sendDay_fst.
  split; [now apply sendDay_ok |].
  unfold s3. split; [now rewrite delete_created_planned | exact Hactual].
Qed.

Lemma planned_add_then_delete_witness :
  let r1 := post_planned twoPickups 7 100 (Some "custom") (Some "07:30")
              None (Some "Stretching") in
  let r2 := delete_planned (fst r1) 7 2 in
  status (snd r1) = 201%nat
  /\ status (snd r2) = 200%nat
  /\ plannedTable (fst r2) = plannedTable twoPickups
  /\ actualTable (fst r2) = actualTable twoPickups.
Proof.
  apply (planned_add_then_delete twoPickups 7 100 "custom" (Some "07:30")
           None (Some "Stretching")); [reflexivity | reflexivity | now right].
Defined.

(** ** Updating an actual activity by id *)

Lemma findActual_updated s aid makes completed aid' :
  Prisma.findActual (Prisma.updateActual s aid makes completed) aid'
  = option_map
      (fun a => if Nat.eqb (ActualActivity.id a) aid
                then ActualActivity.mk (ActualActivity.id a)
                       (ActualActivity.trainingDayId a)
                       (ActualActivity.type a) completed makes
                else a)
      (Prisma.findActual s aid').
Proof.
  unfold Prisma.findActual, Prisma.updateActual. cbn [actualTable].
  apply find_map_stable. intros a.
  now destruct (Nat.eqb (ActualActivity.id a) aid).
Qed.

(** X13: an update of an actual activity the caller owns answers 200; the
    activity keeps its id, day and type, takes the completion time and make
    count of the body and keeps the stored value of a field the body omits;
    every activity with another id reads as before. *)
Theorem put_actual_merges_fields s userId activityId completedAt makes :
  actualOwned s userId activityId = true ->
  let r := put_actual s userId activityId completedAt makes in
  status (snd r) = 200%nat
  /\ trainingDays (fst r) = trainingDays s
  /\ plannedTable (fst r) = plannedTable s
  /\ (exists a,
        Prisma.findActual s activityId = Some a
        /\ Prisma.findActual (fst r) activityId
           = Some (mergeActual a completedAt makes))
  /\ (forall other, other <> activityId ->
        Prisma.findActual (fst r) other = Prisma.findActual s other).
Proof.
  unfold actualOwned, put_actual. cbv zeta.
  destruct (Prisma.findActual s activityId) as [a |] eqn:Ea; [| discriminate].
  destruct (Prisma.findDayRow s (ActualActivity.trainingDayId a))
    as [row |] eqn:Er; [| discriminate].
  intros Hu. rewrite Hu. simpl negb. cbv iota. rewrite sendDay_fst.
  apply findDayRow_some in Er. destruct Er as [Hrow Hid].
  pose proof (findActual_some _ _ _ Ea) as [_ Hida].
  split.
  { apply sendDay_ok. unfold idsOf. cbn [Prisma.updateActual trainingDays].
    rewrite <- Hid. now apply in_map. }
  split; [reflexivity |]. split; [reflexivity |]. split.
  - exists a. split; [reflexivity |].
    rewrite findActual_updated, Ea. simpl.
    rewrite (proj2 (Nat.eqb_eq _ _) Hida). reflexivity.
  - intros other Hne. rewrite findActual_updated.
    destruct (Prisma.findActual s other) as [b |] eqn:Eb; [| reflexivity].
    simpl. apply findActual_some in Eb. destruct Eb as [_ Hb].
    destruct (Nat.eqb_spec (ActualActivity.id b) activityId);
      [congruence | reflexivity].
Qed.

Lemma put_actual_merges_fields_witness :
  Prisma.findActual (fst (put_actual twoPickups 7 1 None (Some 3))) 2
  = Prisma.findActual twoPickups 2.
Proof.
  destruct (put_actual_merges_fields twoPickups 7 1 None (Some 3) eq_refl)
    as (_ & _ & _ & _ & H).
  apply H. discriminate.
Defined.

(** ** The completion stamp is set once *)

(** The day row and the shooting record a quick update leaves behind. *)
Lemma put_shooting_record now s userId date makes completedAt :
  let r := put_shooting now s userId date (Some makes) completedAt in
  let stored := storedCompletedAt (dayShooting s userId date) in
  exists row a,
    find (Prisma.isUserDate userId date) (trainingDays (fst r)) = Some row
    /\ DayRow.id row
       = TrainingDay.id (snd (getOrCreateTrainingDay s userId date))
    /\ Prisma.findFirstActual (fst r) (DayRow.id row) "shooting" = Some a
    /\ ActualActivity.shootingMakes a = Some makes
    /\ ActualActivity.completedAt a
       = if (200 <=? makes) && negb (JS.truthy stored)
            && negb (JS.truthy completedAt)
         then Some now
         else JS.nullish completedAt stored.
Proof.
  cbv zeta. unfold dayShooting, put_shooting.
  fetch_day s userId date. cbn [snd]. rewrite sendDay_fst. unfold autoStamp.
  exists row. rewrite <- Hid.
  destruct (Prisma.findFirstActual s1 (TrainingDay.id day) "shooting")
    as [a0 |] eqn:E.
  - eexists. split; [exact Hfind |]. split; [reflexivity |].
    split; [apply findFirstActual_update; exact E |].
    cbn [ActualActivity.shootingMakes ActualActivity.completedAt
         storedCompletedAt].
    split; [reflexivity |].
    destruct ((200 <=? makes) && negb (JS.truthy (ActualActivity.completedAt a0))
              && negb (JS.truthy completedAt)); reflexivity.
  - eexists. split; [exact Hfind |]. split; [reflexivity |].
    split; [apply findFirstActual_create; exact E |].
    cbn [ActualActivity.shootingMakes ActualActivity.completedAt
         storedCompletedAt].
    split; [reflexivity |].
    destruct ((200 <=? makes) && negb (JS.truthy None)
              && negb (JS.truthy completedAt));
      [reflexivity | now rewrite nullish_None].
Qed.

Lemma dayShooting_found s userId date row :
  find (Prisma.isUserDate userId date) (trainingDays s) = Some row ->
  dayShooting s userId date
  = Prisma.findFirstActual s (DayRow.id row) "shooting"
  /\ TrainingDay.id (snd (getOrCreateTrainingDay s userId date))
     = DayRow.id row.
Proof.
  intros H. unfold dayShooting.
  rewrite (getOrCreate_found s userId date row H). now split.
Qed.

(** X14: a quick shooting update with makes >= 200 and no completion time
    in the body leaves the day's shooting activity with a non-empty
    completion time, and a later quick update without completion time,
    whatever its make count and the time of day, keeps that completion time
    and only replaces the make count. *)
Theorem put_shooting_stamps_once now now' s userId date makes makes' :
  JS.truthy (Some now) = true ->
  200 <= makes ->
  let dayId := TrainingDay.id (snd (getOrCreateTrainingDay s userId date)) in
  let s1 := fst (put_shooting now s userId date (Some makes) None) in
  let s2 := fst (put_shooting now' s1 userId date (Some makes') None) in
  exists a1 a2,
    Prisma.findFirstActual s1 dayId "shooting" = Some a1
    /\ Prisma.findFirstActual s2 dayId "shooting" = Some a2
    /\ JS.truthy (ActualActivity.completedAt a1) = true
    /\ ActualActivity.completedAt a2 = ActualActivity.completedAt a1
    /\ ActualActivity.shootingMakes a2 = Some makes'.
Proof.
  intros Hnow Hm. cbv zeta.
  destruct (put_shooting_record now s userId date makes None)
    as (row & a1 & Hrow & Hid & Ha1 & _ & Hc1).
  set (s1 := fst (put_shooting now s userId date (Some makes) None)) in *.
  destruct (put_shooting_record now' s1 userId date makes' None)
    as (row' & a2 & _ & Hid' & Ha2 & Hm2 & Hc2).
  destruct (dayShooting_found s1 userId date row Hrow) as [Hds Hday].
  rewrite Hday in Hid'. rewrite Hds, Ha1 in Hc2.
  cbn [storedCompletedAt] in Hc2. rewrite Hid' in Ha2. rewrite <- Hid.
  assert (Ht : JS.truthy (ActualActivity.completedAt a1) = true).
  { rewrite Hc1. destruct (Z.leb_spec 200 makes); [| lia].
    cbn [andb JS.truthy negb].
    destruct (JS.truthy (storedCompletedAt (dayShooting s userId date)))
      eqn:Es; cbn [negb andb JS.nullish]; [exact Es | exact Hnow]. }
  exists a1, a2. repeat split; try assumption.
  rewrite Hc2, Ht. cbn [negb andb]. rewrite andb_false_r. reflexivity.
Qed.

Lemma put_shooting_stamps_once_witness :
  let s1 := fst (put_shooting "18:45" twoPickups 7 100 (Some 205) None) in
  let s2 := fst (put_shooting "21:10" s1 7 100 (Some 180) None) in
  exists a1 a2,
    Prisma.findFirstActual s1 1 "shooting" = Some a1
    /\ Prisma.findFirstActual s2 1 "shooting" = Some a2
    /\ JS.truthy (ActualActivity.completedAt a1) = true
    /\ ActualActivity.completedAt a2 = ActualActivity.completedAt a1
    /\ ActualActivity.shootingMakes a2 = Some 180.
Proof.
  apply (put_shooting_stamps_once "18:45" "21:10" twoPickups 7 100 205 180);
    [reflexivity | lia].
Defined.

(** ** Logging pickup runs and custom activities *)

Lemma post_actual_other now s userId date ty completedAt makes :
  ty = "pickup" \/ ty = "custom" ->
  post_actual now s userId date (Some ty) completedAt makes
  = let '(s1, trainingDay) := getOrCreateTrainingDay s userId date in
    sendDay
      (Prisma.createActual s1 (TrainingDay.id trainingDay) ty completedAt None)
      200 (TrainingDay.id trainingDay).
Proof. intros [-> | ->]; reflexivity. Qed.

(** The activities of the fetched day are those the day had, none when the
    day was just created. *)
Lemma fetched_actuals s userId date :
  WF s ->
  Prisma.actualOf (fst (getOrCreateTrainingDay s userId date))
    (TrainingDay.id (snd (getOrCreateTrainingDay s userId date)))
  = match Prisma.findDay s userId date with
    | Some d => TrainingDay.actualActivities d
    | None => []
    end.
Proof.
  intros Hwf. fetch_day s userId date. cbn [fst snd].
  destruct Hcase as [-> | (Hnone & _ & Hfresh)].
  - unfold Prisma.findDay. rewrite Hfind. simpl. now rewrite Hid.
  - rewrite Hnone, Hid, Hfresh. unfold Prisma.actualOf. rewrite Hactual.
    apply filter_none. intros a Ha. apply Nat.eqb_neq. intros E.
    apply (freshId_new (idsOf s)). unfold idsOf at 1. rewrite <- E.
    now apply (wf_actual_fk s Hwf).
Qed.

(** X15: in a well-formed store, logging a pickup run or a custom activity
    answers 200 and appends exactly one record of that type, with the
    completion time of the body and no make count, to the day's records of
    the type; the day's records of every other type are as before. *)
Theorem post_actual_appends now s userId date ty completedAt makes :
  wellFormed s = true ->
  ty = "pickup" \/ ty = "custom" ->
  let r := post_actual now s userId date (Some ty) completedAt makes in
  let dayId := TrainingDay.id (snd (getOrCreateTrainingDay s userId date)) in
  status (snd r) = 200%nat
  /\ dayActuals (fst r) userId date ty
     = dayActuals s userId date ty
       ++ [ActualActivity.mk
             (freshId (map ActualActivity.id (actualTable s)))
             dayId ty completedAt None]
  /\ forall ty', ty' <> ty ->
       dayActuals (fst r) userId date ty' = dayActuals s userId date ty'.
Proof.
  rewrite wellFormed_spec. intros Hwf Hty. cbv zeta.
  rewrite (post_actual_other now s userId date ty completedAt makes Hty).
  pose proof (fetched_actuals s userId date Hwf) as Hacts.
  pose proof (WF_getOrCreate s userId date Hwf) as [_ Hin1].
  fetch_day s userId date. cbn [fst snd] in Hacts, Hin1 |- *.
  set (s2 := Prisma.createActual s1 (TrainingDay.id day) ty completedAt None).
  assert (Hrow2 : find (Prisma.isUserDate userId date) (trainingDays s2)
                  = Some row) by exact Hfind.
  assert (Hof : Prisma.actualOf s2 (DayRow.id row)
                = Prisma.actualOf s1 (TrainingDay.id day)
                  ++ [ActualActivity.mk
                        (freshId (map ActualActivity.id (actualTable s)))
                        (TrainingDay.id day) ty completedAt None]).
  { unfold s2, Prisma.actualOf, Prisma.createActual. cbn [actualTable].
    rewrite filter_app, <- Hid, Hactual. simpl. now rewrite Nat.eqb_refl. }
  assert (Hbefore : forall t,
             dayActuals s userId date t
             = filter (fun a => String.eqb (ActualActivity.type a) t)
                      (Prisma.actualOf s1 (TrainingDay.id day))).
  { intros t. unfold dayActuals. rewrite Hacts.
    now destruct (Prisma.findDay s userId date). }
  split; [now apply sendDay_ok |]. rewrite sendDay_fst. split.
  - rewrite (dayActuals_found s2 userId date ty row Hrow2), Hof, filter_app,
      Hbefore. simpl. now rewrite String.eqb_refl.
  - intros ty' Hne.
    rewrite (dayActuals_found s2 userId date ty' row Hrow2), Hof, filter_app,
      Hbefore. simpl.
    destruct (String.eqb_spec ty ty'); [congruence | apply app_nil_r].
Qed.

Lemma post_actual_appends_witness :
  dayActuals
    (fst (post_actual "12:00" twoPickups 7 100 (Some "pickup")
            (Some "20:15") (Some 9)))
    7 100 "pickup"
  = dayActuals twoPickups 7 100 "pickup"
    ++ [ActualActivity.mk 3 1 "pickup" (Some "20:15") None].
Proof.
  apply (post_actual_appends "12:00" twoPickups 7 100 "pickup" (Some "20:15")
           (Some 9)); [reflexivity | now left].
Defined.

(** * Further properties of the statistics *)

(** ** The weekly entries and the streak read the same makes *)

Lemma find_hd_filter {A} (p : A -> bool) l :
  find p l = hd_error (filter p l).
Proof.
  induction l as [| a l IH]; [reflexivity |]. simpl.
  now destruct (p a).
Qed.

Lemma insertByDate_find t x : forall acc,
  StronglySorted (fun a b => TrainingDay.date a <= TrainingDay.date b) acc ->
  find (fun d => TrainingDay.date d =? t) (Prisma.insertByDate x acc)
  = match find (fun d => TrainingDay.date d =? t) acc with
    | Some y => Some y
    | None => if TrainingDay.date x =? t then Some x else None
    end.
Proof.
  induction acc as [| y acc IH]; intros Hs; [reflexivity |].
  inversion Hs as [| ? ? Hs' Hall]; subst. simpl.
  destruct (Z.ltb_spec (TrainingDay.date x) (TrainingDay.date y)) as [Hlt | Hge].
  - simpl. destruct (Z.eqb_spec (TrainingDay.date x) t) as [Ex | Ex].
    + destruct (Z.eqb_spec (TrainingDay.date y) t); [lia |].
      rewrite find_all_false; [reflexivity |].
      intros z Hz. rewrite Forall_forall in Hall. specialize (Hall z Hz).
      apply Z.eqb_neq. lia.
    + destruct (TrainingDay.date y =? t); [reflexivity |].
      now destruct (find _ acc).
  - simpl. destruct (TrainingDay.date y =? t); [reflexivity |].
    now apply IH.
Qed.

Lemma insertByDate_sorted x : forall acc,
  StronglySorted (fun a b => TrainingDay.date a <= TrainingDay.date b) acc ->
  StronglySorted (fun a b => TrainingDay.date a <= TrainingDay.date b)
                 (Prisma.insertByDate x acc).
Proof.
  induction acc as [| y acc IH]; intros Hs.
  - simpl. repeat constructor.
  - inversion Hs as [| ? ? Hs' Hall]; subst. simpl.
    destruct (Z.ltb_spec (TrainingDay.date x) (TrainingDay.date y)).
    + constructor; [assumption |]. constructor; [lia |].
      rewrite Forall_forall in *. intros z Hz. specialize (Hall z Hz). lia.
    + constructor; [now apply IH |].
      rewrite Forall_forall in *. intros z Hz.
      apply insertByDate_In in Hz. destruct Hz as [-> | Hz]; [lia | auto].
Qed.

(** Sorting by date is stable: the first day of a date is the same before
    and after. *)
Lemma sortByDate_find t l :
  find (fun d => TrainingDay.date d =? t) (Prisma.sortByDate l)
  = find (fun d => TrainingDay.date d =? t) l.
Proof.
  unfold Prisma.sortByDate.
  assert (G : forall acc,
             StronglySorted
               (fun a b => TrainingDay.date a <= TrainingDay.date b) acc ->
             find (fun d => TrainingDay.date d =? t)
                  (fold_left (fun acc d => Prisma.insertByDate d acc) l acc)
             = match find (fun d => TrainingDay.date d =? t) acc with
               | Some y => Some y
               | None => find (fun d => TrainingDay.date d =? t) l
               end).
  { induction l as [| x l IH]; intros acc Hs; simpl.
    - now destruct (find _ acc).
    - rewrite IH by now apply insertByDate_sorted.
      rewrite insertByDate_find by assumption.
      destruct (find _ acc); [reflexivity |].
      now destruct (TrainingDay.date x =? t). }
  rewrite G by constructor. reflexivity.
Qed.

Lemma findDaysInRange_find s userId gte lte t :
  gte <= t <= lte ->
  find (fun d => TrainingDay.date d =? t)
       (Prisma.findDaysInRange s userId gte lte)
  = Prisma.findDay s userId t.
Proof.
  intros Ht. unfold Prisma.findDaysInRange, Prisma.findDay.
  rewrite sortByDate_find.
  assert (Hm : forall l,
             find (fun d => TrainingDay.date d =? t)
                  (map (Prisma.includeAll s) l)
             = option_map (Prisma.includeAll s)
                 (find (fun r => DayRow.date r =? t) l)).
  { induction l as [| r l IH]; [reflexivity |]. simpl.
    destruct (DayRow.date r =? t); [reflexivity | exact IH]. }
  rewrite Hm, <- find_filter_conj. f_equal. apply find_pred_ext.
  intros r. unfold Prisma.isUserDate.
  destruct (Nat.eqb (DayRow.userId r) userId); [| reflexivity].
  destruct (Z.eqb_spec (DayRow.date r) t) as [-> | _];
    [| now rewrite andb_false_r].
  destruct (Z.leb_spec gte t), (Z.leb_spec t lte); try lia; reflexivity.
Qed.

Lemma dailyStat_makesOn s userId today i :
  0 <= i <= 6 ->
  Weekly.dailyStat (Prisma.findDaysInRange s userId (today - 6) today)
    (today - 6) i
  = Weekly.mkDaily (today - 6 + i) ((today - 6 + i + 4) mod 7)
      (makesOn s userId (today - 6 + i))
      (completeOn s userId (today - 6 + i)).
Proof.
  intros Hi. unfold Weekly.dailyStat, completeOn.
  rewrite findDaysInRange_find by lia.
  assert (Hm : JS.or_zero
                 match
                   match Prisma.findDay s userId (today - 6 + i) with
                   | Some d =>
                       find (fun a => String.eqb (ActualActivity.type a)
                                                 "shooting")
                            (TrainingDay.actualActivities d)
                   | None => None
                   end
                 with
                 | Some a => ActualActivity.shootingMakes a
                 | None => None
                 end
               = makesOn s userId (today - 6 + i)).
  { unfold makesOn, shootingOn, Prisma.findDayShooting, Prisma.findDay.
    destruct (find (Prisma.isUserDate userId (today - 6 + i)) (trainingDays s));
      [| reflexivity].
    simpl. now rewrite find_hd_filter. }
  now rewrite Hm.
Qed.

(** X16: each daily entry of the weekly response shows, for its date, the
    make count the streak walk reads for that date, and is marked completed
    exactly when the streak walk counts the day as complete. *)
Theorem weekly_entries_agree_with_streak s userId today e :
  In e (Weekly.dailyStats (get_weekly s userId today)) ->
  Weekly.makes e = makesOn s userId (Weekly.date e)
  /\ Weekly.completed e = completeOn s userId (Weekly.date e).
Proof.
  unfold get_weekly, Weekly.compute.
  destruct (Weekly.tally _) as [onTime totalPlanned].
  cbn [Weekly.dailyStats]. unfold Weekly.buildDailyStats. intros He.
  apply in_map_iff in He. destruct He as (i & <- & Hi).
  rewrite dailyStat_makesOn; [now split |].
  simpl in Hi. intuition lia.
Qed.

Lemma weekly_entries_agree_with_streak_witness :
  let e := nth 6 (Weekly.dailyStats (get_weekly breakStore 7 99))
               (Weekly.mkDaily 0 0 0 false) in
  Weekly.makes e = makesOn breakStore 7 (Weekly.date e)
  /\ Weekly.completed e = completeOn breakStore 7 (Weekly.date e).
Proof.
  apply (weekly_entries_agree_with_streak breakStore 7 99).
  vm_compute. do 6 right. left. reflexivity.
Defined.

(** ** A perfect week *)

Lemma weekly_dailyStats_explicit s userId today :
  Weekly.dailyStats (get_weekly s userId today)
  = map (fun i => Weekly.mkDaily (today - 6 + i) ((today - 6 + i + 4) mod 7)
                    (makesOn s userId (today - 6 + i))
                    (completeOn s userId (today - 6 + i)))
        [0; 1; 2; 3; 4; 5; 6].
Proof.
  unfold get_weekly, Weekly.compute.
  destruct (Weekly.tally _) as [onTime totalPlanned].
  cbn [Weekly.dailyStats]. unfold Weekly.buildDailyStats.
  apply map_ext_in. intros i Hi. apply dailyStat_makesOn.
  simpl in Hi. intuition lia.
Qed.

Lemma weekly_completion_value s userId today :
  Weekly.completionPercentage (get_weekly s userId today)
  = roundPct (Weekly.completedDays
                (Weekly.dailyStats (get_weekly s userId today))) 7.
Proof.
  unfold get_weekly, Weekly.compute.
  now destruct (Weekly.tally _) as [onTime totalPlanned].
Qed.

Lemma weekly_full_iff s userId today :
  Weekly.completionPercentage (get_weekly s userId today) = 100
  <-> allComplete s userId today 7 = true.
Proof.
  rewrite weekly_completion_value, weekly_dailyStats_explicit.
  unfold allComplete, Weekly.completedDays. simpl map. simpl seq.
  simpl forallb. simpl filter.
  replace (today - 6 + 0) with (today - 6) by lia.
  replace (today - 6 + 1) with (today - 5) by lia.
  replace (today - 6 + 2) with (today - 4) by lia.
  replace (today - 6 + 3) with (today - 3) by lia.
  replace (today - 6 + 4) with (today - 2) by lia.
  replace (today - 6 + 5) with (today - 1) by lia.
  replace (today - 6 + 6) with today by lia.
  replace (today - 0) with today by lia.
  destruct (completeOn s userId today), (completeOn s userId (today - 1)),
    (completeOn s userId (today - 2)), (completeOn s userId (today - 3)),
    (completeOn s userId (today - 4)), (completeOn s userId (today - 5)),
    (completeOn s userId (today - 6));
    vm_compute; split; intros H; try reflexivity; discriminate H.
Qed.

(** X17: the weekly completion percentage is 100 exactly when today and the
    six days before it are all complete, and then the streak is at least
    7. *)
Theorem weekly_full_completion s userId today :
  (Weekly.completionPercentage (get_weekly s userId today) = 100
   <-> allComplete s userId today 7 = true)
  /\ (Weekly.completionPercentage (get_weekly s userId today) = 100 ->
      7 <= calculateStreak s userId today).
Proof.
  split; [apply weekly_full_iff |].
  intros H. apply weekly_full_iff in H.
  assert (Hn : (1 <= 7 <= 366)%nat) by lia.
  destruct (streakRun_at_least s userId today 7 streakFuel (Nat.le_refl _)
              Hn H) as (k & seen & Hrun & Hk).
  rewrite (calculateStreak_run _ _ _ _ _ Hrun). exact Hk.
Qed.

Lemma weekly_full_completion_witness :
  7 <= calculateStreak yearStore 1 900.
Proof.
  apply (proj2 (weekly_full_completion yearStore 1 900)).
  vm_compute. reflexivity.
Defined.

(** ** The summary *)

Lemma filter_stronger_length {A} (p q : A -> bool) l :
  (forall x, p x = true -> q x = true) ->
  (List.length (filter p l) <= List.length (filter q l))%nat.
Proof.
  intros H. induction l as [| a l IH]; [simpl; lia |]. simpl.
  destruct (p a) eqn:Ep.
  - rewrite (H a Ep). simpl. lia.
  - destruct (q a); simpl; lia.
Qed.

(** X18: in the summary the perfect days never exceed the shooting days,
    no count is negative, and the streak is at most 366. *)
Theorem summary_counts_coherent s userId today :
  let m := Summary.compute s userId today in
  0 <= Summary.perfectDays m <= Summary.shootingDays m
  /\ 0 <= Summary.totalSessions m
  /\ 0 <= Summary.streak m <= 366.
Proof.
  cbv zeta. unfold Summary.compute.
  cbn [Summary.perfectDays Summary.shootingDays Summary.totalSessions
       Summary.streak].
  unfold Summary.count. split; [split; [lia |] | split; [lia |]].
  - apply inj_le. apply filter_stronger_length. intros a H.
    apply andb_true_iff in H. destruct H as [Ho H].
    apply andb_true_iff in H. destruct H as [Hs _].
    now rewrite Ho, Hs.
  - destruct (streakLoop_exits s userId today streakFuel (Nat.le_refl _))
      as (k & n & Hrun & Hk & _).
    now rewrite (calculateStreak_run _ _ _ _ _ Hrun).
Qed.

(** * Properties of the time comparison *)

Lemma clockString_table :
  forallb
    (fun h =>
       forallb
         (fun m =>
            match Time.minutes (clockString (Z.of_nat h) (Z.of_nat m)) with
            | Some v => v =? 60 * Z.of_nat h + Z.of_nat m
            | None => false
            end)
         (seq 0 60))
    (seq 0 24)
  = true.
Proof. vm_compute. reflexivity. Qed.

Lemma clockString_minutes h m :
  0 <= h < 24 -> 0 <= m < 60 ->
  Time.minutes (clockString h m) = Some (60 * h + m).
Proof.
  intros Hh Hm. pose proof clockString_table as T.
  rewrite forallb_forall in T.
  specialize (T (Z.to_nat h)). rewrite forallb_forall in T.
  assert (Hin : In (Z.to_nat h) (seq 0 24)) by (apply in_seq; lia).
  specialize (T Hin (Z.to_nat m)).
  assert (Hin' : In (Z.to_nat m) (seq 0 60)) by (apply in_seq; lia).
  specialize (T Hin'). rewrite !Z2Nat.id in T by lia.
  destruct (Time.minutes (clockString h m)) as [v |]; [| discriminate].
  apply Z.eqb_eq in T. now subst.
Qed.

(** X19: two times of day printed as HH:MM are within the tolerance exactly
    when their distance in minutes since midnight is at most 30, with no
    wrap-around at midnight; the comparison is symmetric for all strings. *)
Theorem within30_on_clock_times :
  (forall h1 m1 h2 m2,
      0 <= h1 < 24 -> 0 <= m1 < 60 -> 0 <= h2 < 24 -> 0 <= m2 < 60 ->
      Time.within30 (clockString h1 m1) (clockString h2 m2)
      = (Z.abs (60 * h1 + m1 - (60 * h2 + m2)) <=? 30))
  /\ (forall a b, Time.within30 a b = Time.within30 b a).
Proof.
  split.
  - intros h1 m1 h2 m2 H1 H2 H3 H4. unfold Time.within30.
    now rewrite !clockString_minutes.
  - intros a b. unfold Time.within30.
    destruct (Time.minutes a) as [x |], (Time.minutes b) as [y |];
      try reflexivity.
    f_equal. lia.
Qed.

Lemma within30_on_clock_times_witness :
  Time.within30 (clockString 23 50) (clockString 0 10)
  = (Z.abs (60 * 23 + 50 - (60 * 0 + 10)) <=? 30).
Proof.
  apply (proj1 within30_on_clock_times 23 50 0 10); lia.
Defined.

(** * Properties of the account routes *)

(** X20: a login with an unknown e-mail address and a login with a wrong
    password for a known address get the same answer, 401 with the same
    error body. *)
Theorem login_failures_indistinguishable
    L clock users users' email email' password password' user :
  JS.truthy email = true -> JS.truthy password = true ->
  JS.truthy email' = true -> JS.truthy password' = true ->
  findUserByEmail users (toLowerCase L (JS.or_str email "")) = None ->
  findUserByEmail users' (toLowerCase L (JS.or_str email' "")) = Some user ->
  bcryptCompare L (JS.or_str password' "") (User.passwordHash user) = false ->
  login L clock users email password
  = mkAuthResponse 401 (AuthError "Invalid email or password")
  /\ login L clock users' email' password'
     = login L clock users email password.
Proof.
  intros He Hp He' Hp' Hnone Hsome Hbad. unfold login.
  rewrite He, Hp, He', Hp', Hnone, Hsome, Hbad. now split.
Qed.

Lemma login_failures_indistinguishable_witness :
  let users := fst (register toyLib 0 "s" [] (Some "ada@hoops.io")
                      (Some "swish22") (Some "Ada")) in
  login toyLib 5 users (Some "bob@hoops.io") (Some "swish22")
  = mkAuthResponse 401 (AuthError "Invalid email or password")
  /\ login toyLib 5 users (Some "ada@hoops.io") (Some "airball")
     = login toyLib 5 users (Some "bob@hoops.io") (Some "swish22").
Proof.
  cbv zeta.
  eapply (login_failures_indistinguishable toyLib 5 _ _ (Some "bob@hoops.io")
            (Some "ada@hoops.io") (Some "swish22") (Some "airball"));
    reflexivity.
Defined.

(** ** Registration *)

Lemma findUserByEmail_none users email :
  findUserByEmail users email = None -> ~ In email (map User.email users).
Proof.
  unfold findUserByEmail. intros H Hin. apply in_map_iff in Hin.
  destruct Hin as (u & <- & Hu). pose proof (find_none _ _ H u Hu) as Hf.
  simpl in Hf. now rewrite String.eqb_refl in Hf.
Qed.

(** X21: registration keeps e-mail addresses and ids unique in the user
    table; an address whose lower-case form is already registered is
    refused (no 201) without a write, whatever the letter case of the
    request, and every registration that is not answered 201 writes
    nothing. *)
Theorem register_keeps_emails_unique
    L clock salt users email password name :
  NoDup (map User.email users) -> NoDup (map User.id users) ->
  let r := register L clock salt users email password name in
  NoDup (map User.email (fst r))
  /\ NoDup (map User.id (fst r))
  /\ (In (toLowerCase L (JS.or_str email "")) (map User.email users) ->
      fst r = users /\ a_status (snd r) <> 201%nat)
  /\ (a_status (snd r) <> 201%nat -> fst r = users).
Proof.
  intros He Hi. cbv zeta. unfold register.
  destruct (negb (JS.truthy email) || negb (JS.truthy password)
            || negb (JS.truthy name));
    [repeat split; (assumption || discriminate) |].
  destruct (negb (isValidEmail (JS.or_str email "")));
    [repeat split; (assumption || discriminate) |].
  destruct (negb (isValidPassword (JS.or_str password "")));
    [repeat split; (assumption || discriminate) |].
  destruct (findUserByEmail users (toLowerCase L (JS.or_str email "")))
    as [u |] eqn:E; [repeat split; (assumption || discriminate) |].
  cbn [fst snd a_status]. apply findUserByEmail_none in E.
  split; [| split; [| split]].
  - rewrite map_app. now apply NoDup_snoc.
  - rewrite map_app. apply NoDup_snoc; [assumption | apply freshId_new].
  - intros Hin. contradiction.
  - intros H. now contradiction H.
Qed.

Lemma register_keeps_emails_unique_witness :
  let users := fst (register toyLib 0 "s" [] (Some "ada@hoops.io")
                      (Some "swish22") (Some "Ada")) in
  let r := register toyLib 9 "t" users (Some "ada@hoops.io")
             (Some "another1") (Some "Ada B") in
  fst r = users /\ a_status (snd r) <> 201%nat.
Proof.
  cbv zeta.
  apply (register_keeps_emails_unique toyLib 9 "t" _ (Some "ada@hoops.io")
           (Some "another1") (Some "Ada B")).
  - vm_compute. repeat constructor. intros [].
  - vm_compute. repeat constructor. intros [].
  - vm_compute. now left.
Defined.

(** ** The token gate *)

Lemma splitOn_word s : noSpace s = true -> splitOn " " s = [s].
Proof.
  induction s as [| c s IH]; [reflexivity |]. simpl.
  intros H. apply andb_true_iff in H. destruct H as [Hc Hs].
  apply negb_true_iff in Hc. rewrite Hc, (IH Hs). reflexivity.
Qed.

Lemma splitOn_prefix a b :
  noSpace a = true ->
  splitOn " " (a ++ String " " b) = a :: splitOn " " b.
Proof.
  induction a as [| c a IH]; intros H; [reflexivity |]. simpl in *.
  apply andb_true_iff in H. destruct H as [Hc Ha].
  apply negb_true_iff in Hc. rewrite Hc, (IH Ha). reflexivity.
Qed.

Lemma append_space_nonempty a b :
  String.eqb (a ++ String " " b) "" = false.
Proof. now destruct a. Qed.

Lemma authenticate_word L clock scheme token :
  noSpace scheme = true -> noSpace token = true -> token <> "" ->
  authenticateToken L clock (Some (scheme ++ String " " token)%string)
  = match jwtVerify L clock token with
    | TokenValid decoded => Passed decoded
    | TokenExpired => Rejected 401 "Token expired"
    | TokenInvalid => Rejected 403 "Invalid token"
    end.
Proof.
  intros Hs Ht Hne. unfold authenticateToken.
  rewrite append_space_nonempty, (splitOn_prefix _ _ Hs), (splitOn_word _ Ht).
  cbn [nth_error JS.truthy JS.or_str].
  apply String.eqb_neq in Hne. rewrite Hne. reflexivity.
Qed.

(** X22: the token gate answers 401 "Access token required" when the
    authorization header is missing or is a single word; for a header of
    two words it hands the second word to the verifier whatever the first
    word is, passes the decoded user on when the token is valid, and
    answers 401 for an expired and 403 for an invalid token; a training or
    statistics request that the gate rejects leaves the store unchanged. *)
Theorem token_gate_behaviour L clock :
  authenticateToken L clock None = Rejected 401 "Access token required"
  /\ (forall word, noSpace word = true ->
        authenticateToken L clock (Some word)
        = Rejected 401 "Access token required")
  /\ (forall scheme token,
        noSpace scheme = true -> noSpace token = true -> token <> "" ->
        authenticateToken L clock (Some (scheme ++ String " " token)%string)
        = match jwtVerify L clock token with
          | TokenValid decoded => Passed decoded
          | TokenExpired => Rejected 401 "Token expired"
          | TokenInvalid => Rejected 403 "Invalid token"
          end)
  /\ (forall now today header s r code error,
        authenticateToken L clock header = Rejected code error ->
        serve L clock now today header s r
        = (s, mkResponse code (ErrorBody error))).
Proof.
  split; [reflexivity |]. split; [| split].
  - intros word Hw. unfold authenticateToken.
    destruct (String.eqb word ""); [reflexivity |].
    now rewrite (splitOn_word _ Hw).
  - apply authenticate_word.
  - intros now today header s r code error H. unfold serve. now rewrite H.
Qed.

Lemma token_gate_behaviour_witness :
  authenticateToken toyLib 0 (Some "Basic tok")
  = Passed (mkPayload 1 "ada@hoops.io" "Ada")
  /\ serve toyLib 0 "12:00" 100 (Some "Bearer nope") twoPickups
       (PutShooting 100 (Some 300) None)
     = (twoPickups, mkResponse 403 (ErrorBody "Invalid token")).
Proof.
  destruct (token_gate_behaviour toyLib 0) as (_ & _ & Hword & Hserve).
  split.
  - apply (Hword "Basic" "tok"); [reflexivity | reflexivity | discriminate].
  - apply Hserve. apply (Hword "Bearer" "nope");
      [reflexivity | reflexivity | discriminate].
Defined.

(** ** From registration to the account page *)

Lemma register_created L clock salt users email password name :
  a_status (snd (register L clock salt users email password name)) = 201%nat ->
  findUserByEmail users (toLowerCase L (JS.or_str email "")) = None
  /\ JS.truthy email = true /\ JS.truthy password = true
  /\ register L clock salt users email password name
     = let user := User.mk (freshId (map User.id users))
                           (toLowerCase L (JS.or_str email ""))
                           (bcryptHash L salt (JS.or_str password ""))
                           (trim L (JS.or_str name "")) clock in
       (users ++ [user],
        mkAuthResponse 201
          (AuthOk "Account created successfully" (generateToken L clock user)
                  (User.id user) (User.email user) (User.name user))).
Proof.
  unfold register.
  destruct (JS.truthy email); [| discriminate].
  destruct (JS.truthy password); [| discriminate].
  destruct (JS.truthy name); [| discriminate].
  simpl negb. simpl orb. cbv iota.
  destruct (negb (isValidEmail (JS.or_str email ""))); [discriminate |].
  destruct (negb (isValidPassword (JS.or_str password ""))); [discriminate |].
  destruct (findUserByEmail users (toLowerCase L (JS.or_str email "")));
    [discriminate |].
  intros _. repeat split.
Qed.

(** X23: after a successful registration, given that bcrypt accepts the
    password against the hash it made and that the verifier accepts the
    token signed at login, a login with the same address and password
    answers 200 with the account created, and the account page requested
    with that token shows the same account. *)
Theorem register_login_me L clock clock' salt users email password name :
  let r := register L clock salt users email password name in
  let user := User.mk (freshId (map User.id users))
                      (toLowerCase L (JS.or_str email ""))
                      (bcryptHash L salt (JS.or_str password ""))
                      (trim L (JS.or_str name "")) clock in
  let token := generateToken L clock' user in
  a_status (snd r) = 201%nat ->
  bcryptCompare L (JS.or_str password "")
    (bcryptHash L salt (JS.or_str password "")) = true ->
  tokenAccepted L clock' user ->
  login L clock' (fst r) email password
  = mkAuthResponse 200
      (AuthOk "Login successful" token (User.id user) (User.email user)
              (User.name user))
  /\ me L clock' (fst r) (Some ("Bearer" ++ String " " token)%string)
     = mkAuthResponse 200
         (AuthMe (User.id user) (User.email user) (User.name user) clock).
Proof.
  cbv zeta. intros H201 Hbcrypt (Hword & Hne & Hverify).
  destruct (register_created L clock salt users email password name H201)
    as (Hnone & He & Hp & ->).
  cbv zeta. cbn [fst]. split.
  - unfold login. rewrite He, Hp. simpl negb. simpl orb. cbv iota.
    unfold findUserByEmail in *.
    rewrite (find_snoc_new _ users _ Hnone)
      by (simpl; apply String.eqb_refl).
    cbn [User.passwordHash]. rewrite Hbcrypt. reflexivity.
  - unfold me. rewrite (authenticate_word L clock' "Bearer" _ eq_refl Hword Hne).
    rewrite Hverify. cbn [p_userId User.id]. unfold findUserById.
    rewrite find_snoc_new; [reflexivity | | simpl; apply Nat.eqb_refl].
    apply find_all_false. intros u Hu. apply Nat.eqb_neq.
    pose proof (freshId_above (map User.id users) (User.id u)
                  (in_map User.id _ _ Hu)).
    lia.
Qed.

Lemma register_login_me_witness :
  let r := register toyLib 3 "s" [] (Some "ada@hoops.io") (Some "swish22")
             (Some "Ada") in
  login toyLib 8 (fst r) (Some "ada@hoops.io") (Some "swish22")
  = mkAuthResponse 200
      (AuthOk "Login successful" "tok" 1 "ada@hoops.io" "Ada")
  /\ me toyLib 8 (fst r) (Some "Bearer tok")
     = mkAuthResponse 200 (AuthMe 1 "ada@hoops.io" "Ada" 3).
Proof.
  apply (register_login_me toyLib 3 8 "s" [] (Some "ada@hoops.io")
           (Some "swish22") (Some "Ada")).
  - reflexivity.
  - reflexivity.
  - repeat split. discriminate.
Defined.

(** ** The shape of an accepted e-mail address *)

Lemma append_empty (a b : string) :
  (a ++ b)%string = "" -> a = "" /\ b = "".
Proof. destruct a; simpl; [auto | discriminate]. Qed.

Lemma nullable_lang r : Regex.nullable r = true <-> lang r "".
Proof.
  split.
  - induction r; simpl; intros H; try discriminate.
    + constructor.
    + apply andb_true_iff in H. destruct H as [H1 H2].
      change "" with ("" ++ "")%string. constructor; auto.
    + apply orb_true_iff in H. destruct H as [H | H];
        [apply lang_alt_l | apply lang_alt_r]; auto.
    + constructor.
  - intros H. remember "" as s eqn:Es.
    induction H; simpl; try discriminate; try reflexivity.
    + apply append_empty in Es. destruct Es as [-> ->].
      now rewrite IHlang1, IHlang2.
    + now rewrite IHlang.
    + rewrite IHlang by assumption. apply orb_true_r.
Qed.

Lemma deriv_sound c : forall r s,
  lang (Regex.deriv c r) s -> lang r (String c s).
Proof.
  induction r; simpl; intros s H.
  - inversion H.
  - inversion H.
  - destruct (p c) eqn:E; inversion H; subst. now constructor.
  - destruct (Regex.nullable r1) eqn:En.
    + inversion H as [| | | ? ? ? HL | ? ? ? HR | |]; subst.
      * inversion HL as [| | ? ? s1 s2 H1 H2 | | | |]; subst.
        change (String c (s1 ++ s2)) with (String c s1 ++ s2)%string.
        constructor; auto.
      * change (String c s) with ("" ++ String c s)%string.
        constructor; [now apply nullable_lang | auto].
    + inversion H as [| | ? ? s1 s2 H1 H2 | | | |]; subst.
      change (String c (s1 ++ s2)) with (String c s1 ++ s2)%string.
      constructor; auto.
  - inversion H; subst; [apply lang_alt_l | apply lang_alt_r]; auto.
  - inversion H as [| | ? ? s1 s2 H1 H2 | | | |]; subst.
    change (String c (s1 ++ s2)) with (String c s1 ++ s2)%string.
    constructor; auto.
Qed.

Lemma deriv_complete c r s0 :
  lang r s0 -> forall s, s0 = String c s -> lang (Regex.deriv c r) s.
Proof.
  induction 1 as [| p c0 Hp | r1 r2 s1 s2 H1 IH1 H2 IH2 | r1 r2 s0 H IH
                  | r1 r2 s0 H IH | r | r s1 s2 H1 IH1 H2 IH2];
    intros s E; simpl.
  - discriminate.
  - injection E as -> <-. rewrite Hp. constructor.
  - destruct s1 as [| c1 s1']; simpl in E.
    + rewrite (proj2 (nullable_lang r1) H1). apply lang_alt_r. auto.
    + injection E as -> <-.
      destruct (Regex.nullable r1);
        [apply lang_alt_l |]; constructor; auto.
  - apply lang_alt_l. auto.
  - apply lang_alt_r. auto.
  - discriminate.
  - destruct s1 as [| c1 s1']; simpl in E.
    + apply IH2 in E. exact E.
    + injection E as -> <-. constructor; auto.
Qed.

Lemma matches_lang s : forall r, Regex.matches r s = true <-> lang r s.
Proof.
  induction s as [| c s IH]; intros r; simpl.
  - apply nullable_lang.
  - rewrite IH. split; [apply deriv_sound |].
    intros H. now apply (deriv_complete c r (String c s)).
Qed.

Lemma lang_star_cls p w :
  lang (Regex.Star (Regex.Cls p)) w <-> allChars p w = true.
Proof.
  split.
  - intros H. remember (Regex.Star (Regex.Cls p)) as r eqn:Er.
    induction H; try discriminate; [reflexivity |].
    injection Er as ->. inversion H; subst. simpl.
    rewrite IHlang2 by reflexivity.
    match goal with Hc : p _ = true |- _ => now rewrite Hc end.
  - induction w as [| c w IH]; simpl; intros H; [constructor |].
    apply andb_true_iff in H. destruct H as [Hc Hw].
    change (String c w) with (String c "" ++ w)%string.
    constructor; [now constructor | auto].
Qed.

Lemma lang_plus_cls p w :
  lang (Regex.Plus (Regex.Cls p)) w
  <-> negb (String.eqb w "") && allChars p w = true.
Proof.
  unfold Regex.Plus. split.
  - intros H. inversion H as [| | ? ? s1 s2 H1 H2 | | | |]; subst.
    inversion H1; subst. apply lang_star_cls in H2. simpl.
    match goal with Hc : p _ = true |- _ => now rewrite Hc, H2 end.
  - destruct w as [| c w]; simpl; [discriminate |]. intros H.
    apply andb_true_iff in H. destruct H as [Hc Hw].
    change (String c w) with (String c "" ++ w)%string.
    constructor; [now constructor | now apply lang_star_cls].
Qed.

Lemma lang_char c s :
  lang (Regex.Cls (Ascii.eqb c)) s <-> s = String c "".
Proof.
  split.
  - intros H. inversion H as [| ? c0 Hc | | | | |]; subst.
    apply Ascii.eqb_eq in Hc. now subst.
  - intros ->. constructor. apply Ascii.eqb_refl.
Qed.

(** X24: isValidEmail accepts exactly the strings of the form
    [a ++ "@" ++ b ++ "." ++ c] in which [a], [b] and [c] are non-empty and
    hold neither whitespace nor [@]. *)
Theorem isValidEmail_shape email :
  isValidEmail email = true
  <-> exists a b c,
        email = (a ++ String "@" (b ++ String "." c))%string
        /\ addressWord a = true /\ addressWord b = true
        /\ addressWord c = true.
Proof.
  unfold isValidEmail, emailRegex, addressWord. rewrite matches_lang. split.
  - intros H.
    inversion H as [| | ? ? a s1 Ha H1 | | | |]; subst.
    inversion H1 as [| | ? ? at1 s2 Hat H2 | | | |]; subst.
    inversion H2 as [| | ? ? b s3 Hb H3 | | | |]; subst.
    inversion H3 as [| | ? ? dot c Hdot Hc | | | |]; subst.
    apply lang_char in Hat, Hdot. subst.
    apply lang_plus_cls in Ha, Hb, Hc.
    exists a, b, c. now repeat split.
  - intros (a & b & c & -> & Ha & Hb & Hc).
    apply lang_plus_cls in Ha, Hb, Hc.
    constructor; [assumption |].
    change (String "@" (b ++ String "." c))
      with (String "@" "" ++ (b ++ String "." c))%string.
    constructor; [now apply lang_char |].
    constructor; [assumption |].
    change (String "." c) with (String "." "" ++ c)%string.
    constructor; [now apply lang_char | assumption].
Qed.

Lemma isValidEmail_shape_witness : isValidEmail "e.k@hoops.co.uk" = true.
Proof.
  apply (proj2 (isValidEmail_shape "e.k@hoops.co.uk")).
  exists "e.k", "hoops.co", "uk". repeat split.
Defined.

(** * More on logging actual activities *)

(** ** The shooting upsert of the log endpoint *)

Lemma post_actual_shooting now s userId date completedAt makes :
  fst (post_actual now s userId date (Some "shooting") completedAt makes)
  = let '(s1, trainingDay) := getOrCreateTrainingDay s userId date in
    match Prisma.findFirstActual s1 (TrainingDay.id trainingDay) "shooting" with
    | Some existing =>
        Prisma.updateActual s1 (ActualActivity.id existing)
          (JS.nullish makes (ActualActivity.shootingMakes existing))
          (JS.nullish completedAt (ActualActivity.completedAt existing))
    | None =>
        Prisma.createActual s1 (TrainingDay.id trainingDay) "shooting"
          completedAt (Some (JS.or_zero makes))
    end.
Proof.
  unfold post_actual.
  change (JS.truthy (Some "shooting")) with true.
  change (JS.or_str (Some "shooting") "") with "shooting".
  change (JS.includes validTypes "shooting") with true.
  change (JS.includes fixedTypes "shooting") with false.
  change (String.eqb "shooting" "shooting") with true.
  simpl negb. cbv iota.
  destruct (getOrCreateTrainingDay s userId date) as [s1 day].
  apply sendDay_fst.
Qed.

(** X25: logging a shooting activity for a day that has one updates that
    record, keeping the stored make count and completion time where the
    body omits them; for a day that has none it creates one with the make
    count of the body, or 0, and the completion time of the body. *)
Theorem post_actual_shooting_upsert now s userId date completedAt makes :
  let dayId := TrainingDay.id (snd (getOrCreateTrainingDay s userId date)) in
  let s' := fst (post_actual now s userId date (Some "shooting") completedAt
                   makes) in
  match dayShooting s userId date with
  | Some existing =>
      Prisma.findFirstActual s' dayId "shooting"
      = Some (mergeActual existing completedAt makes)
  | None =>
      Prisma.findFirstActual s' dayId "shooting"
      = Some (ActualActivity.mk
                (freshId (map ActualActivity.id (actualTable s)))
                dayId "shooting" completedAt (Some (JS.or_zero makes)))
  end.
Proof.
  cbv zeta. rewrite post_actual_shooting. unfold dayShooting.
  fetch_day s userId date. cbn [snd].
  destruct (Prisma.findFirstActual s1 (TrainingDay.id day) "shooting")
    as [e |] eqn:E.
  - now rewrite (findFirstActual_update _ _ _ _ _ _ E).
  - rewrite (findFirstActual_create _ _ _ _ _ E). now rewrite Hactual.
Qed.

(** ** Switching a fixed activity off and on again *)

Lemma filter_singleton_find {A} (p : A -> bool) l x :
  filter p l = [x] -> find p l = Some x.
Proof.
  intros H. rewrite find_hd_filter, H. reflexivity.
Qed.

(** X26: on a day that holds exactly one actual activity of a fixed type
    (coach_skills, coach_weights or varsity), logging that type deletes the
    record, and logging it once more creates exactly one record again. *)
Theorem fixed_activity_off_then_on now now' s userId date ty c c' m m' :
  JS.includes fixedTypes ty = true ->
  List.length (dayActuals s userId date ty) = 1%nat ->
  let s1 := fst (post_actual now s userId date (Some ty) c m) in
  let s2 := fst (post_actual now' s1 userId date (Some ty) c' m') in
  dayActuals s1 userId date ty = []
  /\ List.length (dayActuals s2 userId date ty) = 1%nat.
Proof.
  intros Hty Hone. cbv zeta.
  rewrite !(post_actual_fixed _ _ _ _ _ _ _ Hty).
  unfold dayActuals in Hone.
  destruct (Prisma.findDay s userId date) as [d |] eqn:Ed;
    [| discriminate].
  unfold Prisma.findDay in Ed.
  destruct (find (Prisma.isUserDate userId date) (trainingDays s))
    as [row |] eqn:Erow; [| discriminate].
  injection Ed as <-. cbn [TrainingDay.actualActivities Prisma.includeAll]
    in Hone.
  rewrite (getOrCreate_found s userId date row Erow).
  cbn [TrainingDay.id Prisma.includeAll].
  destruct (filter (fun a => String.eqb (ActualActivity.type a) ty)
                   (Prisma.actualOf s (DayRow.id row)))
    as [| e [| e' l]] eqn:Ef; try discriminate.
  assert (He : Prisma.findFirstActual s (DayRow.id row) ty = Some e).
  { unfold Prisma.findFirstActual. rewrite find_filter_conj.
    apply filter_singleton_find. exact Ef. }
  rewrite He.
  set (s1 := Prisma.deleteActual s (ActualActivity.id e)).
  assert (Hrow1 : find (Prisma.isUserDate userId date) (trainingDays s1)
                  = Some row) by exact Erow.
  assert (Hempty : filter (fun a => String.eqb (ActualActivity.type a) ty)
                          (Prisma.actualOf s1 (DayRow.id row)) = []).
  { unfold s1, Prisma.actualOf, Prisma.deleteActual. cbn [actualTable].
    rewrite (filter_swap _ (fun a => negb _)), filter_swap.
    unfold Prisma.actualOf in Ef. rewrite Ef. simpl.
    now rewrite Nat.eqb_refl. }
  split.
  - now rewrite (dayActuals_found s1 userId date ty row Hrow1).
  - rewrite (getOrCreate_found s1 userId date row Hrow1).
    cbn [TrainingDay.id Prisma.includeAll].
    assert (Hnone : Prisma.findFirstActual s1 (DayRow.id row) ty = None).
    { unfold Prisma.findFirstActual. now apply find_and_filter. }
    rewrite Hnone.
    exact (proj1 (toggle_twice now' now' s1 userId date ty c' c' row
                    Hrow1 Hnone)).
Qed.

Lemma fixed_activity_off_then_on_witness :
  let s0 := fst (post_actual "08:00" twoPickups 7 100 (Some "coach_skills")
                   None None) in
  let s1 := fst (post_actual "08:01" s0 7 100 (Some "coach_skills") None
                   None) in
  let s2 := fst (post_actual "08:02" s1 7 100 (Some "coach_skills") None
                   None) in
  dayActuals s1 7 100 "coach_skills" = []
  /\ List.length (dayActuals s2 7 100 "coach_skills") = 1%nat.
Proof.
  cbv zeta.
  apply (fixed_activity_off_then_on "08:01" "08:02" _ 7 100 "coach_skills"
           None None None None); reflexivity.
Defined.

(** ** What the quick update answers *)

Lemma put_shooting_sends now s userId date makes completedAt :
  put_shooting now s userId date (Some makes) completedAt
  = sendDay (fst (put_shooting now s userId date (Some makes) completedAt))
      200 (TrainingDay.id (snd (getOrCreateTrainingDay s userId date))).
Proof.
  unfold put_shooting.
  destruct (getOrCreateTrainingDay s userId date) as [s1 day].
  cbn [snd]. now rewrite sendDay_fst.
Qed.

Lemma lastOf_single {A} (p : A -> bool) l x :
  filter p l = [x] -> lastOf p l = Some x.
Proof.
  intros H. unfold lastOf. rewrite find_hd_filter.
  assert (G : forall k, filter p (rev k) = rev (filter p k)).
  { induction k as [| a k IH]; [reflexivity |]. simpl.
    rewrite filter_app, IH. simpl. destruct (p a); simpl;
      [reflexivity | apply app_nil_r]. }
  now rewrite G, H.
Qed.

(** X27: in a well-formed store whose days hold at most one shooting
    activity each, the quick shooting update answers 200 with the view of
    the requested date, and the view shows the make count of the request
    and the completion time now stored with the day's shooting activity. *)
Theorem put_shooting_response now s userId date makes completedAt :
  wellFormed s = true ->
  singleActual s = true ->
  let r := put_shooting now s userId date (Some makes) completedAt in
  let dayId := TrainingDay.id (snd (getOrCreateTrainingDay s userId date)) in
  exists view a,
    snd r = mkResponse 200 (DayBody view)
    /\ View.id view = dayId
    /\ View.date view = date
    /\ View.shootingMakes (View.actual view) = makes
    /\ Prisma.findFirstActual (fst r) dayId "shooting" = Some a
    /\ View.shootingCompletedAt (View.actual view)
       = ActualActivity.completedAt a.
Proof.
  rewrite wellFormed_spec, singleActual_spec. intros Hwf Hsingle. cbv zeta.
  destruct (put_shooting_record now s userId date makes completedAt)
    as (row & a & Hrow & Hid & Ha & Hm & _).
  rewrite put_shooting_sends, sendDay_fst.
  set (s2 := fst (put_shooting now s userId date (Some makes) completedAt))
    in *.
  assert (Hwf2 : WF s2)
    by exact (handle_WF now 0 userId s
                (PutShooting date (Some makes) completedAt) Hwf).
  assert (Hcount : (actualCount s2 (DayRow.id row) "shooting"
                    <= Nat.max 1 (actualCount s (DayRow.id row) "shooting"))%nat)
    by exact (handle_actualCount now 0 userId s
                (PutShooting date (Some makes) completedAt)
                (DayRow.id row) "shooting" (or_introl eq_refl)).
  rewrite <- Hid.
  pose proof (find_some _ _ Hrow) as [Hin Hk].
  unfold Prisma.isUserDate in Hk. apply andb_true_iff in Hk.
  destruct Hk as [_ Hd]. apply Z.eqb_eq in Hd.
  assert (Hfound : Prisma.findDayById s2 (DayRow.id row)
                   = Some (Prisma.includeAll s2 row)).
  { unfold Prisma.findDayById.
    pose proof (findDayRow_unique s2 row (wf_days s2 Hwf2) Hin) as Hr.
    unfold Prisma.findDayRow in Hr. now rewrite Hr. }
  unfold sendDay. rewrite Hfound.
  assert (Hone : filter (actualOfType "shooting")
                        (Prisma.actualOf s2 (DayRow.id row)) = [a]).
  { pose proof Ha as Hf. unfold Prisma.findFirstActual in Hf.
    rewrite find_filter_conj, find_hd_filter in Hf.
    specialize (Hsingle (DayRow.id row) "shooting" (or_introl eq_refl)).
    assert (Hle : (actualCount s2 (DayRow.id row) "shooting" <= 1)%nat)
      by lia.
    unfold actualCount, Prisma.actualOf, actualOfType in *.
    destruct (filter _ (filter _ (actualTable s2))) as [| x [| y l]];
      simpl in Hf, Hle; [discriminate | congruence | lia]. }
  pose proof (fold_actual_shooting (Prisma.actualOf s2 (DayRow.id row)))
    as Hfold. cbv zeta in Hfold.
  rewrite (lastOf_single isShootingActual _ a Hone) in Hfold.
  cbn [shootingState] in Hfold. rewrite Hm in Hfold.
  injection Hfold as Hmakes Htime.
  eexists _, a. split; [reflexivity |].
  unfold formatTrainingDayResponse.
  cbn [View.id View.date View.actual TrainingDay.id TrainingDay.date
       TrainingDay.actualActivities Prisma.includeAll].
  repeat split; try assumption.
  rewrite Hmakes. simpl. now destruct (makes =? 0) eqn:E;
    [apply Z.eqb_eq in E |].
Qed.

Lemma put_shooting_response_witness :
  exists view a,
    snd (put_shooting "19:00" twoPickups 7 100 (Some 240) None)
    = mkResponse 200 (DayBody view)
    /\ View.id view = 1%nat
    /\ View.date view = 100
    /\ View.shootingMakes (View.actual view) = 240
    /\ Prisma.findFirstActual
         (fst (put_shooting "19:00" twoPickups 7 100 (Some 240) None)) 1
         "shooting" = Some a
    /\ View.shootingCompletedAt (View.actual view)
       = ActualActivity.completedAt a.
Proof.
  apply (put_shooting_response "19:00" twoPickups 7 100 240 None);
    reflexivity.
Defined.
